(** * New-tab dashboard: settings propagation, background selection,
      clock formatting and usage counters

    A shallow embedding of the JavaScript modules of the extension
    (scripts/clock.js, scripts/app.js, scripts/background.js,
    scripts/pinned-apps.js, the stats tracker and the settings manager)
    together with the properties stated about them.

    Conventions.
    - JS integers are [Z]; the remainder operator [%] is [Z.rem]
      (truncated, sign of the dividend).
    - Plain JS objects used as records with dynamic fields are
      [gmap string _]; object spread [{...a, ...b}] is the left-biased
      union [b ∪ a].
    - Asynchronous functions are run to completion: a rejected promise
      is a [Throw] outcome, a resolved one an [Ok] outcome.
    - Everything the environment decides (the wall clock, the random
      generator, whether an image decodes, whether storage or the
      network fails) is an explicit argument.
    - [Math.random()] is the double [m / 2^53] for an integer [m]; its
      product with an array length is rounded to the nearest double,
      ties to even, before [Math.floor] is applied.
    - A number field that can be missing is a [Js.num]: an integer,
      [NaN] or [undefined]. *)

From Stdlib Require Import ZArith QArith Lia Ascii.
From stdpp Require Import gmap strings list fin_maps pretty.

Set Warnings "-register-all".
Open Scope string_scope.
Open Scope Z_scope.

(* ===================================================================== *)
(** ** JavaScript string and number helpers *)
(* ===================================================================== *)

Module Js.

(** [Number.prototype.toString] on an integer: its decimal numeral. *)
Definition toString (n : Z) : string := pretty n.

(** The first [k] characters of [cur] followed by [pad] repeated for
    ever; the empty string when [pad] is empty. *)
Fixpoint fill (k : nat) (pad cur : string) : string :=
  match k with
  | O => ""
  | S k' =>
      match cur with
      | String c r => String c (fill k' pad r)
      | EmptyString =>
          match pad with
          | String c r => String c (fill k' pad r)
          | EmptyString => ""
          end
      end
  end.

(** [String.prototype.padStart(targetLength, padString)]. *)
Definition padStart (target : nat) (pad : string) (s : string) : string :=
  if (target <=? String.length s)%nat then s
  else fill (target - String.length s) pad pad ++ s.

(** The character of a decimal digit [0..9]. *)
Definition digit (d : Z) : ascii := ascii_of_nat (48 + Z.to_nat d).

(** What a field that should hold an integer can hold: an integer,
    [NaN], or nothing at all ([undefined]). *)
Inductive num := Num (z : Z) | NaN | Undefined.

(** [(x + 1) % n] for an array length [n]: [undefined + 1] and
    [NaN + 1] are [NaN], and so is every remainder by 0. *)
Definition succ_rem (x : num) (n : Z) : num :=
  match x with
  | Num z => if n =? 0 then NaN else Num (Z.rem (z + 1) n)
  | _ => NaN
  end.

(** [x >= n] for an array length [n]: false when [x] is [NaN] or
    [undefined]. *)
Definition ge (x : num) (n : Z) : bool :=
  match x with
  | Num z => n <=? z
  | _ => false
  end.

(** [x < n] for an array length [n]: false when [x] is [NaN] or
    [undefined]. *)
Definition lt (x : num) (n : Z) : bool :=
  match x with
  | Num z => z <? n
  | _ => false
  end.

(** The integer a number holds; [-1], which is no index of any array,
    for [NaN] and [undefined]. *)
Definition integer (x : num) : Z :=
  match x with
  | Num z => z
  | _ => -1
  end.

(** The product of two doubles whose exact value is [p / 2^53], for a
    natural number [p], as the numerator of the double it is rounded
    to: [p] rounded to 53 significant bits, to the nearest and, on a
    tie, to the even one. *)
Definition round53 (p : Z) : Z :=
  let s := Z.log2 p - 52 in
  if s <=? 0 then p
  else
    let q := p / 2 ^ s in
    let r := p mod 2 ^ s in
    let half := 2 ^ (s - 1) in
    (if (half <? r) || ((r =? half) && Z.odd q) then q + 1 else q) * 2 ^ s.

End Js.

Coercion Js.Num : Z >-> Js.num.

(* ===================================================================== *)
(** ** Clock: scripts/clock.js and [utils.formatTime] of scripts/app.js *)
(* ===================================================================== *)

Module Clock.

(** What [new Date()] gives [updateClock]: [getHours()], [getMinutes()],
    [getSeconds()]. *)
Record time := Time { getHours : Z; getMinutes : Z; getSeconds : Z }.

(** The two settings [updateClock] reads. *)
Record flags := Flags { use24HourFormat : bool; showSeconds : bool }.

(** [ClockManager.padZero]. *)
Definition padZero (num : Z) : string := Js.padStart 2 "0" (Js.toString num).

(** [ClockManager.updateClock]: the string written to the clock
    element. *)
Definition updateClock (settings : flags) (now : time) : string :=
  let hours := getHours now in
  let minutes := getMinutes now in
  let seconds := getSeconds now in
  let timeString :=
    if use24HourFormat settings then
      padZero hours ++ ":" ++ padZero minutes
    else
      let ampm := if 12 <=? hours then "PM" else "AM" in
      let hours := Z.rem hours 12 in
      let hours := if hours =? 0 then 12 else hours in
      padZero hours ++ ":" ++ padZero minutes ++ " " ++ ampm in
  if showSeconds settings then timeString ++ ":" ++ padZero seconds
  else timeString.

(** [window.utils.formatTime(hours, minutes, seconds, format24 = false,
    showSeconds = true)]; an omitted argument is [None]. *)
Definition formatTime (hours minutes seconds : Z)
    (format24 showSeconds : option bool) : string :=
  let format24 := default false format24 in
  let showSeconds := default true showSeconds in
  let period :=
    if negb format24 then (if 12 <=? hours then " PM" else " AM") else "" in
  let formattedHours :=
    if negb format24 then
      (let r := Z.rem hours 12 in if r =? 0 then 12 else r)
    else hours in
  let timeString :=
    Js.padStart 2 "0" (Js.toString formattedHours) ++ ":" ++
    Js.padStart 2 "0" (Js.toString minutes) in
  let secondsString :=
    if showSeconds then ":" ++ Js.padStart 2 "0" (Js.toString seconds)
    else "" in
  timeString ++ secondsString ++ period.

(** The two characters of a number below one hundred. *)
Definition two_digits (n : Z) : string :=
  String (Js.digit (n / 10)) (String (Js.digit (n mod 10)) "").

(** The hour shown in 12-hour mode. *)
Definition hour12 (h : Z) : Z :=
  let r := Z.rem h 12 in if r =? 0 then 12 else r.

End Clock.

(* ===================================================================== *)
(** ** Outcomes of calls that can throw, and a state monad over them *)
(* ===================================================================== *)

(** A call either returns or throws [new Error(msg)]. *)
Inductive result (A : Type) : Type :=
  | Ok (a : A)
  | Throw (msg : string).
Arguments Ok {A} a.
Arguments Throw {A} msg.

(** Mutations made before a throw stay: the state is returned next to
    the outcome. *)
Definition M (S A : Type) : Type := S -> result A * S.

Definition ret {S A} (a : A) : M S A := fun s => (Ok a, s).
Definition throw {S A} (msg : string) : M S A := fun s => (Throw msg, s).
Definition bind {S A B} (m : M S A) (k : A -> M S B) : M S B :=
  fun s => match m s with
           | (Ok a, s') => k a s'
           | (Throw e, s') => (Throw e, s')
           end.
(** [try { body } catch (error) { handler }]. *)
Definition try_catch {S A} (body : M S A) (handler : string -> M S A) : M S A :=
  fun s => match body s with
           | (Ok a, s') => (Ok a, s')
           | (Throw e, s') => handler e s'
           end.
Definition get {S} : M S S := fun s => (Ok s, s).
Definition gets {S A} (f : S -> A) : M S A := fun s => (Ok (f s), s).
Definition modify {S} (f : S -> S) : M S unit := fun s => (Ok tt, f s).

#[global] Instance M_ret {S} : MRet (M S) := fun A => @ret S A.
#[global] Instance M_bind {S} : MBind (M S) := fun A B k m => @bind S A B m k.

(* ===================================================================== *)
(** ** Background engine: scripts/background.js *)
(* ===================================================================== *)

Module Background.

(** [settings.uploadSettings]: the pool of uploaded images, an array of
    data URLs, and its cursor: 0 from the constructor, then advanced
    modulo the length; [undefined] when the object has no
    [currentIndex] field, as the one the settings panel publishes, and
    [NaN] once such a cursor has been advanced. *)
Module Upload.
Record t := Make {
  images : list string;
  cycle : string;         (* 'refresh', 'newtab' *)
  order : string;         (* 'random', 'sequential' *)
  currentIndex : Js.num
}.
End Upload.

(** [settings.apiSettings]. The constructor gives it no [order] and no
    [cycle] field: they read as [undefined], here [None]. *)
Module Api.
Record t := Make {
  source : string;
  apiKey : string;
  query : string;
  images : list string;
  currentIndex : Z;
  order : option string;
  cycle : option string
}.
End Api.

(** [settings.colorSettings] and [settings.gradientSettings]. *)
Module Color.
Record t := Make { color : string }.
End Color.

Module Gradient.
Record t := Make { type : string; color1 : string; color2 : string }.
End Gradient.

Record settings := Settings {
  backgroundType : string;  (* upload, color, gradient, api *)
  uploadSettings : Upload.t;
  colorSettings : Color.t;
  gradientSettings : Gradient.t;
  apiSettings : Api.t
}.

(** The inline style of [#background-container]. *)
Record style := Style {
  backgroundImage : string;
  backgroundColor : string;
  transition : string
}.

(** The engine: [this.settings], the container's style, and the value
    under the key [backgroundSettings] of [chrome.storage.sync]. *)
Record engine := Engine {
  this_settings : settings;
  backgroundContainer : style;
  stored : option settings
}.

(** A [fetch] call and what it resolves or rejects with. *)
Record request := Request { url : option string; authorization : option string }.
Inductive response :=
  | NetworkError (msg : string)           (* fetch rejects *)
  | Status (code : Z)                     (* response.ok is false *)
  | Unparsable (msg : string)             (* response.json() rejects *)
  | Body (photos : option (list string)). (* ok; the image URLs the
       mapping extracts, [None] when the mapping throws on the shape *)

(** What the environment decides during one call. *)
Record env := Env {
  random : Z;                 (* Math.random() = random / 2^53 *)
  decodes : string -> bool;   (* img.onload (true) or img.onerror *)
  fetch : request -> response;
  storage_set_ok : bool       (* chrome.storage.sync.set resolves *)
}.

Definition set_upload (f : Upload.t -> Upload.t) (e : engine) : engine :=
  let s := this_settings e in
  Engine (Settings (backgroundType s) (f (uploadSettings s)) (colorSettings s)
            (gradientSettings s) (apiSettings s))
         (backgroundContainer e) (stored e).

Definition set_api (f : Api.t -> Api.t) (e : engine) : engine :=
  let s := this_settings e in
  Engine (Settings (backgroundType s) (uploadSettings s) (colorSettings s)
            (gradientSettings s) (f (apiSettings s)))
         (backgroundContainer e) (stored e).

Definition set_style (f : style -> style) (e : engine) : engine :=
  Engine (this_settings e) (f (backgroundContainer e)) (stored e).

(** [images[i]] interpolated into a string: ['undefined'] when [i] is
    not an index of the array. *)
Definition nth_url (images : list string) (i : Js.num) : string :=
  match i with
  | Js.Num z =>
      if z <? 0 then "undefined"
      else default "undefined" (images !! Z.to_nat z)
  | _ => "undefined"
  end.

(** [Math.floor(Math.random() * n)] for an array length [n] (below
    [2^32], so a double): the product of the two doubles is rounded
    before the floor is taken. *)
Definition random_index (ev : env) (n : Z) : Z :=
  Js.round53 (random ev * n) / 2 ^ 53.

(** The constructor's [this.settings]. *)
Definition default_settings : settings :=
  Settings "upload"
    (Upload.Make [] "refresh" "random" 0)
    (Color.Make "#1a1a1a")
    (Gradient.Make "linear" "#667eea" "#764ba2")
    (Api.Make "unsplash" "" "nature" [] 0 None None).

(** [saveSettings]: the write is inside [try]/[catch], a failure is
    only logged. *)
Definition saveSettings (ev : env) : M engine unit :=
  modify (fun e =>
    if storage_set_ok ev
    then Engine (this_settings e) (backgroundContainer e) (Some (this_settings e))
    else e).

(** [applyColorBackground]. *)
Definition applyColorBackground : M engine unit :=
  modify (fun e =>
    let color := Color.color (colorSettings (this_settings e)) in
    set_style (fun st => Style "none" color (transition st)) e).

(** [applyGradientBackground]. *)
Definition applyGradientBackground : M engine unit :=
  modify (fun e =>
    let g := gradientSettings (this_settings e) in
    let gradient :=
      if String.eqb (Gradient.type g) "linear"
      then "linear-gradient(135deg, " ++ Gradient.color1 g ++ ", "
           ++ Gradient.color2 g ++ ")"
      else "radial-gradient(circle, " ++ Gradient.color1 g ++ ", "
           ++ Gradient.color2 g ++ ")" in
    set_style (fun st => Style gradient "transparent" (transition st)) e).

(** [setBackgroundImage]: the promise resolves from [img.onload] after
    the style is set, and rejects from [img.onerror]. *)
Definition setBackgroundImage (ev : env) (imageUrl : string) : M engine unit :=
  if decodes ev imageUrl then
    modify (set_style (fun _ =>
      Style ("url(" ++ imageUrl ++ ")") "transparent"
            "background-image 0.5s ease-in-out"))
  else throw "Failed to load image".

(** Lines 102-109 of [applyUploadBackground]: the index picked, and the
    cursor advanced in sequential order. *)
Definition nextUploadIndex (ev : env) : M engine Js.num :=
  up ← gets (fun e => uploadSettings (this_settings e));
  let len := Z.of_nat (length (Upload.images up)) in
  if String.eqb (Upload.order up) "random" then
    mret (Js.Num (random_index ev len))
  else
    modify (set_upload (fun u =>
      Upload.Make (Upload.images u) (Upload.cycle u) (Upload.order u)
                  (Js.succ_rem (Upload.currentIndex u) len)));;
    mret (Upload.currentIndex up).

(** [applyUploadBackground]. *)
Definition applyUploadBackground (ev : env) : M engine unit :=
  up ← gets (fun e => uploadSettings (this_settings e));
  if (length (Upload.images up) =? 0)%nat then
    applyColorBackground
  else
    imageIndex ← nextUploadIndex ev;
    let imageUrl := nth_url (Upload.images up) imageIndex in
    setBackgroundImage ev imageUrl;;
    saveSettings ev.

(** [fetchApiImages]. *)
Definition fetchApiImages (ev : env) : M engine unit :=
  api ← gets (fun e => apiSettings (this_settings e));
  let url :=
    if String.eqb (Api.source api) "unsplash" then
      Some ("https://api.unsplash.com/photos/random?query=" ++ Api.query api
            ++ "&count=10&client_id=" ++ Api.apiKey api)
    else if String.eqb (Api.source api) "pexels" then
      Some ("https://api.pexels.com/v1/search?query=" ++ Api.query api
            ++ "&per_page=10")
    else None in
  let headers :=
    if String.eqb (Api.source api) "pexels" then Some (Api.apiKey api) else None in
  match fetch ev (Request url headers) with
  | NetworkError msg => throw msg
  | Status code => throw ("API request failed: " ++ Js.toString code)
  | Unparsable msg => throw msg
  | Body photos =>
      (if String.eqb (Api.source api) "unsplash"
          || String.eqb (Api.source api) "pexels" then
         match photos with
         | Some urls =>
             modify (set_api (fun a =>
               Api.Make (Api.source a) (Api.apiKey a) (Api.query a) urls
                        (Api.currentIndex a) (Api.order a) (Api.cycle a)))
         | None => throw "Cannot read properties of undefined"
         end
       else mret tt);;
      modify (set_api (fun a =>
        Api.Make (Api.source a) (Api.apiKey a) (Api.query a) (Api.images a)
                 0 (Api.order a) (Api.cycle a)))
  end.

(** Lines 163-170 of [applyApiBackground]. *)
Definition nextApiIndex (ev : env) : M engine Z :=
  api ← gets (fun e => apiSettings (this_settings e));
  let len := Z.of_nat (length (Api.images api)) in
  if bool_decide (Api.order api = Some "random") then
    mret (random_index ev len)
  else
    modify (set_api (fun a =>
      Api.Make (Api.source a) (Api.apiKey a) (Api.query a) (Api.images a)
               (Z.rem (Api.currentIndex a + 1) len) (Api.order a) (Api.cycle a)));;
    mret (Api.currentIndex api).

(** [applyApiBackground]. *)
Definition applyApiBackground (ev : env) : M engine unit :=
  api ← gets (fun e => apiSettings (this_settings e));
  if String.eqb (Api.apiKey api) "" then
    applyColorBackground
  else
    try_catch
      ((if (length (Api.images api) =? 0)%nat then fetchApiImages ev
        else mret tt);;
       api ← gets (fun e => apiSettings (this_settings e));
       if (0 <? length (Api.images api))%nat then
         imageIndex ← nextApiIndex ev;
         let imageUrl := nth_url (Api.images api) (Js.Num imageIndex) in
         setBackgroundImage ev imageUrl;;
         saveSettings ev
       else mret tt)
      (fun _ => applyColorBackground).

(** [applyBackground]. *)
Definition applyBackground (ev : env) : M engine unit :=
  ty ← gets (fun e => backgroundType (this_settings e));
  if String.eqb ty "upload" then applyUploadBackground ev
  else if String.eqb ty "color" then applyColorBackground
  else if String.eqb ty "gradient" then applyGradientBackground
  else if String.eqb ty "api" then applyApiBackground ev
  else applyColorBackground.

(** [images.splice(index, 1)] for an index of the array. *)
Definition splice1 {A} (index : nat) (l : list A) : list A :=
  take index l ++ drop (S index) l.

(** [removeUploadedImage]. *)
Definition removeUploadedImage (ev : env) (index : Z) : M engine unit :=
  up ← gets (fun e => uploadSettings (this_settings e));
  if (0 <=? index) && (index <? Z.of_nat (length (Upload.images up))) then
    modify (set_upload (fun u =>
      Upload.Make (splice1 (Z.to_nat index) (Upload.images u))
                  (Upload.cycle u) (Upload.order u) (Upload.currentIndex u)));;
    modify (set_upload (fun u =>
      if Js.ge (Upload.currentIndex u) (Z.of_nat (length (Upload.images u)))
      then Upload.Make (Upload.images u) (Upload.cycle u) (Upload.order u) 0
      else u));;
    saveSettings ev
  else mret tt.

(** [addUploadedImage]: [file] is what the [FileReader] produces, the
    data URL or [None] on a read error. *)
Definition addUploadedImage (ev : env) (file : option string) : M engine string :=
  match file with
  | Some imageDataUrl =>
      modify (set_upload (fun u =>
        Upload.Make (Upload.images u ++ [imageDataUrl])
                    (Upload.cycle u) (Upload.order u) (Upload.currentIndex u)));;
      saveSettings ev;;
      mret imageDataUrl
  | None => throw "Failed to read file"
  end.

(** [getUploadedImages]. *)
Definition getUploadedImages (e : engine) : list string :=
  Upload.images (uploadSettings (this_settings e)).

(** The engine right after the constructor, before anything is loaded
    or drawn. *)
Definition new : engine := Engine default_settings (Style "" "" "") None.

(** The upload pool's length, its cursor
    [this.settings.uploadSettings.currentIndex], and the cursor as an
    integer ([-1] when it is [NaN] or [undefined]). *)
Definition pool_size (e : engine) : Z :=
  Z.of_nat (length (Upload.images (uploadSettings (this_settings e)))).
Definition upload_cursor (e : engine) : Js.num :=
  Upload.currentIndex (uploadSettings (this_settings e)).
Definition cursor (e : engine) : Z :=
  Js.integer (Upload.currentIndex (uploadSettings (this_settings e))).
Definition sequential (e : engine) : Prop :=
  Upload.order (uploadSettings (this_settings e)) <> "random".

(** The index a call of [applyUploadBackground] picks in the state
    [e]. *)
Definition picked (ev : env) (e : engine) : Js.num :=
  match fst (nextUploadIndex ev e) with
  | Ok i => i
  | Throw _ => Js.Undefined
  end.

(** Successive calls of [applyUploadBackground], one per element of
    [evs]: the indices they pick, and the engine they leave. *)
Fixpoint picks (evs : list env) (e : engine) : list Js.num :=
  match evs with
  | [] => []
  | ev :: evs' => picked ev e :: picks evs' (snd (applyUploadBackground ev e))
  end.
Definition calls (evs : list env) (e : engine) : engine :=
  foldl (fun e ev => snd (applyUploadBackground ev e)) e evs.

(** The operations on the upload pool. *)
Inductive op :=
  | Select (ev : env)
  | Remove (ev : env) (index : Z)
  | Add (ev : env) (file : option string).
Definition step (e : engine) (o : op) : engine :=
  match o with
  | Select ev => snd (applyUploadBackground ev e)
  | Remove ev index => snd (removeUploadedImage ev index e)
  | Add ev file => snd (addUploadedImage ev file e)
  end.
Definition run (ops : list op) (e : engine) : engine := foldl step e ops.

(** The cursor is an index of the pool, or 0 when the pool is empty. *)
Definition cursor_ok (e : engine) : Prop :=
  0 <= cursor e /\ (cursor e < pool_size e \/ cursor e = 0).

(** The container shows the solid colour of the settings. *)
Definition shows_color (e : engine) : Prop :=
  backgroundImage (backgroundContainer e) = "none"
  /\ backgroundColor (backgroundContainer e) = Color.color (colorSettings (this_settings e)).

(** [fetchApiImages] throws. *)
Definition fetch_fails (ev : env) (e : engine) : bool :=
  match fst (fetchApiImages ev e) with
  | Throw _ => true
  | Ok _ => false
  end.

(** The index the API branch picks in the state [e]. *)
Definition picked_api (ev : env) (e : engine) : Z :=
  match fst (nextApiIndex ev e) with
  | Ok i => i
  | Throw _ => -1
  end.

(** Examples: an environment where every image decodes and storage
    works, and an engine with three uploaded images taken in order. *)
Definition fair_weather : env :=
  Env 0 (fun _ => true) (fun _ => NetworkError "offline") true.
Definition three_images : engine :=
  Engine (Settings "upload"
            (Upload.Make ["a.png"; "b.png"; "c.png"] "newtab" "sequential" 0)
            (colorSettings default_settings) (gradientSettings default_settings)
            (apiSettings default_settings))
         (Style "" "" "") None.

(** Example: the engine once the settings panel, with the sequential
    order chosen and no image of its own, has been saved: its
    [uploadSettings] is the panel's object [{ images: [], cycle:
    'refresh', order: 'sequential' }], which has no [currentIndex]. *)
Definition after_panel_save : engine :=
  Engine (Settings "upload"
            (Upload.Make [] "refresh" "sequential" Js.Undefined)
            (colorSettings default_settings) (gradientSettings default_settings)
            (apiSettings default_settings))
         (Style "" "" "") None.

(** Examples: an environment where no image decodes, and an engine in
    API mode with a key and three cached images. *)
Definition broken_images : env :=
  Env 0 (fun _ => false) (fun _ => NetworkError "offline") true.
Definition three_api_images : engine :=
  Engine (Settings "api"
            (uploadSettings default_settings)
            (colorSettings default_settings) (gradientSettings default_settings)
            (Api.Make "unsplash" "key" "nature" ["x.jpg"; "y.jpg"; "z.jpg"] 0 None None))
         (Style "" "" "") None.

End Background.

(* ===================================================================== *)
(** ** Stats tracker *)
(* ===================================================================== *)

Module Stats.

Record session := Session { date : string; duration : Z; tabsOpened : Z }.

(** [this.stats]. The two dates are ISO strings or [null]. *)
Record stats := Make {
  totalUsageTime : Z;
  tabsOpenedToday : Z;
  totalTabsOpened : Z;
  firstUseDate : option string;
  lastActiveDate : option string;
  trackersBlocked : Z;
  sessions : list session
}.

(** The tracker: [this.stats] and the value under the key [statsData]
    of [chrome.storage.sync]. *)
Record tracker := Tracker { this_stats : stats; stored : option stats }.

(** The constructor's [this.stats]. *)
Definition initial : stats := Make 0 0 0 None None 0 [].

(** [Date]: an instant is a number of milliseconds; the three
    conversions the tracker uses are those of the host. *)
Record calendar := Calendar {
  toDateString : Z -> string;        (* date.toDateString(), local day *)
  toISOString : Z -> string;         (* date.toISOString() *)
  parse : string -> Z                (* new Date(isoString) *)
}.

Section WithCalendar.
Variable cal : calendar.

(** A string or [null] tested as a condition. *)
Definition truthy (s : option string) : bool :=
  match s with
  | Some s => negb (String.eqb s "")
  | None => false
  end.

(** [saveStats]; a failed write is only logged. *)
Definition saveStats (storage_set_ok : bool) (t : tracker) : tracker :=
  if storage_set_ok then Tracker (this_stats t) (Some (this_stats t)) else t.







End WithCalendar.

(** The number a string of decimal digits denotes. *)
Fixpoint decimal (acc : Z) (s : string) : Z :=
  match s with
  | EmptyString => acc
  | String c r => decimal (10 * acc + (Z.of_nat (nat_of_ascii c) - 48)) r
  end.

(** A calendar for examples: days of 86400000 ms counted from the
    epoch, instants written as decimal numerals. *)
Definition day_calendar : calendar :=
  Calendar (fun t => "day " ++ Js.toString (t / 86400000))
           Js.toString
           (decimal 0).


End Stats.

(* ===================================================================== *)
(** ** JSON values: what storage and event payloads hold *)
(* ===================================================================== *)

Module Json.

Inductive jval :=
  | JNull
  | JBool (b : bool)
  | JNum (q : Q)
  | JStr (s : string)
  | JArr (l : list jval)
  | JObj (o : gmap string jval).

(** A value or [undefined] used as a condition. *)
Definition truthy (v : option jval) : bool :=
  match v with
  | None | Some JNull => false
  | Some (JBool b) => b
  | Some (JNum q) => negb (Qnum q =? 0)
  | Some (JStr s) => negb (String.eqb s "")
  | Some (JArr _) | Some (JObj _) => true
  end.

Definition index_props (l : list jval) : gmap string jval :=
  list_to_map (imap (fun i x => (Js.toString (Z.of_nat i), x)) l).

Fixpoint chars (s : string) : list jval :=
  match s with
  | EmptyString => []
  | String c r => JStr (String c "") :: chars r
  end.

(** The own enumerable properties object spread copies: the fields of
    an object, the indices of an array or of a string, nothing for the
    other values (and for [undefined]). *)
Definition own_props (v : option jval) : gmap string jval :=
  match v with
  | Some (JObj o) => o
  | Some (JArr l) => index_props l
  | Some (JStr s) => index_props (chars s)
  | _ => ∅
  end.

(** [{ ...target, ...source }]. *)
Definition spread (target : gmap string jval) (source : option jval)
  : gmap string jval :=
  own_props source ∪ target.

(** [v[prop]] for a property name that is not inherited: it throws on
    [null] and [undefined]; [None] is [undefined]. *)
Definition getProp (v : option jval) (prop : string) : result (option jval) :=
  match v with
  | None => Throw ("Cannot read properties of undefined (reading '" ++ prop ++ "')")
  | Some JNull => Throw ("Cannot read properties of null (reading '" ++ prop ++ "')")
  | _ => Ok (own_props v !! prop)
  end.

(** The value at a path of field names inside a document. *)
Definition lookup_path (v : jval) (path : list string) : option jval :=
  foldl (fun acc p => match acc with
                      | Some (JObj o) => o !! p
                      | _ => None
                      end)
        (Some v) path.

End Json.

(* ===================================================================== *)
(** ** The page: settings manager, feature modules and the event bus *)
(* ===================================================================== *)

Module App.
Import Json.

(** [new CustomEvent(type, { detail })]; an [undefined] detail is
    [None]. *)
Record event := CustomEvent { type : string; detail : option jval }.

(** [SettingsManager]: [this.settings] and the status line. *)
Record manager := Manager {
  settings : gmap string jval;
  statusMessage : option (string * string)   (* textContent, type *)
}.

(** [ClockManager]: [this.settings], whether the container carries the
    class [hidden], the clock text, and the period of the running
    timer. *)
Record clock := ClockManager {
  clock_settings : gmap string jval;
  clock_hidden : bool;
  clockText : string;
  interval : option Z
}.

(** [PinnedAppsManager]: [this.settings] and what [applySettings] last
    wrote: the icon padding, whether names are hidden, the icon
    opacity. *)
Record apps := PinnedAppsManager {
  apps_settings : gmap string jval;
  iconPaddingCss : option jval;
  namesHidden : bool;
  iconOpacity : option jval
}.

(** [BackgroundEngine] as the bus sees it: [this.settings] as the
    object it is, and how many times [applyBackground] was started. The
    drawing is [Background.applyBackground]. *)
Record background := BackgroundEngine {
  background_settings : gmap string jval;
  redraws : nat
}.

(** [StatsTracker] as the bus sees it: whether a tracking timer runs
    and the [display] of the stats container. *)
Record stats := StatsTracker {
  tracking : bool;
  display : string
}.

(** The page. [storage] is [chrome.storage.sync]; [dispatched] lists
    the calls of [document.dispatchEvent], oldest first. *)
Record app := Page {
  storage : gmap string jval;
  settingsManager : manager;
  clockManager : clock;
  pinnedAppsManager : apps;
  backgroundEngine : background;
  statsTracker : stats;
  dispatched : list event
}.

(** What the environment decides during one user action. *)
Record env := Env {
  now : Clock.time;
  storage_get_ok : bool;
  storage_set_ok : string -> bool    (* per key written *)
}.

(** [chrome.storage.sync.set({ key: value })]; [false] when it
    rejects. *)
Definition storage_set (ev : env) (key : string) (value : jval) (a : app)
  : bool * app :=
  if storage_set_ok ev key then
    (true, Page (<[key := value]> (storage a)) (settingsManager a) (clockManager a)
                (pinnedAppsManager a) (backgroundEngine a) (statsTracker a)
                (dispatched a))
  else (false, a).

Definition set_manager (f : manager -> manager) (a : app) : app :=
  Page (storage a) (f (settingsManager a)) (clockManager a) (pinnedAppsManager a)
       (backgroundEngine a) (statsTracker a) (dispatched a).
Definition set_clock (f : clock -> clock) (a : app) : app :=
  Page (storage a) (settingsManager a) (f (clockManager a)) (pinnedAppsManager a)
       (backgroundEngine a) (statsTracker a) (dispatched a).
Definition set_apps (f : apps -> apps) (a : app) : app :=
  Page (storage a) (settingsManager a) (clockManager a) (f (pinnedAppsManager a))
       (backgroundEngine a) (statsTracker a) (dispatched a).
Definition set_background (f : background -> background) (a : app) : app :=
  Page (storage a) (settingsManager a) (clockManager a) (pinnedAppsManager a)
       (f (backgroundEngine a)) (statsTracker a) (dispatched a).
Definition set_stats (f : stats -> stats) (a : app) : app :=
  Page (storage a) (settingsManager a) (clockManager a) (pinnedAppsManager a)
       (backgroundEngine a) (f (statsTracker a)) (dispatched a).

(** *** Clock *)

(** [a !== b] on values read from settings. Two composite values are
    compared by reference; the settings panel only ever writes booleans
    to the field compared here, and a composite is taken to differ. *)
Definition strict_ne (a b : option jval) : bool :=
  match a, b with
  | None, None => false
  | Some JNull, Some JNull => false
  | Some (JBool x), Some (JBool y) => negb (Bool.eqb x y)
  | Some (JNum x), Some (JNum y) => negb (Qeq_bool x y)
  | Some (JStr x), Some (JStr y) => negb (String.eqb x y)
  | _, _ => true
  end.

Definition clock_flags (s : gmap string jval) : Clock.flags :=
  Clock.Flags (truthy (s !! "use24HourFormat")) (truthy (s !! "showSeconds")).

(** [ClockManager.applySettings]. *)
Definition clock_applySettings (ev : env) (c : clock) : clock :=
  if truthy (clock_settings c !! "showClock") then
    ClockManager (clock_settings c) false
      (Clock.updateClock (clock_flags (clock_settings c)) (now ev)) (interval c)
  else ClockManager (clock_settings c) true (clockText c) (interval c).

(** [ClockManager.startClock]. *)
Definition startClock (ev : env) (c : clock) : clock :=
  ClockManager (clock_settings c) (clock_hidden c)
    (Clock.updateClock (clock_flags (clock_settings c)) (now ev))
    (Some (if truthy (clock_settings c !! "showSeconds") then 1000 else 60000)).

(** [ClockManager.updateSettings]. *)
Definition clock_updateSettings (ev : env) (newSettings : option jval) (a : app) : app :=
  let oldShowSeconds := clock_settings (clockManager a) !! "showSeconds" in
  let a := set_clock (fun c =>
    ClockManager (spread (clock_settings c) newSettings) (clock_hidden c)
                 (clockText c) (interval c)) a in
  let a := set_clock (clock_applySettings ev) a in
  let a := snd (storage_set ev "clockSettings"
                  (JObj (clock_settings (clockManager a))) a) in
  if strict_ne oldShowSeconds (clock_settings (clockManager a) !! "showSeconds")
  then set_clock (startClock ev) a
  else a.

(** *** Pinned apps *)

(** [PinnedAppsManager.applySettings]. *)
Definition apps_applySettings (p : apps) : apps :=
  PinnedAppsManager (apps_settings p)
    (apps_settings p !! "iconPadding")
    (negb (truthy (apps_settings p !! "showAppNames")))
    (apps_settings p !! "iconTransparency").

(** [PinnedAppsManager.updateSettings]. *)
Definition apps_updateSettings (ev : env) (newSettings : option jval) (a : app) : app :=
  let a := set_apps (fun p =>
    PinnedAppsManager (spread (apps_settings p) newSettings) (iconPaddingCss p)
                      (namesHidden p) (iconOpacity p)) a in
  let a := set_apps apps_applySettings a in
  snd (storage_set ev "appsSettings" (JObj (apps_settings (pinnedAppsManager a))) a).

(** *** Background *)

(** [BackgroundEngine.updateSettings]. *)
Definition background_updateSettings (ev : env) (newSettings : option jval) (a : app)
  : app :=
  let a := set_background (fun b =>
    BackgroundEngine (spread (background_settings b) newSettings) (redraws b)) a in
  let a := snd (storage_set ev "backgroundSettings"
                  (JObj (background_settings (backgroundEngine a))) a) in
  set_background (fun b => BackgroundEngine (background_settings b) (S (redraws b))) a.

(** *** Stats *)

(** [StatsTracker.updateDisplay], as far as the container's [display]
    goes: it reads [window.settingsManager.getSettings().stats]. A
    throw leaves the container as it is. *)
Definition updateDisplay (a : app) : app :=
  match getProp (settings (settingsManager a) !! "stats") "enabled" with
  | Ok enabled =>
      set_stats (fun t =>
        StatsTracker (tracking t) (if truthy enabled then "block" else "none")) a
  | Throw _ => a
  end.

(** [StatsTracker.handleSettingsChange]; a throw inside the listener
    ends the listener and is not seen by the dispatcher. *)
Definition handleSettingsChange (ev : env) (newSettings : option jval) (a : app) : app :=
  match getProp newSettings "enabled" with
  | Ok enabled =>
      let a :=
        if truthy enabled
        then set_stats (fun _ => StatsTracker true "block") a
        else set_stats (fun _ => StatsTracker false "none") a in
      updateDisplay a
  | Throw _ => a
  end.

(** *** The bus *)

(** The listeners each module's [setupEventListeners] registers on
    [document] with [addEventListener], once every module is
    initialised. *)
Definition listeners : list (string * (env -> option jval -> app -> app)) :=
  [ ("clockSettingsChanged", clock_updateSettings);
    ("appsSettingsChanged", apps_updateSettings);
    ("backgroundSettingsChanged", background_updateSettings);
    ("statsSettingsChanged", handleSettingsChange) ].

(** [document.dispatchEvent(e)]: the listeners of [e.type] run in
    registration order, before it returns. *)
Definition record_dispatch (e : event) (a : app) : app :=
  Page (storage a) (settingsManager a) (clockManager a) (pinnedAppsManager a)
       (backgroundEngine a) (statsTracker a) (dispatched a ++ [e]).

Definition dispatchEvent (ev : env) (e : event) (a : app) : app :=
  let a := record_dispatch e a in
  foldl (fun a l => if String.eqb (fst l) (type e) then snd l ev (detail e) a else a)
        a listeners.

(** Whether a listener is registered for an event type. *)
Definition has_listener (ty : string) : bool :=
  existsb (fun l => String.eqb (fst l) ty) listeners.

(** *** Settings manager *)

(** The constructor's [this.settings]. *)
Definition default_clock : jval :=
  JObj {[ "format" := JStr "12"; "showSeconds" := JBool true;
          "showDate" := JBool true; "hidden" := JBool false ]}.
Definition default_apps : jval :=
  JObj {[ "showNames" := JBool true; "padding" := JNum (10 # 1);
          "transparency" := JNum (9 # 10); "gridColumns" := JNum (10 # 1);
          "gridRows" := JNum (2 # 1) ]}.
Definition default_background : jval :=
  JObj {[ "type" := JStr "upload";
          "uploadSettings" :=
            JObj {[ "images" := JArr []; "cycle" := JStr "refresh";
                    "order" := JStr "random" ]};
          "colorSettings" := JObj {[ "color" := JStr "#1a1a1a" ]};
          "gradientSettings" :=
            JObj {[ "type" := JStr "linear"; "color1" := JStr "#667eea";
                    "color2" := JStr "#764ba2" ]};
          "apiSettings" :=
            JObj {[ "source" := JStr "unsplash"; "apiKey" := JStr "";
                    "query" := JStr "nature"; "cycle" := JStr "refresh" ]} ]}.
Definition default_stats : jval :=
  JObj {[ "enabled" := JBool true; "showUsageTime" := JBool true;
          "showTabsOpened" := JBool true; "showDaysUsed" := JBool true;
          "showTrackersBlocked" := JBool true ]}.
Definition default_settings : gmap string jval :=
  {[ "clock" := default_clock; "apps" := default_apps;
     "background" := default_background; "stats" := default_stats ]}.

(** [SettingsManager.showStatus]. *)
Definition showStatus (message ty : string) (a : app) : app :=
  set_manager (fun m => Manager (settings m) (Some (message, ty))) a.

(** [SettingsManager.dispatchSettingsEvents]. *)
Definition dispatchSettingsEvents (ev : env) (a : app) : app :=
  let s := settings (settingsManager a) in
  let a := dispatchEvent ev (CustomEvent "clockSettingsChanged" (s !! "clock")) a in
  let s := settings (settingsManager a) in
  let a := dispatchEvent ev (CustomEvent "appSettingsChanged" (s !! "apps")) a in
  let s := settings (settingsManager a) in
  let a := dispatchEvent ev (CustomEvent "backgroundSettingsChanged" (s !! "background")) a in
  let s := settings (settingsManager a) in
  dispatchEvent ev (CustomEvent "statsSettingsChanged" (s !! "stats")) a.

(** [SettingsManager.loadSettings]. *)
Definition loadSettings (ev : env) (a : app) : app :=
  if storage_get_ok ev then
    let newTabSettings := storage a !! "newTabSettings" in
    if truthy newTabSettings then
      set_manager (fun m =>
        Manager (spread (settings m) newTabSettings) (statusMessage m)) a
    else a
  else a.

(** [SettingsManager.saveSettings]. *)
Definition saveSettings (ev : env) (a : app) : app :=
  match storage_set ev "newTabSettings" (JObj (settings (settingsManager a))) a with
  | (true, a) =>
      let a := showStatus "Settings saved successfully!" "success" a in
      dispatchSettingsEvents ev a
  | (false, a) => showStatus "Failed to save settings" "error" a
  end.

Definition required : list string := ["clock"; "apps"; "background"; "stats"].

(** The body of the loop of [validateSettings], skipped once an
    iteration has thrown. *)
Definition check (settings : jval) (acc : result unit) (prop : string)
  : result unit :=
  match acc with
  | Throw e => Throw e
  | Ok _ =>
      match getProp (Some settings) prop with
      | Throw e => Throw e
      | Ok v => if truthy v then Ok tt
                else Throw ("Missing required property: " ++ prop)
      end
  end.

(** [SettingsManager.validateSettings]. *)
Definition validateSettings (settings : jval) : result unit :=
  foldl (check settings) (Ok tt) required.

(** The file chosen in the import dialog: none, one whose text cannot
    be read, or one whose text [JSON.parse] turns into a value or
    rejects. *)
Inductive chosen :=
  | NoFile
  | Unreadable (msg : string)
  | Text (parsed : result jval).

Section WithForm.
(** [populateSettings] writes the settings into the form controls of
    the modal; what it needs of the document is the page's markup.
    Only whether it returns or throws on given settings matters
    here. *)
Variable populateSettings : gmap string jval -> result unit.

(** [SettingsManager.importSettings]. *)
Definition importSettings (ev : env) (file : chosen) (a : app) : app :=
  let failed (e : string) (a : app) :=
    showStatus ("Failed to import settings: " ++ e) "error" a in
  match file with
  | NoFile => a
  | Unreadable e => failed e a
  | Text (Throw e) => failed e a
  | Text (Ok importedSettings) =>
      match validateSettings importedSettings with
      | Throw e => failed e a
      | Ok _ =>
          let a := set_manager (fun m =>
            Manager (spread (settings m) (Some importedSettings)) (statusMessage m)) a in
          let a := saveSettings ev a in
          match populateSettings (settings (settingsManager a)) with
          | Throw e => failed e a
          | Ok _ => showStatus "Settings imported successfully" "success" a
          end
      end
  end.
End WithForm.

(** The page once the constructors have run, with [storage] as found. *)
Definition new (storage : gmap string jval) : app :=
  Page storage
    (Manager default_settings None)
    (ClockManager {[ "showClock" := JBool true; "showSeconds" := JBool false;
                     "use24HourFormat" := JBool false; "showDate" := JBool true ]}
                  false "" None)
    (PinnedAppsManager {[ "iconPadding" := JNum (16 # 1);
                          "iconTransparency" := JNum (1 # 1);
                          "showAppNames" := JBool true ]}
                       None false None)
    (BackgroundEngine
       {[ "backgroundType" := JStr "upload";
          "uploadSettings" :=
            JObj {[ "images" := JArr []; "cycle" := JStr "refresh";
                    "order" := JStr "random"; "currentIndex" := JNum (0 # 1) ]};
          "colorSettings" := JObj {[ "color" := JStr "#1a1a1a" ]};
          "gradientSettings" :=
            JObj {[ "type" := JStr "linear"; "color1" := JStr "#667eea";
                    "color2" := JStr "#764ba2" ]};
          "apiSettings" :=
            JObj {[ "source" := JStr "unsplash"; "apiKey" := JStr "";
                    "query" := JStr "nature"; "images" := JArr [];
                    "currentIndex" := JNum (0 # 1) ]} ]}
       0)
    (StatsTracker true "")
    [].

(** Examples: an environment where storage works, at 09:41:00; a page
    whose settings panel holds an icon padding of 12 and hidden names;
    an import file without the [apps] section. *)
Definition fair_weather : env := Env (Clock.Time 9 41 0) true (fun _ => true).
Definition edited_apps : jval :=
  JObj {[ "showNames" := JBool false; "padding" := JNum (12 # 1);
          "transparency" := JNum (9 # 10); "gridColumns" := JNum (10 # 1);
          "gridRows" := JNum (2 # 1) ]}.
Definition edited : app :=
  set_manager (fun m => Manager (<["apps" := edited_apps]> (settings m)) None) (new ∅).
Definition without_apps : jval :=
  JObj {[ "clock" := default_clock; "background" := default_background;
          "stats" := default_stats ]}.

(** Example: a stored document that has the [apps] section and a
    [stats] section that is no object, and lacks the other two. *)
Definition partial_document : gmap string jval :=
  {[ "apps" := edited_apps; "stats" := JBool false ]}.
Definition partly_stored : gmap string jval :=
  {[ "newTabSettings" := JObj partial_document ]}.

(** Example: a page in whose settings panel the sequential order has
    been chosen for the uploaded images. *)
Definition sequential_upload : jval :=
  JObj {[ "images" := JArr []; "cycle" := JStr "refresh";
          "order" := JStr "sequential" ]}.
Definition sequential_panel : app :=
  set_manager (fun m =>
    Manager (<["background" :=
                 JObj (<["uploadSettings" := sequential_upload]>
                         (own_props (Some default_background)))]> (settings m))
            None) (new ∅).

End App.

(* ===================================================================== *)
(** ** Objects by reference: what [getSettings] hands out *)
(* ===================================================================== *)

Module Heap.
Import Json.

(** A value is a primitive or a reference to an object or array. *)
Inductive value :=
  | VNull
  | VBool (b : bool)
  | VNum (q : Q)
  | VStr (s : string)
  | VRef (l : nat).

Inductive cell :=
  | Obj (fields : gmap string value)
  | Arr (elems : list value).

(** The object store. *)
Abbreviation heap := (gmap nat cell).

(** A new object: a location no object has yet. *)
Definition alloc (c : cell) (h : heap) : nat * heap :=
  let l := fresh (dom h) in (l, <[l := c]> h).

Definition index_fields (l : list value) : gmap string value :=
  list_to_map (imap (fun i x => (Js.toString (Z.of_nat i), x)) l).

(** The own enumerable properties of an object or array. *)
Definition own_fields (c : cell) : gmap string value :=
  match c with
  | Obj o => o
  | Arr l => index_fields l
  end.

(** A feature module: [this.settings] is a reference. *)
Record module := Module_ { settings : nat }.

(** [getSettings() { return { ...this.settings }; }], the same in
    [ClockManager], [PinnedAppsManager], [BackgroundEngine] and
    [SettingsManager]. [None] only if [this.settings] is no object. *)
Definition getSettings (this : module) (h : heap) : option (nat * heap) :=
  c ← h !! settings this;
  Some (alloc (Obj (own_fields c)) h).

(** [v[prop]]; [None] is [undefined]. *)
Definition getProp (h : heap) (v : option value) (prop : string) : option value :=
  match v with
  | Some (VRef l) => c ← h !! l; own_fields c !! prop
  | _ => None
  end.

(** [v.p1.p2...pn]. *)
Definition resolve (h : heap) (v : option value) (path : list string) : option value :=
  foldl (getProp h) v path.

(** What a holder of a value can do to it: [v.path.prop = x],
    [delete v.path.prop], [v.path.push(x)]. *)
Inductive mutation :=
  | Assign (path : list string) (prop : string) (x : value)
  | Delete (path : list string) (prop : string)
  | Push (path : list string) (x : value).

Definition path_of (m : mutation) : list string :=
  match m with
  | Assign p _ _ | Delete p _ | Push p _ => p
  end.

(** The store after the mutation; it is unchanged when the statement
    throws or has no effect (the path does not lead to an object, or
    [push] is not applied to an array). *)
Definition mutate (h : heap) (v : value) (m : mutation) : heap :=
  match resolve h (Some v) (path_of m) with
  | Some (VRef l) =>
      match h !! l, m with
      | Some (Obj o), Assign _ prop x => <[l := Obj (<[prop := x]> o)]> h
      | Some (Obj o), Delete _ prop => <[l := Obj (delete prop o)]> h
      | Some (Arr a), Push _ x => <[l := Arr (a ++ [x])]> h
      | _, _ => h
      end
  | _ => h
  end.

(** The tree a value denotes in a store, as [JSON.stringify] would walk
    it, to the given depth. *)
Fixpoint snapshot (depth : nat) (h : heap) (v : value) : jval :=
  match v with
  | VNull => JNull
  | VBool b => JBool b
  | VNum q => JNum q
  | VStr s => JStr s
  | VRef l =>
      match depth with
      | O => JNull
      | S d =>
          match h !! l with
          | Some (Obj o) => JObj (snapshot d h <$> o)
          | Some (Arr a) => JArr (snapshot d h <$> a)
          | None => JNull
          end
      end
  end.

Definition is_primitive (v : value) : bool :=
  match v with
  | VRef _ => false
  | _ => true
  end.

Definition cell_values (c : cell) : list value :=
  match c with
  | Obj o => snd <$> map_to_list o
  | Arr a => a
  end.

(** A value that is no dangling reference. *)
Definition valid (h : heap) (v : value) : Prop :=
  match v with
  | VRef l => is_Some (h !! l)
  | _ => True
  end.

#[global] Instance valid_dec h v : Decision (valid h v).
Proof. destruct v; cbn; apply _. Defined.

(** No reference of the store dangles. *)
Definition closed (h : heap) : Prop :=
  map_Forall (fun _ c => Forall (valid h) (cell_values c)) h.

#[global] Instance closed_dec h : Decision (closed h).
Proof. unfold closed. apply _. Defined.

(** Every field of the object at [l] is a primitive. *)
Definition flat (h : heap) (l : nat) : Prop :=
  match h !! l with
  | Some c => map_Forall (fun _ v => is_primitive v = true) (own_fields c)
  | None => True
  end.

(** The settings [BackgroundEngine]'s constructor builds. *)
Definition BackgroundEngine_new (h : heap) : module * heap :=
  let '(images, h) := alloc (Arr []) h in
  let '(uploadSettings, h) :=
    alloc (Obj {[ "images" := VRef images; "cycle" := VStr "refresh";
                  "order" := VStr "random"; "currentIndex" := VNum (0 # 1) ]}) h in
  let '(colorSettings, h) := alloc (Obj {[ "color" := VStr "#1a1a1a" ]}) h in
  let '(gradientSettings, h) :=
    alloc (Obj {[ "type" := VStr "linear"; "color1" := VStr "#667eea";
                  "color2" := VStr "#764ba2" ]}) h in
  let '(apiImages, h) := alloc (Arr []) h in
  let '(apiSettings, h) :=
    alloc (Obj {[ "source" := VStr "unsplash"; "apiKey" := VStr "";
                  "query" := VStr "nature"; "images" := VRef apiImages;
                  "currentIndex" := VNum (0 # 1) ]}) h in
  let '(settings, h) :=
    alloc (Obj {[ "backgroundType" := VStr "upload";
                  "uploadSettings" := VRef uploadSettings;
                  "colorSettings" := VRef colorSettings;
                  "gradientSettings" := VRef gradientSettings;
                  "apiSettings" := VRef apiSettings ]}) h in
  (Module_ settings, h).

(** The settings [ClockManager]'s constructor builds. *)
Definition ClockManager_new (h : heap) : module * heap :=
  let '(settings, h) :=
    alloc (Obj {[ "showClock" := VBool true; "showSeconds" := VBool false;
                  "use24HourFormat" := VBool false; "showDate" := VBool true ]}) h in
  (Module_ settings, h).

(** Examples: the background engine and the clock, each alone in an
    empty store, and a caller that pushes a URL onto the [images] of
    the value [getSettings] returned. *)
Definition engine0 : module * heap := BackgroundEngine_new ∅.
Definition clock0 : module * heap := ClockManager_new ∅.
Definition push_image : mutation := Push ["uploadSettings"; "images"] (VStr "evil.png").
Definition retype : mutation := Assign [] "backgroundType" (VStr "color").
Definition after_push (mh : module * heap) : heap :=
  match getSettings (fst mh) (snd mh) with
  | Some (r, h1) => mutate h1 (VRef r) push_image
  | None => snd mh
  end.

(** [BackgroundEngine.getUploadedImages]:
    [[...this.settings.uploadSettings.images]]. *)
Definition getUploadedImages (this : module) (h : heap) : list value :=
  match resolve h (Some (VRef (settings this))) ["uploadSettings"; "images"] with
  | Some (VRef l) =>
      match h !! l with
      | Some (Arr a) => a
      | _ => []
      end
  | _ => []
  end.

End Heap.

(* ===================================================================== *)
(** ** Background engine: more examples *)
(* ===================================================================== *)

Module BackgroundExamples.
Import Background.

(** An environment whose random draw is one half, where every image
    decodes and storage works, and whose image service answers with
    two photos. *)
Definition two_photos : env :=
  Env (2 ^ 52) (fun _ => true) (fun _ => Body (Some ["p1.jpg"; "p2.jpg"])) true.

(** The same, with a service that answers with no photo at all. *)
Definition no_photos : env :=
  Env (2 ^ 52) (fun _ => true) (fun _ => Body (Some [])) true.

(** An engine with three uploaded images picked at random. *)
Definition three_random : engine :=
  Engine (Settings "upload"
            (Upload.Make ["a.png"; "b.png"; "c.png"] "refresh" "random" 0)
            (colorSettings default_settings) (gradientSettings default_settings)
            (apiSettings default_settings))
         (Style "" "" "") None.

(** An engine with seven uploaded images picked at random, and a draw
    of [Math.random()] whose exact product with 7 is [4 - 2^-52], which
    is no double and is rounded to 4. *)
Definition seven_random : engine :=
  Engine (Settings "upload"
            (Upload.Make ["a.png"; "b.png"; "c.png"; "d.png"; "e.png"; "f.png"; "g.png"]
                         "refresh" "random" 0)
            (colorSettings default_settings) (gradientSettings default_settings)
            (apiSettings default_settings))
         (Style "" "" "") None.
Definition rounding_draw : env :=
  Env 5146971002709138 (fun _ => true) (fun _ => NetworkError "offline") true.

(** An engine in API mode with a key and nothing cached yet. *)
Definition api_with_key : engine :=
  Engine (Settings "api"
            (uploadSettings default_settings)
            (colorSettings default_settings) (gradientSettings default_settings)
            (Api.Make "unsplash" "key" "nature" [] 0 None None))
         (Style "" "" "") None.

(** An engine in gradient mode. *)
Definition gradient_mode : engine :=
  Engine (Settings "gradient"
            (uploadSettings default_settings)
            (colorSettings default_settings) (gradientSettings default_settings)
            (apiSettings default_settings))
         (Style "" "" "") None.

(** An engine with three uploaded images taken in order, a new one on
    every tab, as stored by an earlier page. *)
Definition stored_three : engine :=
  Engine default_settings (Style "" "" "") (Some (this_settings three_images)).

End BackgroundExamples.

(* ===================================================================== *)
(** ** Background engine: calls that overlap *)
(* ===================================================================== *)

(** [init] starts [applyBackground] without awaiting it and then calls
    [handleBackgroundCycle], which may start a second selection while
    the first image is still loading. Here an asynchronous call is a
    task: it runs until it has to wait, and is resumed later, in an
    order the page does not control. *)
Module BackgroundAsync.
Import Background.

(** The request [fetchApiImages] sends. *)
Definition api_request (api : Api.t) : request :=
  Request
    (if String.eqb (Api.source api) "unsplash" then
       Some ("https://api.unsplash.com/photos/random?query=" ++ Api.query api
             ++ "&count=10&client_id=" ++ Api.apiKey api)
     else if String.eqb (Api.source api) "pexels" then
       Some ("https://api.pexels.com/v1/search?query=" ++ Api.query api
             ++ "&per_page=10")
     else None)
    (if String.eqb (Api.source api) "pexels" then Some (Api.apiKey api) else None).

(** [fetchApiImages] from the point where the response has arrived. *)
Definition receive (resp : response) : M engine unit :=
  api ← gets (fun e => apiSettings (this_settings e));
  match resp with
  | NetworkError msg => throw msg
  | Status code => throw ("API request failed: " ++ Js.toString code)
  | Unparsable msg => throw msg
  | Body photos =>
      (if String.eqb (Api.source api) "unsplash"
          || String.eqb (Api.source api) "pexels" then
         match photos with
         | Some urls =>
             modify (set_api (fun a =>
               Api.Make (Api.source a) (Api.apiKey a) (Api.query a) urls
                        (Api.currentIndex a) (Api.order a) (Api.cycle a)))
         | None => throw "Cannot read properties of undefined"
         end
       else mret tt);;
      modify (set_api (fun a =>
        Api.Make (Api.source a) (Api.apiKey a) (Api.query a) (Api.images a)
                 0 (Api.order a) (Api.cycle a)))
  end.

(** What a suspended call waits for. *)
Inductive awaited :=
  | ImageLoad (imageUrl : string)        (* img.onload or img.onerror *)
  | FetchReply (r : request)             (* the response and its JSON *)
  | StorageWrite (snapshot : settings)   (* chrome.storage.sync.set *)
  | Resumption.                          (* the awaiting function's turn *)

(** An asynchronous call: finished with an outcome, or suspended with
    what it does when it is resumed. *)
Inductive task :=
  | Done (outcome : result unit)
  | Pending (waits : awaited) (resume : engine -> task * engine).

(** [await this.saveSettings()] as the last statement of a call. *)
Definition save_task (ev : env) (e : engine) : task * engine :=
  let snapshot := this_settings e in
  (Pending (StorageWrite snapshot) (fun e =>
     (Done (Ok tt),
      if storage_set_ok ev
      then Engine (this_settings e) (backgroundContainer e) (Some snapshot)
      else e)),
   e).

(** [await this.setBackgroundImage(imageUrl); await this.saveSettings()],
    with what the caller does when the image fails to load. *)
Definition draw_task (ev : env) (imageUrl : string)
    (on_error : engine -> task * engine) : task :=
  Pending (ImageLoad imageUrl) (fun e =>
    if decodes ev imageUrl then
      (Pending Resumption (save_task ev),
       set_style (fun _ =>
         Style ("url(" ++ imageUrl ++ ")") "transparent"
               "background-image 0.5s ease-in-out") e)
    else (Pending Resumption on_error, e)).

(** The rejection of [applyUploadBackground] when the image fails. *)
Definition upload_error (e : engine) : task * engine :=
  (Done (Throw "Failed to load image"), e).

(** [applyUploadBackground] as a task. *)
Definition applyUploadBackground_task (ev : env) (e : engine) : task * engine :=
  let up := uploadSettings (this_settings e) in
  if (length (Upload.images up) =? 0)%nat then
    (Done (Ok tt), snd (applyColorBackground e))
  else
    match nextUploadIndex ev e with
    | (Ok imageIndex, e) =>
        (draw_task ev (nth_url (Upload.images up) imageIndex) upload_error, e)
    | (Throw msg, e) => (Done (Throw msg), e)
    end.

(** The [catch] block of [applyApiBackground]. *)
Definition api_catch (e : engine) : task * engine :=
  (Done (Ok tt), snd (applyColorBackground e)).

(** [applyApiBackground] from [if (apiSettings.images.length > 0)] on. *)
Definition api_select (ev : env) (e : engine) : task * engine :=
  let api := apiSettings (this_settings e) in
  if (0 <? length (Api.images api))%nat then
    match nextApiIndex ev e with
    | (Ok imageIndex, e) =>
        (draw_task ev (nth_url (Api.images api) (Js.Num imageIndex)) api_catch, e)
    | (Throw _, e) => api_catch e
    end
  else (Done (Ok tt), e).

(** [applyApiBackground] as a task. *)
Definition applyApiBackground_task (ev : env) (e : engine) : task * engine :=
  let api := apiSettings (this_settings e) in
  if String.eqb (Api.apiKey api) "" then
    (Done (Ok tt), snd (applyColorBackground e))
  else if (length (Api.images api) =? 0)%nat then
    let request := api_request api in
    (Pending (FetchReply request) (fun e =>
       match receive (fetch ev request) e with
       | (Ok _, e) => (Pending Resumption (api_select ev), e)
       | (Throw _, e) => (Pending Resumption api_catch, e)
       end),
     e)
  else api_select ev e.

(** [applyBackground] as a task. *)
Definition applyBackground_task (ev : env) (e : engine) : task * engine :=
  let ty := backgroundType (this_settings e) in
  if String.eqb ty "upload" then applyUploadBackground_task ev e
  else if String.eqb ty "color" then (Done (Ok tt), snd (applyColorBackground e))
  else if String.eqb ty "gradient" then (Done (Ok tt), snd (applyGradientBackground e))
  else if String.eqb ty "api" then applyApiBackground_task ev e
  else (Done (Ok tt), snd (applyColorBackground e)).

(** [handleBackgroundCycle]: the selection it starts, if any. *)
Definition handleBackgroundCycle (ev : env) (e : engine) : option task * engine :=
  let s := this_settings e in
  if String.eqb (backgroundType s) "upload"
     && String.eqb (Upload.cycle (uploadSettings s)) "newtab" then
    let '(t, e) := applyUploadBackground_task ev e in (Some t, e)
  else if String.eqb (backgroundType s) "api"
          && bool_decide (Api.cycle (apiSettings s) = Some "newtab") then
    let '(t, e) := applyApiBackground_task ev e in (Some t, e)
  else (None, e).

(** [loadSettings]: [get_ok] is whether the read resolves. A stored
    document is one [saveSettings] wrote, the whole settings object, so
    the spread over [this.settings] is that document. *)
Definition loadSettings (get_ok : bool) (e : engine) : engine :=
  if get_ok then
    match stored e with
    | Some backgroundSettings =>
        Engine backgroundSettings (backgroundContainer e) (stored e)
    | None => e
    end
  else e.

(** The engine and the calls in flight. *)
Definition page : Type := engine * list task.

(** [init]: the settings are loaded, [applyBackground] is started and
    not awaited, and [setupEventListeners] calls
    [handleBackgroundCycle]. *)
Definition init (get_ok : bool) (ev1 ev2 : env) (e : engine) : page :=
  let e := loadSettings get_ok e in
  let '(t1, e) := applyBackground_task ev1 e in
  let '(t2, e) := handleBackgroundCycle ev2 e in
  (e, t1 :: option_list t2).

(** The call at position [i] is resumed, if it is suspended. *)
Definition resume (p : page) (i : nat) : page :=
  match snd p !! i with
  | Some (Pending _ k) => let '(t, e) := k (fst p) in (e, <[i := t]> (snd p))
  | _ => p
  end.

(** The calls are resumed in the order of [schedule]. *)
Definition run_schedule (schedule : list nat) (p : page) : page :=
  foldl resume p schedule.

(** A call that runs alone, resumed up to [n] times. *)
Fixpoint alone (n : nat) (te : task * engine) : task * engine :=
  match n, fst te with
  | S n', Pending _ k => alone n' (k (snd te))
  | _, _ => te
  end.

(** The engine with the upload cursor moved on by one, as a sequential
    selection leaves it. *)
Definition advance (e : engine) : engine :=
  set_upload (fun u =>
    Upload.Make (Upload.images u) (Upload.cycle u) (Upload.order u)
      (Js.succ_rem (Upload.currentIndex u) (pool_size e))) e.

(** An upload-mode call waiting for its image. *)
Definition loading (ev : env) (imageUrl : string) : task :=
  draw_task ev imageUrl upload_error.

(** What a call in flight waits for. *)
Definition waits_for (t : task) : option awaited :=
  match t with
  | Done _ => None
  | Pending w _ => Some w
  end.

(** Every call in flight has finished. *)
Definition all_done (p : page) : bool :=
  forallb (fun t => match t with Done _ => true | Pending _ _ => false end) (snd p).

(** As long as the settings are [S], resuming the task leaves them so,
    and the stored document is left alone or becomes [S]; the task is
    done after at most [n] resumptions. *)
Fixpoint quiet (S : settings) (n : nat) (t : task) : Prop :=
  match t with
  | Done _ => True
  | Pending _ k =>
      match n with
      | O => False
      | Datatypes.S n' =>
          forall e,
            this_settings e = S ->
            this_settings (snd (k e)) = S
            /\ (stored (snd (k e)) = stored e \/ stored (snd (k e)) = Some S)
            /\ quiet S n' (fst (k e))
      end
  end.

End BackgroundAsync.

(* ===================================================================== *)
(** ** Uploading background images: scripts/app.js *)
(* ===================================================================== *)

Module Uploading.
Import Background.

(** A file of the file input: whether [file.type] starts with
    [image/], and what the [FileReader] makes of it, the data URL or
    [None] when reading fails. *)
Record file := File { is_image : bool; contents : option string }.

(** The loop of [handleBackgroundImageUpload]. *)
Fixpoint addImages (ev : env) (files : list file) : M engine unit :=
  match files with
  | [] => mret tt
  | f :: rest =>
      (if is_image f then addUploadedImage ev (contents f);; mret tt
       else mret tt);;
      addImages ev rest
  end.

(** The outcome of a call that does not touch the engine. *)
Definition outcome (r : result unit) : M engine unit := fun e => (r, e).

(** [handleBackgroundImageUpload]: what [showError] shows, if
    anything. [populateUploadedImages] is the outcome of the call of
    that name on the settings manager, which rebuilds a list in the
    settings dialog. *)
Definition handleBackgroundImageUpload (ev : env)
    (populateUploadedImages : result unit) (files : list file)
  : M engine (option string) :=
  match files with
  | [] => mret None
  | _ =>
      try_catch
        (addImages ev files;;
         applyBackground ev;;
         outcome populateUploadedImages;;
         mret (@None string))
        (fun _ => mret (Some "Failed to upload images"))
  end.

(** A call that leaves the pool of uploaded images as it is, whatever
    its outcome. *)
Definition keeps_pool {A} (m : M engine A) : Prop :=
  forall e, getUploadedImages (snd (m e)) = getUploadedImages e.

(** The data URLs of the image files of a list. *)
Definition data_urls (files : list file) : list string :=
  omap (fun f => if is_image f then contents f else None) files.

(** Every image file of the list can be read. *)
Definition readable (files : list file) : bool :=
  forallb (fun f => negb (is_image f) || bool_decide (is_Some (contents f))) files.

(** Example: two pictures around a text file, and the same with a
    second picture that cannot be read. *)
Definition three_files : list file :=
  [File true (Some "data:a"); File false (Some "data:t"); File true (Some "data:b")].
Definition bad_second : list file :=
  [File true (Some "data:a"); File true None; File true (Some "data:b")].

End Uploading.

(* ===================================================================== *)
(** ** Stats tracker: active time, sessions and display *)
(* ===================================================================== *)

Module Tracking.
Import Stats.

(** [this.currentSession]: instants in milliseconds, [activeTime] in
    seconds. *)
Record session_clock := CurrentSession {
  startTime : Z;
  activeTime : Z;
  lastActivity : Z
}.

(** The tracker with its session clock and its [isActive] flag. *)
Record t := State {
  tracker : Stats.tracker;
  currentSession : session_clock;
  isActive : bool
}.


(** The tracker the constructor builds at the instant [now]. *)
Definition new (now : Z) : t :=
  State (Tracker initial None) (CurrentSession now 0 now) true.






Section WithCalendar.
Variable cal : calendar.
(** [d.setDate(d.getDate() - 30)] on the date of an instant: the instant
    thirty calendar days earlier, as the host computes it. *)
Variable thirtyDaysBefore : Z -> Z.

(** [saveCurrentSession]. *)
Definition saveCurrentSession (now : Z) (storage_set_ok : bool) (s : t) : t :=
  if 0 <? activeTime (currentSession s) then
    let st := this_stats (tracker s) in
    let pushed :=
      (sessions st ++
       [Session (toISOString cal now) (activeTime (currentSession s))
                (tabsOpenedToday st)])%list in
    let thirtyDaysAgo := thirtyDaysBefore now in
    let kept :=
      filter (fun session => thirtyDaysAgo < parse cal (date session)) pushed in
    State
      (saveStats storage_set_ok
         (Tracker (Make (totalUsageTime st) (tabsOpenedToday st) (totalTabsOpened st)
                        (firstUseDate st) (lastActiveDate st) (trackersBlocked st)
                        kept)
                  (stored (tracker s))))
      (currentSession s) (isActive s)
  else s.

(** The listener of the window's [blur] event. *)
Definition blur (now : Z) (storage_set_ok : bool) (s : t) : t :=
  saveCurrentSession now storage_set_ok
    (State (tracker s) (currentSession s) false).

(** [calculateDaysUsed]; [Math.ceil] of a quotient of integers. *)
Definition calculateDaysUsed (now : Z) (st : stats) : Z :=
  if truthy (firstUseDate st) then
    let firstUse := parse cal (default "" (firstUseDate st)) in
    let diffTime := Z.abs (now - firstUse) in
    - ((- diffTime) / (1000 * 60 * 60 * 24))
  else 0.

End WithCalendar.



(** [formatUsageTime], the same in the tracker and on the options
    page, for a whole number of seconds between [-2^53] and [2^53],
    where the quotients, floors and numerals of the doubles are those
    of the integers. *)
Definition formatUsageTime (seconds : Z) : string :=
  let hours := seconds / 3600 in
  let minutes := Z.rem seconds 3600 / 60 in
  if 0 <? hours then Js.toString hours ++ "h " ++ Js.toString minutes ++ "m"
  else if 0 <? minutes then Js.toString minutes ++ "m"
  else "< 1m".

(** The interval timers of the page: the handles [setInterval] has
    given out and that were not cleared, oldest first, the next handle
    (handles are positive), and [this.trackingInterval]. *)
Record timers := Timers {
  nextHandle : nat;
  live : list nat;
  trackingInterval : option nat
}.

Definition no_timers : timers := Timers 1 [] None.

(** [startTracking]: a new timer is set and its handle kept. *)
Definition startTracking (w : timers) : timers :=
  Timers (S (nextHandle w)) (live w ++ [nextHandle w])%list (Some (nextHandle w)).

(** [stopTracking]. *)
Definition stopTracking (w : timers) : timers :=
  match trackingInterval w with
  | Some h =>
      if (h =? 0)%nat then w
      else Timers (nextHandle w) (filter (fun x => x <> h) (live w)) None
  | None => w
  end.

(** [handleSettingsChange], as far as the timers go; a throw ends the
    listener. *)
Definition handleSettingsChange (settings : option Json.jval) (w : timers) : timers :=
  match Json.getProp settings "enabled" with
  | Ok enabled => if Json.truthy enabled then startTracking w else stopTracking w
  | Throw _ => w
  end.

(** The listener run on each payload in turn. *)
Definition changes (payloads : list (option Json.jval)) (w : timers) : timers :=
  foldl (fun w d => handleSettingsChange d w) w payloads.

(** Example: a tracker made at instant 0 that has earned two minutes of
    active time, and a host for which thirty days are
    30 * 86400000 ms. *)
Definition two_minutes : t :=
  State (Tracker (Make 120 3 3 (Some "0") (Some "0") 0 []) None)
        (CurrentSession 120000 120 120000) true.
Definition thirty_days (now : Z) : Z := now - 30 * 86400000.

End Tracking.
(* ===================================================================== *)
(** ** Pinned apps: scripts/pinned-apps.js *)
(* ===================================================================== *)

Module PinnedApps.

Record app := App { name : string; url : string; icon : string }.

(** An element of the array [this.apps]: a hole (an index below
    [length] that was never assigned), [undefined] (or the [null] that
    storage gives back for either), or an app object. Reading a
    property of the first two throws. *)
Inductive slot := Hole | Undefined | Item (a : app).

Definition is_item (x : slot) : bool :=
  match x with Item _ => true | _ => false end.

(** An [.app-item] node: the render pass that created it and its
    [dataset.index]. Two nodes are the same node when both agree. *)
Record element := Element { pass : nat; index : nat }.

#[global] Instance element_eq_dec : EqDecision element.
Proof. solve_decision. Defined.

(** The edit dialog: the two text fields and the [src] attribute of
    the image in the icon preview, if there is one. *)
Record form := Form {
  name_value : string;
  url_value : string;
  icon_preview : option string
}.

(** The manager, the children of the grid in document order, the
    value under the key [pinnedApps] of [chrome.storage.sync] and the
    notifications shown, oldest first. *)
Record t := State {
  apps : list slot;
  stored : option (list slot);
  grid : list element;
  passes : nat;
  draggedElement : option element;
  draggedIndex : option nat;
  editingIndex : option nat;
  modalActive : bool;
  fields : form;
  notifications : list (string * string)
}.

Definition set_apps (f : list slot -> list slot) (s : t) : t :=
  State (f (apps s)) (stored s) (grid s) (passes s) (draggedElement s)
        (draggedIndex s) (editingIndex s) (modalActive s) (fields s)
        (notifications s).
Definition set_stored (v : option (list slot)) (s : t) : t :=
  State (apps s) v (grid s) (passes s) (draggedElement s)
        (draggedIndex s) (editingIndex s) (modalActive s) (fields s)
        (notifications s).
Definition set_grid (f : list element -> list element) (s : t) : t :=
  State (apps s) (stored s) (f (grid s)) (passes s) (draggedElement s)
        (draggedIndex s) (editingIndex s) (modalActive s) (fields s)
        (notifications s).
Definition set_dragged (el : option element) (i : option nat) (s : t) : t :=
  State (apps s) (stored s) (grid s) (passes s) el i (editingIndex s)
        (modalActive s) (fields s) (notifications s).
Definition set_editingIndex (i : option nat) (s : t) : t :=
  State (apps s) (stored s) (grid s) (passes s) (draggedElement s)
        (draggedIndex s) i (modalActive s) (fields s) (notifications s).
Definition set_modal (b : bool) (s : t) : t :=
  State (apps s) (stored s) (grid s) (passes s) (draggedElement s)
        (draggedIndex s) (editingIndex s) b (fields s) (notifications s).
Definition set_fields (f : form) (s : t) : t :=
  State (apps s) (stored s) (grid s) (passes s) (draggedElement s)
        (draggedIndex s) (editingIndex s) (modalActive s) f (notifications s).

(** The constructor's fields, before [init] has run. *)
Definition new : t :=
  State [] None [] 0 None None None false (Form "" "" None) [].

(** The default apps of [loadApps]. *)
Definition defaults : list slot :=
  [ Item (App "Google" "https://google.com" "https://google.com/favicon.ico");
    Item (App "YouTube" "https://youtube.com" "https://youtube.com/favicon.ico");
    Item (App "GitHub" "https://github.com" "https://github.com/favicon.ico") ].

(** What storage keeps of an array: holes and [undefined] become
    [null]. *)
Definition serialize (l : list slot) : list slot :=
  map (fun x => match x with Item a => Item a | _ => Undefined end) l.

(** [saveApps]; a failed write is only logged. *)
Definition saveApps (storage_set_ok : bool) (s : t) : t :=
  if storage_set_ok then set_stored (Some (serialize (apps s))) s else s.

(** [loadApps]: [read] is what [chrome.storage.sync.get] gives, [None]
    when it rejects. An array, empty or not, is truthy. *)
Definition loadApps (read : option (option (list slot))) (storage_set_ok : bool)
    (s : t) : t :=
  match read with
  | Some (Some pinnedApps) => set_apps (fun _ => pinnedApps) s
  | Some None => saveApps storage_set_ok (set_apps (fun _ => defaults) s)
  | None => set_apps (fun _ => []) s
  end.

(** [showNotification]; the removal after three seconds is not
    modelled. *)
Definition showNotification (message type : string) (s : t) : t :=
  State (apps s) (stored s) (grid s) (passes s) (draggedElement s)
        (draggedIndex s) (editingIndex s) (modalActive s) (fields s)
        ((notifications s ++ [(message, type)])%list).

Definition TypeError : string := "TypeError: Cannot read properties of undefined".

(** The [forEach] of [renderApps] from index [i] on: holes are
    skipped, [createAppElement] throws on [undefined] at [app.icon]. *)
Fixpoint appendElements (i : nat) (l : list slot) : M t unit :=
  match l with
  | [] => mret tt
  | Hole :: rest => appendElements (S i) rest
  | Undefined :: rest => throw TypeError
  | Item _ :: rest =>
      modify (fun s => set_grid (fun g => (g ++ [Element (passes s) i])%list) s);;
      appendElements (S i) rest
  end.

(** [renderApps]: the grid is emptied and one new node is appended for
    each app. *)
Definition renderApps : M t unit :=
  modify (fun s =>
    State (apps s) (stored s) [] (S (passes s)) (draggedElement s)
          (draggedIndex s) (editingIndex s) (modalActive s) (fields s)
          (notifications s));;
  l ← gets apps;
  appendElements 0 l.

(** [this.apps[index]] read in [reorderApps] and pushed. *)
Definition pushed (l : list slot) (index : nat) : slot :=
  match l !! index with
  | Some (Item a) => Item a
  | _ => Undefined
  end.

(** [reorderApps]. *)
Definition reorderApps (storage_set_ok : bool) : M t unit :=
  appElements ← gets grid;
  modify (set_apps (fun l => map (fun element => pushed l (index element)) appElements));;
  renderApps;;
  modify (saveApps storage_set_ok).

(** [openEditModal]. *)
Definition openEditModal (index : nat) : M t unit :=
  modify (set_editingIndex (Some index));;
  l ← gets apps;
  match l !! index with
  | Some (Item app) =>
      modify (fun s =>
        set_modal true
          (set_fields (Form (name app) (url app)
                            (if String.eqb (icon app) "" then None
                             else Some (icon app))) s))
  | _ => throw TypeError
  end.

(** [closeEditModal]. *)
Definition closeEditModal (s : t) : t :=
  set_editingIndex None (set_modal false s).

(** [this.apps[i] = v]: beyond the end the array grows, leaving
    holes. *)
Definition assign (i : nat) (v : slot) (l : list slot) : list slot :=
  if (i <? length l)%nat then <[i := v]> l
  else (l ++ replicate (i - length l) Hole ++ [v])%list.

Section WithHost.
(** [String.prototype.trim]. *)
Variable trim : string -> string.
(** [new URL(url).origin]; [None] when the constructor throws. *)
Variable origin : string -> option string.
(** The [src] property of an image whose attribute is the given
    string: the address as the page resolves it. *)
Variable src : string -> string.

(** [saveApp]. *)
Definition saveApp (storage_set_ok : bool) : M t unit :=
  f ← gets fields;
  let name := trim (name_value f) in
  let url := trim (url_value f) in
  let icon := match icon_preview f with Some a => src a | None => "" end in
  if String.eqb name "" || String.eqb url "" then
    modify (showNotification "Please fill in all fields" "error")
  else
    match origin url with
    | None => modify (showNotification "Please enter a valid URL" "error")
    | Some _ =>
        editing ← gets editingIndex;
        match editing with
        | Some i => modify (set_apps (assign i (Item (App name url icon))))
        | None => modify (set_apps (fun l => (l ++ [Item (App name url icon)])%list))
        end;;
        renderApps;;
        modify (saveApps storage_set_ok);;
        modify closeEditModal;;
        modify (showNotification "App saved successfully" "success")
    end.

(** [deleteApp]. *)
Definition deleteApp (storage_set_ok : bool) : M t unit :=
  editing ← gets editingIndex;
  match editing with
  | Some i =>
      modify (set_apps (Background.splice1 i));;
      renderApps;;
      modify (saveApps storage_set_ok);;
      modify closeEditModal;;
      modify (showNotification "App deleted successfully" "success")
  | None => mret tt
  end.

(** The listener of the add button. *)
Definition addClick (s : t) : t :=
  set_modal true (set_fields (Form "" "" None) (set_editingIndex None s)).

(** [node.nextSibling] among the children [g]. *)
Fixpoint nextSibling (node : element) (g : list element) : option element :=
  match g with
  | [] => None
  | x :: rest => if decide (x = node) then head rest else nextSibling node rest
  end.

(** [node] put before the child [child] of [g]. *)
Fixpoint putBefore (child node : element) (g : list element)
  : option (list element) :=
  match g with
  | [] => None
  | x :: rest =>
      if decide (x = child) then Some (node :: x :: rest)
      else cons x <$> putBefore child node rest
  end.

(** [parent.insertBefore(node, child)] on the children [g] of
    [parent]: [node] is first taken out of the place it has; a [null]
    child appends; when [child] is [node] itself the reference is its
    next sibling; [None] when [child] is not a child of [parent]. *)
Definition insertBefore (node : element) (child : option element)
    (g : list element) : option (list element) :=
  let reference :=
    if decide (child = Some node) then nextSibling node g else child in
  let others := filter (fun x => x <> node) g in
  match reference with
  | None => Some ((others ++ [node])%list)
  | Some r => putBefore r node others
  end.

(** The [dragstart] listener of [appElement]. *)
Definition dragstart (appElement : element) (s : t) : t :=
  set_dragged (Some appElement) (Some (index appElement)) s.

(** The [dragend] listener. *)
Definition dragend (s : t) : t := set_dragged None None s.

(** The [dragover] listener of [appElement]; [leftHalf] says that
    [e.clientX] is left of the middle of the element. The parent of an
    element that is not in the grid is [null]. *)
Definition dragover (appElement : element) (leftHalf : bool) : M t unit :=
  s ← get;
  match draggedElement s with
  | Some dragged =>
      if decide (dragged = appElement) then mret tt
      else if decide (appElement ∈ grid s) then
        match insertBefore dragged
                (if leftHalf then Some appElement else nextSibling appElement (grid s))
                (grid s) with
        | Some g => modify (set_grid (fun _ => g))
        | None => throw "NotFoundError"
        end
      else throw TypeError
  | None => mret tt
  end.

(** The [drop] listener. *)
Definition drop (storage_set_ok : bool) : M t unit :=
  i ← gets draggedIndex;
  match i with
  | Some _ => reorderApps storage_set_ok
  | None => mret tt
  end.

(** [init] as far as the apps go: the listeners are set up only if
    the first render returns. *)
Definition init (read : option (option (list slot))) (storage_set_ok : bool)
  : M t unit :=
  modify (loadApps read storage_set_ok);;
  renderApps.

(** The page when the script starts with [st] under the key
    [pinnedApps]; [get_ok] says whether the read succeeds. *)
Definition start (st : option (list slot)) (get_ok storage_set_ok : bool)
  : result unit * t :=
  init (if get_ok then Some st else None) storage_set_ok (set_stored st new).

(** What the user does. Elements are named by their place in the
    grid as it is shown. A drag is one gesture: it starts on an
    element, passes over elements, may be dropped on one and ends. *)
Inductive event :=
  | AddClick
  | DblClick (place : nat)
  | Input (f : form)
  | SaveClick (storage_set_ok : bool)
  | DeleteClick (storage_set_ok : bool)
  | CloseClick
  | Drag (place : nat) (over : list (nat * bool))
         (dropped : option (nat * bool)).

(** Two listeners run one after the other: the second runs whatever
    the first did, the first failure is reported. *)
Definition and_then (m1 m2 : M t unit) : M t unit :=
  fun s =>
    match m1 s with
    | (Ok _, s1) => m2 s1
    | (Throw e, s1) => (Throw e, snd (m2 s1))
    end.

(** The listener of the element shown at [place], if there is one. *)
Definition at_place (place : nat) (listener : element -> M t unit) : M t unit :=
  g ← gets grid;
  match g !! place with
  | Some el => listener el
  | None => mret tt
  end.

Fixpoint dragovers (over : list (nat * bool)) : M t unit :=
  match over with
  | [] => mret tt
  | (place, leftHalf) :: rest =>
      and_then (at_place place (fun el => dragover el leftHalf)) (dragovers rest)
  end.

Definition fire (e : event) : M t unit :=
  match e with
  | AddClick => modify addClick
  | DblClick place => at_place place (fun el => openEditModal (index el))
  | Input f => modify (set_fields f)
  | SaveClick ok => saveApp ok
  | DeleteClick ok => deleteApp ok
  | CloseClick => modify closeEditModal
  | Drag place over dropped =>
      at_place place (fun el =>
        and_then (modify (dragstart el))
          (and_then (dragovers over)
             (and_then
                match dropped with
                | Some (place', ok) => at_place place' (fun _ => drop ok)
                | None => mret tt
                end
                (modify dragend))))
  end.

(** The events of [events] in turn; the outcome says whether every
    listener returned. *)
Fixpoint run (events : list event) : M t unit :=
  match events with
  | [] => mret tt
  | e :: rest => and_then (fire e) (run rest)
  end.

End WithHost.

(** The grid as [renderApps] leaves it for [n] apps at render pass
    [p]. *)
Definition rendered (p n : nat) : list element :=
  map (Element p) (seq 0 n).

(** The state in which the listeners find the page between two user
    actions: only app objects in the list, each shown once by a node
    of the last render pass, nothing being dragged, and the app being
    edited, if any, in the list. *)
Definition steady (s : t) : Prop :=
  Forall (fun x => is_item x = true) (apps s)
  /\ grid s ≡ₚ rendered (passes s) (length (apps s))
  /\ draggedElement s = None
  /\ draggedIndex s = None
  /\ match editingIndex s with
     | Some i => (i < length (apps s))%nat
     | None => True
     end.

(** The state during a drag of the node [el]. *)
Definition dragging (el : element) (s : t) : Prop :=
  Forall (fun x => is_item x = true) (apps s)
  /\ grid s ≡ₚ rendered (passes s) (length (apps s))
  /\ draggedElement s = Some el
  /\ draggedIndex s = Some (index el)
  /\ el ∈ grid s
  /\ match editingIndex s with
     | Some i => (i < length (apps s))%nat
     | None => True
     end.

(** Examples: a host that trims nothing and accepts addresses that
    start with [h]; the page after a first start. *)
Definition plain_trim (s : string) : string := s.
Definition plain_origin (s : string) : option string :=
  match s with
  | String "h" _ => Some s
  | _ => None
  end.
Definition started : t :=
  snd (start None true true).
Definition example_form : form :=
  Form "Docs" "https://docs.example" None.

End PinnedApps.
(* ===================================================================== *)
(** ** Start of the clock, reset and export of the settings *)
(* ===================================================================== *)

Module Startup.
Import Json App.

(** [ClockManager.loadSettings]. *)
Definition clock_loadSettings (ev : env) (a : app) : app :=
  if storage_get_ok ev then
    let clockSettings := storage a !! "clockSettings" in
    let a :=
      if truthy clockSettings then
        set_clock (fun c =>
          ClockManager (spread (clock_settings c) clockSettings) (clock_hidden c)
                       (clockText c) (interval c)) a
      else a in
    set_clock (clock_applySettings ev) a
  else a.

(** [ClockManager.init] up to [startClock]; the clock is read once
    after the settings have come and once when the timer is set. *)
Definition clock_init (ev ev' : env) (a : app) : app :=
  set_clock (startClock ev') (clock_loadSettings ev a).

(** The period [startClock] chooses. *)
Definition period (c : clock) : Z :=
  if truthy (clock_settings c !! "showSeconds") then 1000 else 60000.

(** The running timer has the period that goes with the seconds
    setting. *)
Definition in_step (c : clock) : Prop := interval c = Some (period c).

(** The literal of [resetToDefaults]. *)
Definition reset_background : jval :=
  JObj {[ "type" := JStr "upload";
          "uploadSettings" :=
            JObj {[ "images" := JArr []; "cycle" := JStr "refresh";
                    "order" := JStr "random" ]};
          "colorSettings" := JObj {[ "color" := JStr "#1a1a1a" ]};
          "gradientSettings" :=
            JObj {[ "type" := JStr "linear"; "color1" := JStr "#667eea";
                    "color2" := JStr "#764ba2" ]};
          "apiSettings" :=
            JObj {[ "source" := JStr "unsplash"; "apiKey" := JStr "";
                    "query" := JStr "nature" ]} ]}.
Definition reset_settings : gmap string jval :=
  {[ "clock" := default_clock; "apps" := default_apps;
     "background" := reset_background; "stats" := default_stats ]}.

Section WithForm.
Variable populateSettings : gmap string jval -> result unit.

(** [SettingsManager.resetToDefaults]; [confirmed] is the answer to
    the confirmation dialog. A throw of [populateSettings] is not
    caught. *)
Definition resetToDefaults (confirmed : bool) (ev : env) (a : app)
  : result unit * app :=
  if confirmed then
    let a := set_manager (fun m => Manager reset_settings (statusMessage m)) a in
    let a := saveSettings ev a in
    match populateSettings (settings (settingsManager a)) with
    | Throw e => (Throw e, a)
    | Ok _ => (Ok tt, showStatus "Settings reset to defaults" "success" a)
    end
  else (Ok tt, a).

End WithForm.

(** [SettingsManager.exportSettings]: the document offered for
    download is [JSON.stringify(this.settings)]; it is given here as
    the value [JSON.parse] makes of that text. *)
Definition exportSettings (a : app) : jval * app :=
  (JObj (settings (settingsManager a)),
   showStatus "Settings exported successfully" "success" a).

(** Example: storage fails on every write. *)
Definition storage_down : env := Env (Clock.Time 9 41 0) true (fun _ => false).

End Startup.

(* ===================================================================== *)
(** ** Options page *)
(* ===================================================================== *)

Module Options.
Import Json.

(** [chrome.storage.sync], [chrome.storage.local] and the status
    message shown last. *)
Record page := Page {
  sync : gmap string jval;
  local : gmap string jval;
  status : option (string * string)
}.

(** What the environment decides during one action: the answer to the
    confirmation dialog, whether each storage call succeeds and the
    message of its error, and [new Date().toISOString()]. *)
Record env := Env {
  confirmed : bool;
  get_ok : bool;
  sync_clear_ok : bool;
  local_clear_ok : bool;
  set_ok : bool;
  storage_error : string;
  now_iso : string
}.

Definition showStatus (message type : string) (p : page) : page :=
  Page (sync p) (local p) (Some (message, type)).

(** [key.endsWith(suffix)]. *)
Definition endsWith (suffix key : string) : bool :=
  let n := String.length key in
  let m := String.length suffix in
  (m <=? n)%nat && String.eqb (String.substring (n - m) m key) suffix.

Definition optionalSections : list string :=
  ["newTabSettings"; "backgroundSettings"; "statsData"; "pinnedApps"].

(** The test [validateSettings] applies to each key. *)
Definition valid_section (key : string) : bool :=
  bool_decide (key ∈ optionalSections) || endsWith "Settings" key.

(** [typeof v === 'object']. *)
Definition is_object (v : jval) : bool :=
  match v with
  | JNull | JArr _ | JObj _ => true
  | _ => false
  end.

(** [OptionsPage.validateSettings]. *)
Definition validateSettings (settings : jval) : result unit :=
  if negb (truthy (Some settings)) || negb (is_object settings) then
    Throw "Invalid settings format"
  else if existsb (fun kv => valid_section (fst kv))
                  (map_to_list (own_props (Some settings))) then
    Ok tt
  else Throw "Settings file does not contain valid configuration sections".

(** [OptionsPage.exportSettings]: the document offered for download,
    as the value [JSON.parse] makes of its text. *)
Definition exportSettings (ev : env) (p : page) : option jval * page :=
  if get_ok ev then
    (Some (JObj (sync p)), showStatus "Settings exported successfully" "success" p)
  else (None, showStatus "Failed to export settings" "error" p).

(** [OptionsPage.importSettings]. *)
Definition importSettings (ev : env) (file : App.chosen) (p : page) : page :=
  let failed (e : string) (p : page) :=
    showStatus ("Failed to import settings: " ++ e) "error" p in
  match file with
  | App.NoFile => p
  | App.Unreadable e => failed e p
  | App.Text (Throw e) => failed e p
  | App.Text (Ok settings) =>
      match validateSettings settings with
      | Throw e => failed e p
      | Ok _ =>
          if confirmed ev then
            if sync_clear_ok ev then
              let p := Page ∅ (local p) (status p) in
              if set_ok ev then
                showStatus "Settings imported successfully" "success"
                  (Page (own_props (Some settings) ∪ sync p) (local p) (status p))
              else failed (storage_error ev) p
            else failed (storage_error ev) p
          else p
      end
  end.

(** [OptionsPage.resetAllData]. *)
Definition resetAllData (ev : env) (p : page) : page :=
  if confirmed ev then
    if sync_clear_ok ev then
      let p := Page ∅ (local p) (status p) in
      if local_clear_ok ev then
        let p := Page (sync p) ∅ (status p) in
        if set_ok ev then
          showStatus "All data has been reset successfully" "success"
            (Page (<["installDate" := JStr (now_iso ev)]> (sync p)) (local p)
                  (status p))
        else showStatus "Failed to reset data" "error" p
      else showStatus "Failed to reset data" "error" p
    else showStatus "Failed to reset data" "error" p
  else p.

(** The keys under which the extension itself writes to
    [chrome.storage.sync]. *)
Definition written_keys : list string :=
  ["clockSettings"; "pinnedApps"; "appsSettings"; "backgroundSettings";
   "statsData"; "newTabSettings"; "installDate"].

(** Every key of [o] is one of [keys]. *)
Definition keys_among (keys : list string) (o : gmap string jval) : bool :=
  forallb (fun kv => bool_decide (fst kv ∈ keys)) (map_to_list o).

(** Examples. *)
Definition willing : env := Env true true true true true "" "2024-01-01T00:00:00.000Z".
Definition write_fails : env :=
  Env true true true true false "QUOTA_BYTES quota exceeded" "2024-01-01T00:00:00.000Z".
Definition some_storage : page :=
  Page {[ "newTabSettings" := JObj App.default_settings;
          "installDate" := JStr "2023-06-01T00:00:00.000Z" ]} ∅ None.

End Options.

(* ===================================================================== *)
(** * Properties *)
(* ===================================================================== *)

(** ** Clock formatting *)

Section ClockFacts.
Import Clock.

Lemma string_app_assoc (a b c : string) :
  ((a ++ b) ++ c = a ++ (b ++ c))%string.
Proof.
  induction a as [|ch a IH]; [reflexivity|].
  change (String ch ((a ++ b) ++ c) = String ch (a ++ (b ++ c)))%string.
  now rewrite IH.
Qed.

Lemma string_app_nil_r (a : string) : (a ++ "" = a)%string.
Proof.
  induction a as [|ch a IH]; [reflexivity|].
  change (String ch (a ++ "") = String ch a)%string.
  now rewrite IH.
Qed.

Lemma padZero_nat (n : nat) :
  (n < 100)%nat -> padZero (Z.of_nat n) = two_digits (Z.of_nat n).
Proof.
  intros Hn.
  do 100 (destruct n as [|n]; [vm_compute; reflexivity|]).
  lia.
Qed.

Lemma padZero_two_digits (n : Z) :
  0 <= n < 100 -> padZero n = two_digits n.
Proof.
  intros Hn. rewrite <- (Z2Nat.id n) by lia. apply padZero_nat. lia.
Qed.

Lemma hour12_range (h : Z) : 0 <= h < 24 -> 1 <= hour12 h <= 12.
Proof.
  intros Hh. unfold hour12.
  rewrite Z.rem_mod_nonneg by lia.
  pose proof (Z.mod_pos_bound h 12 ltac:(lia)).
  destruct (Z.eqb_spec (h mod 12) 0); lia.
Qed.

Lemma hour12_cases (h : Z) :
  0 <= h < 24 ->
  hour12 h = (if h =? 0 then 12 else if h <=? 12 then h else h - 12).
Proof.
  intros Hh. unfold hour12.
  rewrite Z.rem_mod_nonneg by lia.
  destruct (Z.eqb_spec h 0) as [-> | Hne]; [reflexivity|].
  destruct (Z.leb_spec h 12) as [Hle | Hgt].
  - destruct (Z.eq_dec h 12) as [-> | Hne12]; [reflexivity|].
    rewrite Z.mod_small by lia.
    destruct (Z.eqb_spec h 0); [contradiction | reflexivity].
  - replace h with ((h - 12) + 1 * 12) by lia.
    rewrite Z.mod_add by lia. rewrite Z.mod_small by lia.
    destruct (Z.eqb_spec (h - 12) 0); lia.
Qed.

Lemma updateClock_12h (h m s : Z) :
  updateClock (Flags false false) (Time h m s)
  = (padZero (hour12 h) ++ ":" ++ padZero m ++ " "
     ++ (if (12 <=? h)%Z then "PM" else "AM"))%string.
Proof. reflexivity. Qed.

Lemma updateClock_24h (h m s : Z) :
  updateClock (Flags true false) (Time h m s) = (padZero h ++ ":" ++ padZero m)%string.
Proof. reflexivity. Qed.

Lemma updateClock_seconds (f24 : bool) (t : time) :
  updateClock (Flags f24 true) t
  = (updateClock (Flags f24 false) t ++ ":" ++ padZero (getSeconds t))%string.
Proof. reflexivity. Qed.

(** C8. Clock formatting. For minutes MM and seconds SS in [0, 60):
    hour 0 in 12-hour format renders as "12:MM AM", hour 13 as
    "01:MM PM", and hour 13 in 24-hour format as "13:MM"; every hour
    [h] of the day renders in 12-hour format as the two digits of
    [hour12 h] (0 shows 12, 1..12 show themselves and 13..23 show
    1..11) with the suffix AM below 12 and PM from 12 on, and in
    24-hour format as the two digits of [h]; minutes and seconds are
    always exactly two decimal digits, and the seconds, when shown,
    are appended as ":SS". *)
Theorem C8_clock_formatting (h m s : Z) :
  0 <= h < 24 -> 0 <= m < 60 -> 0 <= s < 60 ->
  updateClock (Flags false false) (Time 0 m s) = ("12:" ++ two_digits m ++ " AM")%string
  /\ updateClock (Flags false false) (Time 13 m s) = ("01:" ++ two_digits m ++ " PM")%string
  /\ updateClock (Flags true false) (Time 13 m s) = ("13:" ++ two_digits m)%string
  /\ updateClock (Flags false false) (Time h m s)
     = (two_digits (hour12 h) ++ ":" ++ two_digits m ++ " "
        ++ (if (12 <=? h)%Z then "PM" else "AM"))%string
  /\ 1 <= hour12 h <= 12
  /\ hour12 h = (if h =? 0 then 12 else if h <=? 12 then h else h - 12)
  /\ updateClock (Flags true false) (Time h m s)
     = (two_digits h ++ ":" ++ two_digits m)%string
  /\ padZero m = two_digits m
  /\ padZero s = two_digits s
  /\ (forall f24, updateClock (Flags f24 true) (Time h m s)
       = (updateClock (Flags f24 false) (Time h m s) ++ ":" ++ two_digits s)%string).
Proof.
  intros Hh Hm Hs.
  pose proof (hour12_range h Hh) as H12.
  assert (Em : padZero m = two_digits m) by (apply padZero_two_digits; lia).
  assert (Es : padZero s = two_digits s) by (apply padZero_two_digits; lia).
  assert (Eh : padZero h = two_digits h) by (apply padZero_two_digits; lia).
  assert (Eh12 : padZero (hour12 h) = two_digits (hour12 h))
    by (apply padZero_two_digits; lia).
  pose proof (hour12_cases h Hh) as Hcases.
  repeat split; try lia; try assumption.
  - rewrite updateClock_12h, Em. reflexivity.
  - rewrite updateClock_12h, Em. reflexivity.
  - rewrite updateClock_24h, Em. reflexivity.
  - rewrite updateClock_12h, Em, Eh12. reflexivity.
  - rewrite updateClock_24h, Em, Eh. reflexivity.
  - intros f24. rewrite updateClock_seconds. simpl getSeconds. now rewrite Es.
Qed.

Lemma C8_clock_formatting_witness :
  updateClock (Flags false false) (Time 0 7 42) = "12:07 AM"
  /\ updateClock (Flags false false) (Time 13 7 42) = "01:07 PM"
  /\ updateClock (Flags true false) (Time 13 7 42) = "13:07"
  /\ updateClock (Flags false false) (Time 23 7 42) = "11:07 PM"
  /\ padZero 7 = "07".
Proof.
  destruct (C8_clock_formatting 23 7 42 ltac:(lia) ltac:(lia) ltac:(lia))
    as (H0 & H13 & H24 & Hh & _ & _ & _ & Hm & _).
  exact (conj H0 (conj H13 (conj H24 (conj Hh Hm)))).
Defined.

(** Apart from 12-hour mode with seconds shown, the utility and the
    clock produce the same string. *)
Lemma formatTime_updateClock (h m s : Z) (f24 sec : bool) :
  f24 = true \/ sec = false ->
  formatTime h m s (Some f24) (Some sec) = updateClock (Flags f24 sec) (Time h m s).
Proof.
  intros H. unfold formatTime, updateClock, padZero. simpl.
  destruct f24, sec; simpl.
  - rewrite string_app_nil_r. now rewrite !string_app_assoc.
  - now rewrite !string_app_nil_r.
  - destruct H; discriminate.
  - destruct (12 <=? h); now rewrite !string_app_assoc.
Qed.

(** C10. In 12-hour mode with seconds shown the two formatters
    disagree: at 00:05:07 the utility [formatTime] gives "12:05:07 AM"
    while [updateClock] puts the seconds after the suffix,
    "12:05 AM:07". *)
Theorem C10_seconds_placement_differs :
  formatTime 0 5 7 (Some false) (Some true) = "12:05:07 AM"
  /\ updateClock (Flags false true) (Time 0 5 7) = "12:05 AM:07"
  /\ formatTime 0 5 7 (Some false) (Some true)
     <> updateClock (Flags false true) (Time 0 5 7).
Proof. repeat split. vm_compute. discriminate. Qed.

End ClockFacts.

(** ** Background selection *)

Section BackgroundFacts.
Import Background.

Ltac run_monad :=
  unfold mbind, mret, M_bind, M_ret, bind, ret, gets, modify, throw, try_catch;
  cbn beta iota.

Lemma length_splice1 {A} (i : nat) (l : list A) :
  (i < length l)%nat -> length (splice1 i l) = (length l - 1)%nat.
Proof.
  intros Hi. unfold splice1.
  rewrite length_app, length_take, length_drop. lia.
Qed.

Lemma saveSettings_settings ev e :
  this_settings (snd (saveSettings ev e)) = this_settings e.
Proof. unfold saveSettings, modify. simpl. now destruct (storage_set_ok ev). Qed.

Lemma cursor_num e :
  0 <= cursor e -> upload_cursor e = Js.Num (cursor e).
Proof.
  unfold cursor, upload_cursor.
  destruct (Upload.currentIndex _); cbn; intros H; [reflexivity | lia | lia].
Qed.

Lemma nextUploadIndex_sequential ev e :
  sequential e ->
  nextUploadIndex ev e
  = (Ok (upload_cursor e),
     set_upload (fun u =>
       Upload.Make (Upload.images u) (Upload.cycle u) (Upload.order u)
                   (Js.succ_rem (Upload.currentIndex u) (pool_size e))) e).
Proof.
  intros Hseq. unfold nextUploadIndex. run_monad.
  destruct (String.eqb_spec (Upload.order (uploadSettings (this_settings e))) "random")
    as [Heq | _]; [contradiction|].
  reflexivity.
Qed.

Lemma nextUploadIndex_random ev e :
  ~ sequential e ->
  nextUploadIndex ev e = (Ok (Js.Num (random_index ev (pool_size e))), e).
Proof.
  intros Hr. unfold nextUploadIndex. run_monad.
  destruct (String.eqb_spec (Upload.order (uploadSettings (this_settings e))) "random")
    as [_ | Hne]; [reflexivity|].
  exfalso. apply Hr. exact Hne.
Qed.

(** A call on a non-empty pool changes the settings exactly as the
    index selection does, whether or not the image decodes and whether
    or not the write to storage succeeds. *)
Lemma applyUploadBackground_settings ev e :
  0 < pool_size e ->
  this_settings (snd (applyUploadBackground ev e))
  = this_settings (snd (nextUploadIndex ev e)).
Proof.
  intros Hn. unfold pool_size in Hn.
  unfold applyUploadBackground. run_monad.
  destruct (Nat.eqb_spec (length (Upload.images (uploadSettings (this_settings e)))) 0)
    as [H0 | _]; [lia|].
  destruct (nextUploadIndex ev e) as [[i | msg] e1]; [|reflexivity].
  cbn [snd]. unfold setBackgroundImage.
  destruct (decodes ev _); run_monad; [|reflexivity].
  rewrite (surjective_pairing (saveSettings ev _)).
  destruct (fst (saveSettings ev _)); cbn [snd];
    now rewrite saveSettings_settings.
Qed.

Lemma applyUploadBackground_empty ev e :
  pool_size e = 0 ->
  applyUploadBackground ev e = applyColorBackground e.
Proof.
  intros Hn. unfold pool_size in Hn.
  unfold applyUploadBackground. run_monad.
  destruct (Nat.eqb_spec (length (Upload.images (uploadSettings (this_settings e)))) 0)
    as [_ | H0]; [reflexivity | lia].
Qed.

(** One sequential selection, whatever the cursor holds: the cursor is
    what is picked, and it is advanced over the same pool. *)
Lemma sequential_select ev e :
  0 < pool_size e -> sequential e ->
  picked ev e = upload_cursor e
  /\ upload_cursor (snd (applyUploadBackground ev e))
     = Js.succ_rem (upload_cursor e) (pool_size e)
  /\ pool_size (snd (applyUploadBackground ev e)) = pool_size e
  /\ sequential (snd (applyUploadBackground ev e)).
Proof.
  intros Hn Hseq.
  pose proof (applyUploadBackground_settings ev e Hn) as Hs.
  rewrite nextUploadIndex_sequential in Hs by assumption. cbn in Hs.
  unfold picked. rewrite nextUploadIndex_sequential by assumption. cbn [fst].
  unfold upload_cursor, pool_size, sequential in *. rewrite Hs. cbn.
  repeat split. exact Hseq.
Qed.

(** One sequential selection: the cursor is what is picked, and it moves
    on by one, wrapping at the pool's length. *)
Lemma sequential_step ev e :
  0 < pool_size e -> sequential e -> 0 <= cursor e ->
  picked ev e = cursor e
  /\ cursor (snd (applyUploadBackground ev e)) = (cursor e + 1) mod pool_size e
  /\ pool_size (snd (applyUploadBackground ev e)) = pool_size e
  /\ sequential (snd (applyUploadBackground ev e)).
Proof.
  intros Hn Hseq Hc.
  destruct (sequential_select ev e Hn Hseq) as (Hp & Hc' & Hn' & Hseq').
  pose proof (cursor_num e Hc) as Hnum.
  split; [now rewrite Hp|]. split; [|split; assumption].
  change (cursor (snd (applyUploadBackground ev e)))
    with (Js.integer (upload_cursor (snd (applyUploadBackground ev e)))).
  rewrite Hc', Hnum. cbn.
  destruct (Z.eqb_spec (pool_size e) 0); [lia|]. cbn.
  apply Z.rem_mod_nonneg; lia.
Qed.

Lemma picks_from (evs : list env) : forall e,
  sequential e -> 0 <= cursor e < pool_size e ->
  picks evs e
  = (fun i : nat => Js.Num ((cursor e + Z.of_nat i) mod pool_size e))
    <$> seq 0 (length evs).
Proof.
  induction evs as [|ev evs IH]; intros e Hseq Hc; [reflexivity|].
  destruct (sequential_step ev e ltac:(lia) Hseq ltac:(lia)) as (Hp & Hc' & Hn' & Hseq').
  cbn [picks length seq fmap list_fmap].
  rewrite IH; rewrite ?Hn', ?Hc'; try assumption.
  2: { apply Z.mod_pos_bound; lia. }
  f_equal.
  - rewrite Hp, Z.add_0_r, Z.mod_small; [reflexivity | lia].
  - rewrite <- fmap_S_seq, <- list_fmap_compose.
    apply list_fmap_ext. intros _ i _. cbn.
    rewrite Zplus_mod_idemp_l. do 2 f_equal. lia.
Qed.

Lemma calls_cursor (evs : list env) : forall e,
  sequential e -> 0 <= cursor e < pool_size e ->
  cursor (calls evs e) = (cursor e + Z.of_nat (length evs)) mod pool_size e
  /\ pool_size (calls evs e) = pool_size e
  /\ sequential (calls evs e).
Proof.
  induction evs as [|ev evs IH]; intros e Hseq Hc.
  - cbn. rewrite Z.add_0_r, Z.mod_small by lia. auto.
  - destruct (sequential_step ev e ltac:(lia) Hseq ltac:(lia)) as (_ & Hc' & Hn' & Hseq').
    cbn [calls foldl length].
    destruct (IH (snd (applyUploadBackground ev e)) Hseq') as (IH1 & IH2 & IH3).
    { rewrite Hn', Hc'. apply Z.mod_pos_bound; lia. }
    fold (calls evs (snd (applyUploadBackground ev e))).
    rewrite IH1, IH2, Hn', Hc'. repeat split; try assumption.
    rewrite Zplus_mod_idemp_l. f_equal. lia.
Qed.

(** A removal at an index of the pool: one image less, and the cursor
    set to 0 when it compares as at least the new length. *)
Lemma removeUploadedImage_cursor ev index e :
  0 <= index < pool_size e ->
  pool_size (snd (removeUploadedImage ev index e)) = pool_size e - 1
  /\ upload_cursor (snd (removeUploadedImage ev index e))
     = (if Js.ge (upload_cursor e) (pool_size e - 1) then Js.Num 0
        else upload_cursor e)
  /\ sequential (snd (removeUploadedImage ev index e)) = sequential e.
Proof.
  intros Hi. unfold pool_size, upload_cursor, sequential in *.
  unfold removeUploadedImage. run_monad.
  destruct (Z.leb_spec 0 index); [|lia].
  destruct (Z.ltb_spec index
              (Z.of_nat (length (Upload.images (uploadSettings (this_settings e))))));
    [|lia].
  cbn [andb]. rewrite (surjective_pairing (saveSettings ev _)).
  destruct (fst (saveSettings ev _)); cbn [snd]; rewrite saveSettings_settings; cbn.
  all: rewrite length_splice1 by lia.
  all: replace (Z.of_nat (length (Upload.images (uploadSettings (this_settings e))) - 1))
         with (Z.of_nat (length (Upload.images (uploadSettings (this_settings e)))) - 1)
         by lia.
  all: destruct (Js.ge (Upload.currentIndex (uploadSettings (this_settings e))) _); cbn;
       rewrite length_splice1 by lia; repeat split; lia.
Qed.

(** A removal at an index of the pool: one image less, and the cursor
    back at 0 when it is no longer an index. *)
Lemma removeUploadedImage_valid ev index e :
  0 <= index < pool_size e ->
  pool_size (snd (removeUploadedImage ev index e)) = pool_size e - 1
  /\ cursor (snd (removeUploadedImage ev index e))
     = (if pool_size e - 1 <=? cursor e then 0 else cursor e).
Proof.
  intros Hi.
  destruct (removeUploadedImage_cursor ev index e Hi) as (Hn & Hc & _).
  split; [exact Hn|].
  change (cursor (snd (removeUploadedImage ev index e)))
    with (Js.integer (upload_cursor (snd (removeUploadedImage ev index e)))).
  rewrite Hc. unfold cursor, upload_cursor, pool_size in *.
  destruct (Upload.currentIndex (uploadSettings (this_settings e))) as [c| |]; cbn.
  - now destruct (_ <=? c).
  - destruct (Z.leb_spec
                (Z.of_nat (length (Upload.images (uploadSettings (this_settings e)))) - 1)
                (-1)); [lia | reflexivity].
  - destruct (Z.leb_spec
                (Z.of_nat (length (Upload.images (uploadSettings (this_settings e)))) - 1)
                (-1)); [lia | reflexivity].
Qed.

Lemma removeUploadedImage_invalid ev index e :
  ~ 0 <= index < pool_size e ->
  removeUploadedImage ev index e = (Ok tt, e).
Proof.
  intros Hi. unfold pool_size in Hi.
  unfold removeUploadedImage. run_monad.
  destruct (Z.leb_spec 0 index); [|reflexivity].
  destruct (Z.ltb_spec index
              (Z.of_nat (length (Upload.images (uploadSettings (this_settings e))))));
    [lia | reflexivity].
Qed.

Lemma addUploadedImage_some ev url e :
  pool_size (snd (addUploadedImage ev (Some url) e)) = pool_size e + 1
  /\ cursor (snd (addUploadedImage ev (Some url) e)) = cursor e.
Proof.
  unfold pool_size, cursor, addUploadedImage. run_monad.
  rewrite (surjective_pairing (saveSettings ev _)).
  destruct (fst (saveSettings ev _)); cbn [snd]; rewrite saveSettings_settings; cbn;
    rewrite length_app; cbn; split; lia.
Qed.

(** A selection leaves the cursor an index of the pool. *)
Lemma select_cursor_ok ev e :
  cursor_ok e -> cursor_ok (snd (applyUploadBackground ev e))
                 /\ pool_size (snd (applyUploadBackground ev e)) = pool_size e.
Proof.
  intros [Hc Hlt].
  assert (Hn : pool_size e = 0 \/ 0 < pool_size e) by (unfold pool_size; lia).
  destruct Hn as [Hn | Hn].
  - rewrite applyUploadBackground_empty by assumption.
    unfold cursor_ok, cursor, pool_size in *. cbn. lia.
  - destruct (String.eqb_spec (Upload.order (uploadSettings (this_settings e))) "random")
      as [Hr | Hseq].
    + pose proof (applyUploadBackground_settings ev e Hn) as Hs.
      rewrite nextUploadIndex_random in Hs by (unfold sequential; tauto).
      cbn [snd] in Hs.
      unfold cursor_ok, cursor, pool_size in *. rewrite Hs. lia.
    + destruct (sequential_step ev e Hn Hseq Hc) as (_ & Hc' & Hn' & _).
      unfold cursor_ok. rewrite Hc', Hn'.
      pose proof (Z.mod_pos_bound (cursor e + 1) (pool_size e) Hn). lia.
Qed.

Lemma step_cursor_ok o e : cursor_ok e -> cursor_ok (step e o).
Proof.
  intros Hok. destruct o as [ev | ev index | ev [url|]]; cbn [step].
  - now apply select_cursor_ok.
  - destruct (Z_le_dec 0 index) as [H0|H0];
      [destruct (Z_lt_dec index (pool_size e)) as [H1|H1]|].
    + destruct (removeUploadedImage_valid ev index e ltac:(lia)) as [Hn Hc].
      destruct Hok as [Hc0 Hlt]. unfold cursor_ok. rewrite Hn, Hc.
      destruct (Z.leb_spec (pool_size e - 1) (cursor e)); lia.
    + rewrite removeUploadedImage_invalid by lia. exact Hok.
    + rewrite removeUploadedImage_invalid by lia. exact Hok.
  - destruct (addUploadedImage_some ev url e) as [Hn Hc].
    destruct Hok as [Hc0 Hlt]. unfold cursor_ok. rewrite Hn, Hc. lia.
  - exact Hok.
Qed.

Lemma run_cursor_ok ops : forall e, cursor_ok e -> cursor_ok (run ops e).
Proof.
  induction ops as [|o ops IH]; intros e Hok; [exact Hok|].
  cbn [run foldl]. apply IH. now apply step_cursor_ok.
Qed.

Lemma new_cursor_ok : cursor_ok new.
Proof. unfold cursor_ok, cursor, pool_size. cbn. lia. Qed.

(** A cursor that is no number stays none: selections in sequential
    order make it [NaN] and pick it as it is, over the same pool. *)
Lemma calls_without_cursor (evs : list env) : forall e,
  0 < pool_size e -> sequential e -> upload_cursor e = Js.NaN ->
  upload_cursor (calls evs e) = Js.NaN
  /\ picks evs e = (fun _ => Js.NaN) <$> evs
  /\ pool_size (calls evs e) = pool_size e.
Proof.
  induction evs as [|ev evs IH]; intros e Hn Hseq Hc; [now cbn|].
  destruct (sequential_select ev e Hn Hseq) as (Hp & Hc' & Hn' & Hseq').
  rewrite Hc in Hc', Hp. cbn in Hc'.
  destruct (IH (snd (applyUploadBackground ev e))) as (IH1 & IH2 & IH3);
    [now rewrite Hn' | assumption | assumption |].
  cbn [calls foldl picks fmap list_fmap].
  fold (calls evs (snd (applyUploadBackground ev e))).
  rewrite IH1, IH2, IH3, Hp, Hn'. auto.
Qed.

(** C4. The cursor can be lost, and then no selection or removal brings
    it back below the pool's length. The event that a save of the
    settings panel publishes carries the panel's [uploadSettings], which
    replaces the engine's as a whole and has no [currentIndex]: on a
    page whose panel has the sequential order chosen, the engine's
    cursor is 0 before the save and [undefined] after it. From an engine
    in sequential order with a non-empty pool and such a cursor, a call
    of [applyUploadBackground] picks [undefined], so the image it asks
    for is [images[undefined]]; it leaves the cursor [NaN] over the same
    pool, and [currentIndex < length] is false. Every further call
    picks [NaN] and leaves [NaN], and a removal at an index of the pool
    does not put the cursor back to 0: it stays [NaN], not below the
    new length. *)
Theorem C4_cursor_lost_by_panel_save
    (ev : env) (evs : list env) (index : Z) (e : engine) :
  0 < pool_size e -> sequential e -> upload_cursor e = Js.Undefined ->
  (Json.lookup_path (Json.JObj (App.background_settings
       (App.backgroundEngine App.sequential_panel)))
     ["uploadSettings"; "currentIndex"] = Some (Json.JNum 0)
   /\ App.background_settings
        (App.backgroundEngine (App.saveSettings App.fair_weather App.sequential_panel))
      !! "uploadSettings" = Some App.sequential_upload
   /\ Json.lookup_path (Json.JObj (App.background_settings
        (App.backgroundEngine (App.saveSettings App.fair_weather App.sequential_panel))))
      ["uploadSettings"; "currentIndex"] = None)
  /\ picked ev e = Js.Undefined
  /\ nth_url (Upload.images (uploadSettings (this_settings e))) (picked ev e)
     = "undefined"
  /\ upload_cursor (snd (applyUploadBackground ev e)) = Js.NaN
  /\ pool_size (snd (applyUploadBackground ev e)) = pool_size e
  /\ Js.lt (upload_cursor (snd (applyUploadBackground ev e)))
           (pool_size (snd (applyUploadBackground ev e))) = false
  /\ upload_cursor (calls evs (snd (applyUploadBackground ev e))) = Js.NaN
  /\ picks evs (snd (applyUploadBackground ev e)) = (fun _ => Js.NaN) <$> evs
  /\ (0 <= index < pool_size e ->
      pool_size (snd (removeUploadedImage ev index (snd (applyUploadBackground ev e))))
      = pool_size e - 1
      /\ upload_cursor
           (snd (removeUploadedImage ev index (snd (applyUploadBackground ev e))))
         = Js.NaN
      /\ Js.lt (upload_cursor
                  (snd (removeUploadedImage ev index (snd (applyUploadBackground ev e)))))
               (pool_size
                  (snd (removeUploadedImage ev index (snd (applyUploadBackground ev e)))))
         = false).
Proof.
  intros Hn Hseq Hc.
  destruct (sequential_select ev e Hn Hseq) as (Hp & Hc' & Hn' & Hseq').
  rewrite Hc in Hp, Hc'. cbn in Hc'.
  destruct (calls_without_cursor evs (snd (applyUploadBackground ev e)))
    as (Hcalls & Hpicks & _); [now rewrite Hn' | assumption | assumption |].
  split; [repeat split; vm_compute; reflexivity|].
  split; [exact Hp|]. split; [now rewrite Hp|]. split; [exact Hc'|].
  split; [exact Hn'|]. split; [now rewrite Hc'|].
  split; [exact Hcalls|]. split; [exact Hpicks|].
  intros Hi.
  destruct (removeUploadedImage_cursor ev index (snd (applyUploadBackground ev e)))
    as (Hrn & Hrc & _); [now rewrite Hn'|].
  rewrite Hc' in Hrc. cbn in Hrc. rewrite Hrn, Hrc, Hn'. auto.
Qed.

Lemma C4_cursor_lost_by_panel_save_witness :
  picked fair_weather
    (snd (addUploadedImage fair_weather (Some "a.png") after_panel_save))
  = Js.Undefined
  /\ backgroundImage (backgroundContainer
       (snd (applyUploadBackground fair_weather
          (snd (addUploadedImage fair_weather (Some "a.png") after_panel_save)))))
     = "url(undefined)"
  /\ upload_cursor
       (snd (applyUploadBackground fair_weather
          (snd (addUploadedImage fair_weather (Some "a.png") after_panel_save))))
     = Js.NaN
  /\ picks [fair_weather; fair_weather]
       (snd (applyUploadBackground fair_weather
          (snd (addUploadedImage fair_weather (Some "a.png") after_panel_save))))
     = [Js.NaN; Js.NaN].
Proof.
  assert (Hn : 0 < pool_size
                     (snd (addUploadedImage fair_weather (Some "a.png") after_panel_save)))
    by (vm_compute; reflexivity).
  assert (Hs : sequential
                 (snd (addUploadedImage fair_weather (Some "a.png") after_panel_save)))
    by (unfold sequential; cbn; discriminate).
  destruct (C4_cursor_lost_by_panel_save fair_weather [fair_weather; fair_weather] 0
              (snd (addUploadedImage fair_weather (Some "a.png") after_panel_save))
              Hn Hs eq_refl)
    as (_ & Hp & _ & Hc & _ & _ & _ & Hpicks & _).
  split; [exact Hp|]. split; [vm_compute; reflexivity|].
  split; [exact Hc | exact Hpicks].
Defined.

Lemma fetchApiImages_throw ev e msg e' :
  fetchApiImages ev e = (Throw msg, e') -> e' = e.
Proof.
  unfold fetchApiImages. run_monad.
  destruct (fetch ev _) as [m | code | m | [urls|]]; try (intros [= _ <-]; reflexivity);
    destruct (String.eqb (Api.source (apiSettings (this_settings e))) "unsplash"
              || String.eqb (Api.source (apiSettings (this_settings e))) "pexels");
    cbn; try discriminate; intros [= _ <-]; reflexivity.
Qed.

Lemma applyColorBackground_spec e :
  applyColorBackground e
  = (Ok tt, Engine (this_settings e)
              (Style "none" (Color.color (colorSettings (this_settings e)))
                     (transition (backgroundContainer e)))
              (stored e)).
Proof. reflexivity. Qed.

(** C9. When the selected mode's pool is empty (upload mode with no
    image, API mode without a key, or API mode with a key whose empty
    pool stays empty because the fetch fails), [applyBackground]
    returns normally, the container shows the solid colour, and the
    settings (so the empty pool) are left as they were. *)
Theorem C9_empty_pool_falls_back_to_color (ev : env) (e : engine) :
  (backgroundType (this_settings e) = "upload"
   /\ Upload.images (uploadSettings (this_settings e)) = [])
  \/ (backgroundType (this_settings e) = "api"
      /\ Api.apiKey (apiSettings (this_settings e)) = "")
  \/ (backgroundType (this_settings e) = "api"
      /\ Api.images (apiSettings (this_settings e)) = []
      /\ fetch_fails ev e = true) ->
  exists e',
    applyBackground ev e = (Ok tt, e')
    /\ shows_color e'
    /\ this_settings e' = this_settings e.
Proof.
  intros H.
  exists (Engine (this_settings e)
            (Style "none" (Color.color (colorSettings (this_settings e)))
                   (transition (backgroundContainer e)))
            (stored e)).
  split; [|split; [split|]; reflexivity].
  unfold applyBackground. run_monad.
  destruct H as [[Hty Hpool] | [[Hty Hkey] | (Hty & Hpool & Hfetch)]]; rewrite Hty; cbn.
  - unfold applyUploadBackground. run_monad. rewrite Hpool. reflexivity.
  - unfold applyApiBackground. run_monad. rewrite Hkey. reflexivity.
  - unfold applyApiBackground. run_monad.
    destruct (String.eqb (Api.apiKey (apiSettings (this_settings e))) "");
      [reflexivity|].
    rewrite Hpool. cbn [length Nat.eqb].
    unfold fetch_fails in Hfetch.
    destruct (fetchApiImages ev e) as [[[] | msg] e1] eqn:Hf; [discriminate|].
    apply fetchApiImages_throw in Hf. subst e1. reflexivity.
Qed.

Lemma C9_empty_pool_falls_back_to_color_witness :
  exists e',
    applyBackground fair_weather new = (Ok tt, e')
    /\ shows_color e'
    /\ this_settings e' = this_settings new.
Proof.
  apply (C9_empty_pool_falls_back_to_color fair_weather new).
  left. split; reflexivity.
Defined.

(** In upload mode, an image that fails to decode makes
    [applyBackground] throw, with the container untouched. *)
Lemma upload_decode_failure_escapes ev e :
  backgroundType (this_settings e) = "upload" ->
  0 < pool_size e ->
  decodes ev (nth_url (Upload.images (uploadSettings (this_settings e))) (picked ev e))
  = false ->
  fst (applyBackground ev e) = Throw "Failed to load image"
  /\ backgroundContainer (snd (applyBackground ev e)) = backgroundContainer e.
Proof.
  intros Hty Hn Hdec. unfold pool_size in Hn.
  unfold applyBackground. run_monad. rewrite Hty. cbn [String.eqb Ascii.eqb Bool.eqb].
  unfold applyUploadBackground. run_monad.
  destruct (Nat.eqb_spec (length (Upload.images (uploadSettings (this_settings e)))) 0)
    as [H0 | _]; [lia|].
  unfold picked in Hdec.
  destruct (String.eqb_spec (Upload.order (uploadSettings (this_settings e))) "random")
    as [Hr | Hseq].
  - rewrite nextUploadIndex_random in * by (unfold sequential; tauto).
    cbn [fst] in Hdec. cbn beta iota. unfold setBackgroundImage.
    rewrite Hdec. split; reflexivity.
  - rewrite nextUploadIndex_sequential in * by exact Hseq.
    cbn [fst] in Hdec. cbn beta iota. unfold setBackgroundImage.
    rewrite Hdec. split; reflexivity.
Qed.

Lemma nextApiIndex_spec ev e :
  nextApiIndex ev e
  = if bool_decide (Api.order (apiSettings (this_settings e)) = Some "random")
    then (Ok (random_index ev
                (Z.of_nat (length (Api.images (apiSettings (this_settings e)))))), e)
    else (Ok (Api.currentIndex (apiSettings (this_settings e))),
          set_api (fun a =>
            Api.Make (Api.source a) (Api.apiKey a) (Api.query a) (Api.images a)
              (Z.rem (Api.currentIndex a + 1)
                 (Z.of_nat (length (Api.images (apiSettings (this_settings e))))))
              (Api.order a) (Api.cycle a)) e).
Proof.
  unfold nextApiIndex. run_monad.
  now destruct (bool_decide (Api.order (apiSettings (this_settings e)) = Some "random")).
Qed.

(** In API mode the same failure is caught and the colour is drawn. *)
Lemma api_decode_failure_falls_back ev e :
  backgroundType (this_settings e) = "api" ->
  Api.apiKey (apiSettings (this_settings e)) <> "" ->
  Api.images (apiSettings (this_settings e)) <> [] ->
  decodes ev (nth_url (Api.images (apiSettings (this_settings e))) (picked_api ev e))
  = false ->
  fst (applyBackground ev e) = Ok tt /\ shows_color (snd (applyBackground ev e)).
Proof.
  intros Hty Hkey Hpool Hdec.
  unfold applyBackground. run_monad. rewrite Hty. cbn [String.eqb Ascii.eqb Bool.eqb].
  unfold applyApiBackground. run_monad.
  destruct (String.eqb_spec (Api.apiKey (apiSettings (this_settings e))) "");
    [contradiction|].
  unfold picked_api in Hdec. rewrite nextApiIndex_spec in *.
  assert (Hlen : length (Api.images (apiSettings (this_settings e))) <> 0%nat)
    by (destruct (Api.images (apiSettings (this_settings e))); [contradiction | discriminate]).
  destruct (Nat.eqb_spec (length (Api.images (apiSettings (this_settings e)))) 0);
    [contradiction|].
  cbn beta iota.
  destruct (Nat.ltb_spec 0 (length (Api.images (apiSettings (this_settings e)))));
    [|lia].
  rewrite nextApiIndex_spec.
  destruct (bool_decide (Api.order (apiSettings (this_settings e)) = Some "random"));
    cbn [fst] in Hdec; cbn beta iota;
    unfold setBackgroundImage; rewrite Hdec; cbn; repeat split.
Qed.

(** C2. A background image that fails to decode. In upload mode the
    failure escapes [applyBackground] as a thrown error and nothing is
    drawn: with three uploaded images taken in order, the call throws
    "Failed to load image", the container keeps its style (no colour
    fallback), and the cursor has moved on without being saved. In API
    mode the same failure is caught and the colour is drawn. *)
Theorem C2_upload_decode_failure_escapes :
  fst (applyBackground broken_images three_images) = Throw "Failed to load image"
  /\ backgroundContainer (snd (applyBackground broken_images three_images))
     = backgroundContainer three_images
  /\ ~ shows_color (snd (applyBackground broken_images three_images))
  /\ cursor (snd (applyBackground broken_images three_images)) = 1
  /\ stored (snd (applyBackground broken_images three_images)) = None
  /\ fst (applyBackground broken_images three_api_images) = Ok tt
  /\ shows_color (snd (applyBackground broken_images three_api_images)).
Proof.
  repeat split.
  intros [H _]. vm_compute in H. discriminate.
Qed.

End BackgroundFacts.

(** ** Tab counters *)

Section StatsFacts.
Import Stats.
Variable cal : calendar.

Lemma saveStats_stats ok t : this_stats (saveStats ok t) = this_stats t.
Proof. unfold saveStats. now destruct ok. Qed.




End StatsFacts.


(** ** Settings: load, import, save and notify *)

Section AppFacts.
Import Json App.

Lemma not_truthy_no_props (v : option jval) : truthy v = false -> own_props v = ∅.
Proof.
  destruct v as [[| b | q | s | l | o]|]; cbn; try discriminate; try reflexivity.
  destruct s; [reflexivity | discriminate].
Qed.

Lemma lookup_spread (target : gmap string jval) (source : option jval) (key : string) :
  spread target source !! key
  = match own_props source !! key with
    | Some v => Some v
    | None => target !! key
    end.
Proof.
  unfold spread. rewrite lookup_union.
  destruct (own_props source !! key), (target !! key); reflexivity.
Qed.

(** C5. Loading the settings when storage holds a document, an object
    with any of its fields missing. A section the document lacks
    keeps the constructor's default, and a section it has is the
    stored value, whatever that value is: the default of that section
    is replaced as a whole, not merged. So the loaded settings are the
    stored document's fields over the defaults. The four defaults are
    those sections of the hardcoded document. When nothing is stored,
    or the read fails, the settings stay the defaults. *)
Theorem C5_load_defaults_missing_sections
    (ev : env) (stored : gmap string jval) (document : gmap string jval)
    (section : string) :
  storage_get_ok ev = true ->
  stored !! "newTabSettings" = Some (JObj document) ->
  (document !! section = None ->
   settings (settingsManager (loadSettings ev (new stored))) !! section
   = default_settings !! section)
  /\ (forall v, document !! section = Some v ->
        settings (settingsManager (loadSettings ev (new stored))) !! section = Some v)
  /\ settings (settingsManager (loadSettings ev (new stored)))
     = document ∪ default_settings
  /\ default_settings !! "clock" = Some default_clock
  /\ default_settings !! "apps" = Some default_apps
  /\ default_settings !! "background" = Some default_background
  /\ default_settings !! "stats" = Some default_stats
  /\ (forall ev' stored',
        storage_get_ok ev' = false \/ stored' !! "newTabSettings" = None ->
        settings (settingsManager (loadSettings ev' (new stored'))) = default_settings).
Proof.
  intros Hget Hdoc.
  assert (Hload : settings (settingsManager (loadSettings ev (new stored)))
                  = document ∪ default_settings).
  { unfold loadSettings. rewrite Hget. cbn [storage new]. rewrite Hdoc. reflexivity. }
  rewrite Hload.
  split; [intros Hnone; rewrite lookup_union, Hnone;
          now destruct (default_settings !! section)|].
  split; [intros v Hv; rewrite lookup_union, Hv;
          now destruct (default_settings !! section)|].
  split; [reflexivity|].
  do 4 (split; [reflexivity|]).
  intros ev' stored' [Hfail | Hnone]; unfold loadSettings.
  - now rewrite Hfail.
  - destruct (storage_get_ok ev'); [|reflexivity].
    cbn [storage new]. now rewrite Hnone.
Qed.

Lemma C5_load_defaults_missing_sections_witness :
  settings (settingsManager (loadSettings fair_weather (new partly_stored))) !! "apps"
  = Some edited_apps
  /\ settings (settingsManager (loadSettings fair_weather (new partly_stored))) !! "clock"
     = Some default_clock
  /\ settings (settingsManager (loadSettings fair_weather (new partly_stored))) !! "stats"
     = Some (JBool false).
Proof.
  assert (Hdoc : partly_stored !! "newTabSettings" = Some (JObj partial_document))
    by (vm_compute; reflexivity).
  destruct (C5_load_defaults_missing_sections fair_weather partly_stored
              partial_document "apps" eq_refl Hdoc) as (_ & Happs & _).
  destruct (C5_load_defaults_missing_sections fair_weather partly_stored
              partial_document "clock" eq_refl Hdoc) as (Hclock & _).
  destruct (C5_load_defaults_missing_sections fair_weather partly_stored
              partial_document "stats" eq_refl Hdoc) as (_ & Hstats & _).
  split; [apply Happs; vm_compute; reflexivity|].
  split; [rewrite Hclock by (vm_compute; reflexivity); reflexivity|].
  apply Hstats. vm_compute. reflexivity.
Defined.

Lemma check_throw_sticky settings props : forall e,
  foldl (check settings) (Throw e) props = Throw e.
Proof. induction props as [|p props IH]; intros e; [reflexivity | apply IH]. Qed.

Lemma check_missing settings (props : list string) (section : string) :
  section ∈ props ->
  own_props (Some settings) !! section = None ->
  forall acc, exists msg, foldl (check settings) acc props = Throw msg.
Proof.
  intros Hin Hmiss. induction Hin as [section props | section p props Hin IH];
    intros acc.
  - cbn [foldl]. destruct acc as [[]|e].
    + unfold check at 2. unfold getProp.
      destruct settings; cbn in Hmiss |- *;
        try rewrite Hmiss; cbn; rewrite check_throw_sticky; eauto.
    + cbn. rewrite check_throw_sticky. eauto.
  - cbn [foldl]. apply IH. exact Hmiss.
Qed.

Lemma validateSettings_missing (settings : jval) (section : string) :
  section ∈ required ->
  own_props (Some settings) !! section = None ->
  exists msg, validateSettings settings = Throw msg.
Proof. intros Hin Hmiss. exact (check_missing settings required section Hin Hmiss (Ok tt)). Qed.

(** The loop of [validateSettings] over an object: it throws at the
    first property of the list whose value is missing or falsy, naming
    it. *)
Lemma check_first_falsy (o : gmap string jval) (props : list string) (prop : string) :
  find (fun p => negb (truthy (o !! p))) props = Some prop ->
  foldl (check (JObj o)) (Ok tt) props = Throw ("Missing required property: " ++ prop).
Proof.
  induction props as [|p props IH]; intros Hfind; [discriminate|].
  cbn [find] in Hfind. cbn [foldl]. unfold check at 2. cbn [getProp own_props].
  destruct (truthy (o !! p)); cbn [negb] in Hfind.
  - now apply IH.
  - injection Hfind as <-. apply check_throw_sticky.
Qed.

(** C6. Importing a document that lacks one of the four required
    top-level keys: validation throws, the status line is set to the
    error "Failed to import settings: " followed by the message thrown,
    and nothing else changes: the in-memory settings, the stored
    documents, every feature module and the list of dispatched events
    are as before. When the document is an object, the message thrown
    is "Missing required property: " followed by the first of [clock],
    [apps], [background], [stats] that the document lacks or holds as a
    falsy value. *)
Theorem C6_import_missing_section_rejected
    (populateSettings : gmap string jval -> result unit)
    (ev : env) (imported : jval) (section : string) (a : app) :
  section ∈ required ->
  own_props (Some imported) !! section = None ->
  (exists msg,
     validateSettings imported = Throw msg
     /\ importSettings populateSettings ev (Text (Ok imported)) a
        = showStatus ("Failed to import settings: " ++ msg) "error" a
     /\ statusMessage
          (settingsManager (importSettings populateSettings ev (Text (Ok imported)) a))
        = Some ("Failed to import settings: " ++ msg, "error"))
  /\ (forall document first,
        imported = JObj document ->
        find (fun p => negb (truthy (document !! p))) required = Some first ->
        statusMessage
          (settingsManager (importSettings populateSettings ev (Text (Ok imported)) a))
        = Some ("Failed to import settings: Missing required property: " ++ first,
                "error"))
  /\ settings (settingsManager (importSettings populateSettings ev (Text (Ok imported)) a))
     = settings (settingsManager a)
  /\ storage (importSettings populateSettings ev (Text (Ok imported)) a) = storage a
  /\ dispatched (importSettings populateSettings ev (Text (Ok imported)) a) = dispatched a
  /\ pinnedAppsManager (importSettings populateSettings ev (Text (Ok imported)) a)
     = pinnedAppsManager a
  /\ clockManager (importSettings populateSettings ev (Text (Ok imported)) a)
     = clockManager a
  /\ backgroundEngine (importSettings populateSettings ev (Text (Ok imported)) a)
     = backgroundEngine a
  /\ statsTracker (importSettings populateSettings ev (Text (Ok imported)) a)
     = statsTracker a.
Proof.
  intros Hin Hmiss.
  destruct (validateSettings_missing imported section Hin Hmiss) as [msg Hv].
  split; [exists msg; unfold importSettings; rewrite Hv; repeat split|].
  split.
  - intros document first -> Hfirst. unfold importSettings, validateSettings.
    rewrite (check_first_falsy document required first Hfirst). reflexivity.
  - unfold importSettings. rewrite Hv. repeat split.
Qed.

Lemma C6_import_missing_section_rejected_witness :
  statusMessage (settingsManager
    (importSettings (fun _ => Ok tt) fair_weather (Text (Ok without_apps)) edited))
  = Some ("Failed to import settings: Missing required property: apps", "error")
  /\ settings (settingsManager
                 (importSettings (fun _ => Ok tt) fair_weather (Text (Ok without_apps)) edited))
     = settings (settingsManager edited)
  /\ storage (importSettings (fun _ => Ok tt) fair_weather (Text (Ok without_apps)) edited)
     = storage edited.
Proof.
  assert (Hin : "apps" ∈ required) by (unfold required; repeat constructor).
  assert (Hmiss : own_props (Some without_apps) !! "apps" = None)
    by (vm_compute; reflexivity).
  destruct (C6_import_missing_section_rejected (fun _ => Ok tt) fair_weather
              without_apps "apps" edited Hin Hmiss) as (_ & H1 & H2 & H3 & _).
  split; [|exact (conj H2 H3)].
  apply (H1 (own_props (Some without_apps)) "apps"); [reflexivity|].
  vm_compute. reflexivity.
Defined.

(** The message for a document without [apps]. *)
Example import_without_apps_message :
  statusMessage (settingsManager
    (importSettings (fun _ => Ok tt) fair_weather (Text (Ok without_apps)) edited))
  = Some ("Failed to import settings: Missing required property: apps", "error").
Proof. vm_compute. reflexivity. Qed.

(** What each dispatch of [dispatchSettingsEvents] runs. *)
Lemma dispatch_clock ev d a :
  dispatchEvent ev (CustomEvent "clockSettingsChanged" d) a
  = clock_updateSettings ev d (record_dispatch (CustomEvent "clockSettingsChanged" d) a).
Proof. reflexivity. Qed.

Lemma dispatch_app ev d a :
  dispatchEvent ev (CustomEvent "appSettingsChanged" d) a
  = record_dispatch (CustomEvent "appSettingsChanged" d) a.
Proof. reflexivity. Qed.

Lemma dispatch_background ev d a :
  dispatchEvent ev (CustomEvent "backgroundSettingsChanged" d) a
  = background_updateSettings ev d
      (record_dispatch (CustomEvent "backgroundSettingsChanged" d) a).
Proof. reflexivity. Qed.

Lemma dispatch_stats ev d a :
  dispatchEvent ev (CustomEvent "statsSettingsChanged" d) a
  = handleSettingsChange ev d (record_dispatch (CustomEvent "statsSettingsChanged" d) a).
Proof. reflexivity. Qed.

Lemma clock_applySettings_settings ev c :
  clock_settings (clock_applySettings ev c) = clock_settings c.
Proof. unfold clock_applySettings. now destruct (truthy _). Qed.

Lemma storage_set_frame ev key value a :
  let a' := snd (storage_set ev key value a) in
  settingsManager a' = settingsManager a /\ dispatched a' = dispatched a
  /\ clockManager a' = clockManager a /\ pinnedAppsManager a' = pinnedAppsManager a
  /\ backgroundEngine a' = backgroundEngine a /\ statsTracker a' = statsTracker a.
Proof. unfold storage_set. destruct (storage_set_ok ev key); cbn; auto 10. Qed.

Lemma clock_updateSettings_frame ev d a :
  let a' := clock_updateSettings ev d a in
  settingsManager a' = settingsManager a /\ dispatched a' = dispatched a
  /\ pinnedAppsManager a' = pinnedAppsManager a
  /\ backgroundEngine a' = backgroundEngine a /\ statsTracker a' = statsTracker a
  /\ clock_settings (clockManager a') = spread (clock_settings (clockManager a)) d.
Proof.
  unfold clock_updateSettings.
  match goal with
  | |- context [storage_set ev ?k ?v ?x] =>
      destruct (storage_set_frame ev k v x) as (H1 & H2 & H3 & H4 & H5 & H6);
      set (a1 := snd (storage_set ev k v x)) in *
  end.
  cbn zeta.
  assert (Hc : clock_settings (clockManager a1) = spread (clock_settings (clockManager a)) d).
  { rewrite H3. cbn [clockManager set_clock]. now rewrite clock_applySettings_settings. }
  destruct (strict_ne _ _); cbn; rewrite ?H1, ?H2, ?H4, ?H5, ?H6, ?Hc; auto 10.
Qed.

Lemma background_updateSettings_frame ev d a :
  let a' := background_updateSettings ev d a in
  settingsManager a' = settingsManager a /\ dispatched a' = dispatched a
  /\ pinnedAppsManager a' = pinnedAppsManager a
  /\ clockManager a' = clockManager a /\ statsTracker a' = statsTracker a
  /\ background_settings (backgroundEngine a')
     = spread (background_settings (backgroundEngine a)) d
  /\ redraws (backgroundEngine a') = S (redraws (backgroundEngine a)).
Proof.
  unfold background_updateSettings.
  match goal with
  | |- context [storage_set ev ?k ?v ?x] =>
      destruct (storage_set_frame ev k v x) as (H1 & H2 & H3 & H4 & H5 & H6);
      set (a1 := snd (storage_set ev k v x)) in *
  end.
  cbn. rewrite H1, H2, H3, H4, H5, H6. cbn. auto 10.
Qed.

Lemma handleSettingsChange_frame ev d a :
  let a' := handleSettingsChange ev d a in
  settingsManager a' = settingsManager a /\ dispatched a' = dispatched a
  /\ pinnedAppsManager a' = pinnedAppsManager a
  /\ clockManager a' = clockManager a /\ backgroundEngine a' = backgroundEngine a.
Proof.
  unfold handleSettingsChange, updateDisplay.
  destruct (getProp d "enabled") as [enabled|]; [|cbn; auto].
  destruct (truthy enabled); cbn;
    destruct (getProp (settings (settingsManager a) !! "stats") "enabled");
    cbn; auto.
Qed.

(** The four events of one save, in publishing order. *)
Lemma dispatchSettingsEvents_spec ev a :
  let s := settings (settingsManager a) in
  let a' := dispatchSettingsEvents ev a in
  dispatched a'
  = (dispatched a ++
      [ CustomEvent "clockSettingsChanged" (s !! "clock");
        CustomEvent "appSettingsChanged" (s !! "apps");
        CustomEvent "backgroundSettingsChanged" (s !! "background");
        CustomEvent "statsSettingsChanged" (s !! "stats") ])%list
  /\ settingsManager a' = settingsManager a
  /\ pinnedAppsManager a' = pinnedAppsManager a
  /\ clock_settings (clockManager a')
     = spread (clock_settings (clockManager a)) (s !! "clock")
  /\ background_settings (backgroundEngine a')
     = spread (background_settings (backgroundEngine a)) (s !! "background")
  /\ redraws (backgroundEngine a') = S (redraws (backgroundEngine a)).
Proof.
  intros s a'. subst a'. unfold dispatchSettingsEvents.
  rewrite dispatch_clock.
  destruct (clock_updateSettings_frame ev (s !! "clock")
              (record_dispatch (CustomEvent "clockSettingsChanged" (s !! "clock")) a))
    as (M1 & D1 & P1 & B1 & S1 & C1).
  fold s. set (b1 := clock_updateSettings ev _ _) in *. cbn zeta.
  rewrite dispatch_app.
  set (b2 := record_dispatch (CustomEvent "appSettingsChanged" _) b1).
  rewrite dispatch_background.
  destruct (background_updateSettings_frame ev (settings (settingsManager b2) !! "background")
              (record_dispatch
                 (CustomEvent "backgroundSettingsChanged"
                    (settings (settingsManager b2) !! "background")) b2))
    as (M3 & D3 & P3 & C3 & S3 & B3 & R3).
  set (b3 := background_updateSettings ev _ _) in *.
  rewrite dispatch_stats.
  destruct (handleSettingsChange_frame ev (settings (settingsManager b3) !! "stats")
              (record_dispatch
                 (CustomEvent "statsSettingsChanged"
                    (settings (settingsManager b3) !! "stats")) b3))
    as (M4 & D4 & P4 & C4 & B4).
  set (b4 := handleSettingsChange ev _ _) in *.
  cbn [record_dispatch settingsManager dispatched pinnedAppsManager clockManager
       backgroundEngine statsTracker] in *.
  assert (E2 : settingsManager b2 = settingsManager a) by (subst b2; cbn; exact M1).
  assert (E3 : settingsManager b3 = settingsManager a) by congruence.
  rewrite M4, D4, P4, C4, B4, D3, P3, C3, B3, R3.
  subst b2. cbn [record_dispatch settingsManager dispatched pinnedAppsManager clockManager
       backgroundEngine statsTracker] in *.
  rewrite ?D1, ?P1, ?B1, ?C1, ?E3, ?M3, ?M1, ?E2. fold s.
  repeat split.
  rewrite <- !app_assoc. reflexivity.
Qed.

(** C1. One save of the settings document. When the write succeeds
    the settings manager publishes exactly four events, one per
    section and in this order, each carrying its section, changed or
    not; the clock and the background engine merge theirs into their
    settings. The apps section is published as "appSettingsChanged"
    while [PinnedAppsManager] listens for "appsSettingsChanged": no
    listener is registered for the published type, so the pinned-apps
    module is left exactly as it was by every save. On the page whose
    panel holds a padding of 12, the module has no [padding] after the
    save, though its own [updateSettings] would have taken it. *)
Theorem C1_apps_notification_not_delivered (ev : env) (a : app) :
  let s := settings (settingsManager a) in
  let ok := storage_set_ok ev "newTabSettings" in
  let a' := saveSettings ev a in
  dispatched a'
  = (dispatched a ++
     if ok then
       [ CustomEvent "clockSettingsChanged" (s !! "clock");
         CustomEvent "appSettingsChanged" (s !! "apps");
         CustomEvent "backgroundSettingsChanged" (s !! "background");
         CustomEvent "statsSettingsChanged" (s !! "stats") ]
     else [])%list
  /\ clock_settings (clockManager a')
     = (if ok then spread (clock_settings (clockManager a)) (s !! "clock")
        else clock_settings (clockManager a))
  /\ background_settings (backgroundEngine a')
     = (if ok then spread (background_settings (backgroundEngine a)) (s !! "background")
        else background_settings (backgroundEngine a))
  /\ pinnedAppsManager a' = pinnedAppsManager a
  /\ has_listener "appSettingsChanged" = false
  /\ has_listener "appsSettingsChanged" = true
  /\ apps_settings (pinnedAppsManager (saveSettings fair_weather edited)) !! "padding"
     = None
  /\ apps_settings
       (pinnedAppsManager (apps_updateSettings fair_weather (Some edited_apps) edited))
       !! "padding"
     = Some (JNum (12 # 1)).
Proof.
  intros s ok a'.
  assert (Hex1 : apps_settings (pinnedAppsManager (saveSettings fair_weather edited))
                   !! "padding" = None) by (vm_compute; reflexivity).
  assert (Hex2 : apps_settings
                   (pinnedAppsManager
                      (apps_updateSettings fair_weather (Some edited_apps) edited))
                   !! "padding" = Some (JNum (12 # 1))) by (vm_compute; reflexivity).
  assert (Hl1 : has_listener "appSettingsChanged" = false) by reflexivity.
  assert (Hl2 : has_listener "appsSettingsChanged" = true) by reflexivity.
  cut ((dispatched a'
        = (dispatched a ++
           if ok then
             [ CustomEvent "clockSettingsChanged" (s !! "clock");
               CustomEvent "appSettingsChanged" (s !! "apps");
               CustomEvent "backgroundSettingsChanged" (s !! "background");
               CustomEvent "statsSettingsChanged" (s !! "stats") ]
           else [])%list)
       /\ clock_settings (clockManager a')
          = (if ok then spread (clock_settings (clockManager a)) (s !! "clock")
             else clock_settings (clockManager a))
       /\ background_settings (backgroundEngine a')
          = (if ok then spread (background_settings (backgroundEngine a)) (s !! "background")
             else background_settings (backgroundEngine a))
       /\ pinnedAppsManager a' = pinnedAppsManager a).
  { intros (H1 & H2 & H3 & H4).
    exact (conj H1 (conj H2 (conj H3 (conj H4 (conj Hl1 (conj Hl2 (conj Hex1 Hex2))))))). }
  clear Hex1 Hex2 Hl1 Hl2. subst a' ok s.
  unfold saveSettings, storage_set.
  destruct (storage_set_ok ev "newTabSettings").
  - match goal with
    | |- context [dispatchSettingsEvents ev ?x] =>
        destruct (dispatchSettingsEvents_spec ev x) as (D & _ & P & C & B & _)
    end.
    cbn [showStatus set_manager settingsManager settings dispatched pinnedAppsManager
         clockManager backgroundEngine] in D, P, C, B.
    rewrite D, P, C, B. auto 10.
  - cbn [showStatus set_manager settingsManager settings dispatched pinnedAppsManager
         clockManager backgroundEngine].
    rewrite app_nil_r. auto 10.
Qed.

End AppFacts.

(** ** What [getSettings] returns *)

Section HeapFacts.
Import Json Heap.

Lemma own_fields_values (c : cell) (k : string) (v : value) :
  own_fields c !! k = Some v -> v ∈ cell_values c.
Proof.
  destruct c as [o | a]; cbn; intros Hk.
  - apply list_elem_of_fmap. exists (k, v). split; [reflexivity|].
    now apply elem_of_map_to_list.
  - unfold index_fields in Hk. apply elem_of_list_to_map_2 in Hk.
    apply elem_of_lookup_imap in Hk as (i & x & [= _ ->] & Hx).
    apply list_elem_of_lookup. eauto.
Qed.

Lemma alloc_spec (c : cell) (h : heap) :
  h !! fst (alloc c h) = None /\ snd (alloc c h) = <[fst (alloc c h) := c]> h.
Proof.
  unfold alloc. cbn. split; [|reflexivity].
  apply not_elem_of_dom. apply is_fresh.
Qed.

Lemma getSettings_spec (this : module) (h : heap) (r : nat) (h1 : heap) :
  getSettings this h = Some (r, h1) ->
  exists c, h !! settings this = Some c
            /\ h !! r = None
            /\ h1 = <[r := Obj (own_fields c)]> h.
Proof.
  unfold getSettings. destruct (h !! settings this) as [c|] eqn:Hc; [|discriminate].
  cbn. intros [= <- <-]. exists c.
  destruct (alloc_spec (Obj (own_fields c)) h) as [Hfresh Hh]. auto.
Qed.

(** A store that keeps every old object gives old values the same
    tree. *)
Lemma snapshot_extend (h h' : heap) :
  closed h ->
  (forall l c, h !! l = Some c -> h' !! l = Some c) ->
  forall depth v, valid h v -> snapshot depth h' v = snapshot depth h v.
Proof.
  intros Hclosed Hext. induction depth as [|d IH]; intros v Hv.
  - destruct v; reflexivity.
  - destruct v as [| | | |l]; try reflexivity.
    cbn in Hv. destruct Hv as [c Hc]. cbn [snapshot].
    rewrite (Hext l c Hc), Hc.
    pose proof (Hclosed l c Hc) as Hvals. cbn in Hvals.
    rewrite Forall_forall in Hvals.
    destruct c as [o | a]; f_equal.
    + apply map_fmap_ext. intros k x Hk. apply IH, Hvals.
      exact (own_fields_values (Obj o) k x Hk).
    + apply list_fmap_ext. intros i x Hx. apply IH, Hvals.
      apply list_elem_of_lookup. eauto.
Qed.

(** Through a copy whose fields are all primitives no path leads to an
    object. *)
Lemma resolve_none (h : heap) (path : list string) : resolve h None path = None.
Proof. induction path as [|p path IH]; [reflexivity | exact IH]. Qed.

Lemma resolve_primitive (h : heap) (v : value) (path : list string) :
  is_primitive v = true ->
  resolve h (Some v) path = match path with [] => Some v | _ => None end.
Proof.
  intros Hp. destruct path as [|p path]; [reflexivity|].
  unfold resolve. cbn [foldl]. destruct v; try discriminate; apply resolve_none.
Qed.

Lemma mutate_frame (h : heap) (this : module) (r : nat) (h1 : heap) (m : mutation) :
  getSettings this h = Some (r, h1) ->
  path_of m = [] \/ flat h (settings this) ->
  forall l c, h !! l = Some c -> mutate h1 (VRef r) m !! l = Some c.
Proof.
  intros Hget Hm l c Hl.
  destruct (getSettings_spec this h r h1 Hget) as (c0 & Hc0 & Hfresh & ->).
  assert (Hne : r <> l) by (intros ->; congruence).
  assert (Hsame : <[r := Obj (own_fields c0)]> h !! l = Some c)
    by (now rewrite lookup_insert_ne).
  unfold mutate.
  destruct Hm as [Hpath | Hflat].
  - rewrite Hpath. cbn [resolve foldl]. rewrite lookup_insert_eq.
    destruct m; try exact Hsame; now rewrite lookup_insert_ne.
  - unfold flat in Hflat. rewrite Hc0 in Hflat.
    destruct (path_of m) as [|p path] eqn:Hpath.
    + cbn [resolve foldl]. rewrite lookup_insert_eq.
      destruct m; try exact Hsame; now rewrite lookup_insert_ne.
    + unfold resolve. cbn [foldl getProp]. rewrite lookup_insert_eq. cbn.
      destruct (own_fields c0 !! p) as [v|] eqn:Hv.
      * pose proof (Hflat p v Hv) as Hprim. cbn in Hprim.
        fold (resolve (<[r := Obj (own_fields c0)]> h) (Some v) path).
        rewrite resolve_primitive by assumption.
        destruct path; [destruct v; try discriminate|]; exact Hsame.
      * fold (resolve (<[r := Obj (own_fields c0)]> h) None path).
        rewrite resolve_none. exact Hsame.
Qed.

(** C3, as the code has it. [getSettings] returns a new object that
    holds the live settings' fields (a shallow copy: a composite field
    is the same reference in both). Assigning, deleting or pushing on
    the returned object itself changes no object that existed before,
    so the module's settings read the same to any depth; and when all
    fields of the live settings are primitives, as in [ClockManager],
    this holds for every mutation along any path. *)
Theorem C3_getSettings_shallow_copy
    (this : module) (h : heap) (r : nat) (h1 : heap) (m : mutation) (depth : nat) :
  closed h ->
  getSettings this h = Some (r, h1) ->
  path_of m = [] \/ flat h (settings this) ->
  h !! r = None
  /\ h1 !! r = (fun c => Obj (own_fields c)) <$> h !! settings this
  /\ (forall l c, h !! l = Some c -> mutate h1 (VRef r) m !! l = Some c)
  /\ snapshot depth (mutate h1 (VRef r) m) (VRef (settings this))
     = snapshot depth h (VRef (settings this)).
Proof.
  intros Hclosed Hget Hm.
  pose proof (mutate_frame h this r h1 m Hget Hm) as Hframe.
  destruct (getSettings_spec this h r h1 Hget) as (c0 & Hc0 & Hfresh & ->).
  split; [exact Hfresh|]. split; [|split; [exact Hframe|]].
  - rewrite lookup_insert_eq, Hc0. reflexivity.
  - apply snapshot_extend; [exact Hclosed | exact Hframe |].
    cbn. rewrite Hc0. eauto.
Qed.

Lemma C3_getSettings_shallow_copy_witness :
  exists r h1,
    getSettings (fst engine0) (snd engine0) = Some (r, h1)
    /\ snapshot 4 (mutate h1 (VRef r) retype) (VRef (settings (fst engine0)))
       = snapshot 4 (snd engine0) (VRef (settings (fst engine0))).
Proof.
  destruct (getSettings (fst engine0) (snd engine0)) as [[r h1]|] eqn:Hget;
    [|vm_compute in Hget; discriminate].
  exists r, h1. split; [reflexivity|].
  apply (C3_getSettings_shallow_copy (fst engine0) (snd engine0) r h1 retype 4).
  - apply (@bool_decide_unpack _ (closed_dec _)). vm_compute. exact I.
  - exact Hget.
  - left. reflexivity.
Defined.

End HeapFacts.

(** C3, as stated, fails: in the store holding only the background
    engine, pushing a URL onto [uploadSettings.images] of the value
    [getSettings] returned changes the engine's own settings, which
    [getUploadedImages] then shows. *)
Lemma C3_nested_mutation_reaches_live_settings :
  Heap.closed (snd Heap.engine0)
  /\ Heap.getUploadedImages (fst Heap.engine0) (snd Heap.engine0) = []
  /\ Heap.getUploadedImages (fst Heap.engine0) (Heap.after_push Heap.engine0)
     = [Heap.VStr "evil.png"]
  /\ Heap.snapshot 4 (Heap.after_push Heap.engine0)
       (Heap.VRef (Heap.settings (fst Heap.engine0)))
     <> Heap.snapshot 4 (snd Heap.engine0) (Heap.VRef (Heap.settings (fst Heap.engine0))).
Proof.
  split; [apply (@bool_decide_unpack _ (Heap.closed_dec _)); vm_compute; exact I|].
  split; [vm_compute; reflexivity|].
  split; [vm_compute; reflexivity|].
  intros H.
  apply (f_equal (fun j => Json.lookup_path j ["uploadSettings"; "images"])) in H.
  vm_compute in H. discriminate.
Qed.

(** ** Background engine: drawing, fetching and the pool *)

Section BackgroundMoreFacts.
Import Background BackgroundExamples BackgroundAsync.

Ltac run_monad' :=
  unfold mbind, mret, M_bind, M_ret, bind, ret, gets, modify, throw, try_catch;
  cbn beta iota.

(** Rounding the product to a double keeps it below the length: the
    largest draw is [1 - 2^-53], and the rounding error is less than
    what is left below [n]. *)
Lemma round53_bounds (p n : Z) :
  0 <= p -> 0 < n -> p <= n * 2 ^ 53 - n ->
  0 <= Js.round53 p < n * 2 ^ 53.
Proof.
  intros Hp Hn Hle. unfold Js.round53.
  destruct (Z.leb_spec (Z.log2 p - 52) 0) as [Hs | Hs]; [lia|].
  set (s := Z.log2 p - 52) in *.
  assert (Hpos : 0 < p).
  { destruct (Z.eq_dec p 0) as [-> | ]; [cbn in s; lia | lia]. }
  destruct (Z.log2_spec p Hpos) as [Hlow _].
  replace (Z.log2 p) with ((s - 1) + 53) in Hlow by lia.
  rewrite Z.pow_add_r in Hlow by lia.
  assert (Hpow : 2 ^ s = 2 * 2 ^ (s - 1)).
  { replace s with (Z.succ (s - 1)) at 1 by lia. apply Z.pow_succ_r. lia. }
  assert (Hhalf : 0 < 2 ^ (s - 1)) by (apply Z.pow_pos_nonneg; lia).
  pose proof (Z.div_mod p (2 ^ s) ltac:(lia)) as Hdm.
  pose proof (Z.mod_pos_bound p (2 ^ s) ltac:(lia)) as Hr.
  assert (Hq : 0 <= p / 2 ^ s) by (apply Z.div_pos; lia).
  set (T := 2 ^ 53) in *. assert (HT : 0 < T) by (subst T; lia).
  assert (Hlt : 2 ^ (s - 1) < n) by nia.
  set (q := p / 2 ^ s) in *. set (r := p mod 2 ^ s) in *.
  set (h := 2 ^ (s - 1)) in *.
  rewrite Hpow in *.
  destruct (Z.ltb_spec h r); cbn [orb].
  - nia.
  - destruct (Z.eqb_spec r h); cbn [andb]; [destruct (Z.odd q)|]; nia.
Qed.

Lemma random_index_range (ev : env) (n : Z) :
  0 < n -> 0 <= random ev < 2 ^ 53 -> 0 <= random_index ev n < n.
Proof.
  intros Hn Hr. unfold random_index.
  destruct (round53_bounds (random ev * n) n) as [Hlo Hhi]; [nia | lia | nia |].
  split.
  - apply Z.div_pos; lia.
  - apply Z.div_lt_upper_bound; lia.
Qed.

Lemma nth_url_lookup (images : list string) (i : Z) :
  0 <= i < Z.of_nat (length images) ->
  images !! Z.to_nat i = Some (nth_url images i).
Proof.
  intros Hi. unfold nth_url.
  destruct (Z.ltb_spec i 0); [lia|].
  destruct (images !! Z.to_nat i) as [u|] eqn:Hu; [reflexivity|].
  apply lookup_ge_None in Hu. lia.
Qed.

(** X1. Random order. On a non-empty upload pool (of fewer than 2^32
    images, as every array) with order 'random' and a draw of
    [Math.random()] in [0, 1), the index picked is the floor of the
    product of the draw and the length as a double, that is, of the
    exact product rounded to the nearest double; it is an index of the
    pool, the image requested is the one stored there, and the call
    leaves the settings, cursor included, as they were. The rounding
    matters: with seven images the draw 5146971002709138 / 2^53, whose
    exact product with 7 is just below 4, picks index 4. *)
Theorem X1_random_pick_in_range (ev : env) (e : engine) :
  0 < pool_size e < 2 ^ 32 ->
  Upload.order (uploadSettings (this_settings e)) = "random" ->
  0 <= random ev < 2 ^ 53 ->
  exists i : Z,
    picked ev e = Js.Num i
    /\ i = Js.round53 (random ev * pool_size e) / 2 ^ 53
    /\ 0 <= i < pool_size e
    /\ Upload.images (uploadSettings (this_settings e)) !! Z.to_nat i
       = Some (nth_url (Upload.images (uploadSettings (this_settings e))) (picked ev e))
    /\ this_settings (snd (applyUploadBackground ev e)) = this_settings e.
Proof.
  intros [Hn _] Hrand Hr.
  assert (Hns : ~ sequential e) by (unfold sequential; rewrite Hrand; tauto).
  assert (Hp : picked ev e = Js.Num (random_index ev (pool_size e))).
  { unfold picked. now rewrite nextUploadIndex_random. }
  pose proof (random_index_range ev (pool_size e) Hn Hr) as Hrange.
  exists (random_index ev (pool_size e)).
  split; [exact Hp|]. split; [reflexivity|]. split; [exact Hrange|]. split.
  - rewrite Hp. apply nth_url_lookup. exact Hrange.
  - rewrite applyUploadBackground_settings by exact Hn.
    now rewrite nextUploadIndex_random.
Qed.

Lemma X1_random_pick_in_range_witness :
  exists i : Z,
    picked rounding_draw seven_random = Js.Num i
    /\ i = 4
    /\ 5146971002709138 * 7 / 2 ^ 53 = 3
    /\ Upload.images (uploadSettings (this_settings seven_random)) !! Z.to_nat i
       = Some "e.png"
    /\ this_settings (snd (applyUploadBackground rounding_draw seven_random))
       = this_settings seven_random.
Proof.
  destruct (X1_random_pick_in_range rounding_draw seven_random) as (i & Hp & Hi & _ & Hu & Hs).
  - vm_compute. split; reflexivity.
  - reflexivity.
  - vm_compute. split; [discriminate | reflexivity].
  - exists i. split; [exact Hp|].
    assert (H4 : i = 4) by (rewrite Hi; vm_compute; reflexivity).
    split; [exact H4|]. split; [vm_compute; reflexivity|].
    split; [|exact Hs].
    rewrite Hu, Hp, H4. reflexivity.
Defined.

Lemma nextUploadIndex_total ev e :
  exists e1, nextUploadIndex ev e = (Ok (picked ev e), e1)
             /\ backgroundContainer e1 = backgroundContainer e
             /\ stored e1 = stored e
             /\ Upload.images (uploadSettings (this_settings e1))
                = Upload.images (uploadSettings (this_settings e)).
Proof.
  unfold picked.
  destruct (String.eqb_spec (Upload.order (uploadSettings (this_settings e))) "random")
    as [Hr | Hs].
  - rewrite nextUploadIndex_random by (unfold sequential; tauto). eauto.
  - rewrite nextUploadIndex_sequential by exact Hs. eexists. split; [reflexivity|].
    cbn. auto.
Qed.

(** X2. A selection that succeeds. On a non-empty upload pool, when the
    picked image decodes, [applyUploadBackground] returns normally, the
    container shows exactly that image on a transparent background with
    the fade transition, and the settings as they are after the pick
    are written to storage; when the write fails nothing is thrown and
    the stored document stays as it was. *)
Theorem X2_selection_draws_and_persists (ev : env) (e : engine) :
  0 < pool_size e ->
  decodes ev (nth_url (Upload.images (uploadSettings (this_settings e))) (picked ev e))
  = true ->
  fst (applyUploadBackground ev e) = Ok tt
  /\ backgroundContainer (snd (applyUploadBackground ev e))
     = Style ("url(" ++ nth_url (Upload.images (uploadSettings (this_settings e)))
                          (picked ev e) ++ ")")
             "transparent" "background-image 0.5s ease-in-out"
  /\ stored (snd (applyUploadBackground ev e))
     = (if storage_set_ok ev
        then Some (this_settings (snd (applyUploadBackground ev e)))
        else stored e).
Proof.
  intros Hn Hdec. unfold pool_size in Hn.
  destruct (nextUploadIndex_total ev e) as (e1 & Hnext & Hc & Hst & Himg).
  unfold applyUploadBackground. run_monad'.
  destruct (Nat.eqb_spec (length (Upload.images (uploadSettings (this_settings e)))) 0)
    as [H0 | _]; [lia|].
  rewrite Hnext. cbn beta iota. unfold setBackgroundImage. rewrite Hdec.
  run_monad'. unfold saveSettings, modify.
  destruct (storage_set_ok ev); cbn; rewrite ?Hst; auto.
Qed.

Lemma X2_selection_draws_and_persists_witness :
  fst (applyUploadBackground fair_weather three_images) = Ok tt
  /\ backgroundContainer (snd (applyUploadBackground fair_weather three_images))
     = Style "url(a.png)" "transparent" "background-image 0.5s ease-in-out"
  /\ stored (snd (applyUploadBackground fair_weather three_images))
     = Some (this_settings (snd (applyUploadBackground fair_weather three_images))).
Proof.
  apply (X2_selection_draws_and_persists fair_weather three_images).
  - vm_compute. reflexivity.
  - reflexivity.
Defined.

Lemma fetchApiImages_receive ev e :
  fetchApiImages ev e
  = receive (fetch ev (api_request (apiSettings (this_settings e)))) e.
Proof. reflexivity. Qed.

Lemma applyBackground_api ev e :
  backgroundType (this_settings e) = "api" ->
  applyBackground ev e = applyApiBackground ev e.
Proof.
  intros Hty. unfold applyBackground. run_monad'. now rewrite Hty.
Qed.

(** X3. The first API background. In API mode with a key, an empty
    cache and the default (sequential) order, when the image service
    answers with a non-empty list of photos and the first one decodes,
    [applyBackground] returns normally, the cache holds the photos in
    the order received, the container shows the first photo, the
    cursor points at the second (or at the first again when there is
    only one), and these settings are written to storage. *)
Theorem X3_api_fetch_fills_pool (ev : env) (e : engine) (u : string) (urls : list string) :
  backgroundType (this_settings e) = "api" ->
  Api.apiKey (apiSettings (this_settings e)) <> "" ->
  Api.images (apiSettings (this_settings e)) = [] ->
  Api.source (apiSettings (this_settings e)) = "unsplash"
  \/ Api.source (apiSettings (this_settings e)) = "pexels" ->
  Api.order (apiSettings (this_settings e)) <> Some "random" ->
  fetch ev (api_request (apiSettings (this_settings e))) = Body (Some (u :: urls)) ->
  decodes ev u = true ->
  fst (applyBackground ev e) = Ok tt
  /\ Api.images (apiSettings (this_settings (snd (applyBackground ev e)))) = u :: urls
  /\ Api.currentIndex (apiSettings (this_settings (snd (applyBackground ev e))))
     = (if bool_decide (urls = []) then 0 else 1)
  /\ backgroundContainer (snd (applyBackground ev e))
     = Style ("url(" ++ u ++ ")") "transparent" "background-image 0.5s ease-in-out"
  /\ stored (snd (applyBackground ev e))
     = (if storage_set_ok ev then Some (this_settings (snd (applyBackground ev e)))
        else stored e).
Proof.
  intros Hty Hkey Hpool Hsrc Hord Hfetch Hdec.
  rewrite applyBackground_api by exact Hty.
  unfold applyApiBackground. run_monad'.
  destruct (String.eqb_spec (Api.apiKey (apiSettings (this_settings e))) "");
    [contradiction|].
  rewrite Hpool. cbn [length Nat.eqb].
  rewrite fetchApiImages_receive, Hfetch. unfold receive. run_monad'.
  assert (Hknown : String.eqb (Api.source (apiSettings (this_settings e))) "unsplash"
                   || String.eqb (Api.source (apiSettings (this_settings e))) "pexels"
                   = true).
  { destruct Hsrc as [-> | ->]; reflexivity. }
  rewrite Hknown. cbn -[Z.rem].
  rewrite nextApiIndex_spec. cbn -[Z.rem].
  rewrite bool_decide_false by exact Hord. cbn -[Z.rem].
  change (default "undefined" ((u :: urls) !! Z.to_nat 0)) with u.
  unfold setBackgroundImage. rewrite Hdec. run_monad'.
  unfold saveSettings, modify.
  assert (Hrem : Z.rem (0 + 1) (Z.of_nat (S (length urls)))
                 = (if bool_decide (urls = []) then 0 else 1)).
  { destruct urls as [|u' urls]; [reflexivity|].
    rewrite bool_decide_false by discriminate.
    apply Z.rem_small. cbn [length]. lia. }
  destruct (storage_set_ok ev); cbn -[Z.rem Z.of_nat]; rewrite Hrem; auto.
Qed.

Lemma X3_api_fetch_fills_pool_witness :
  fst (applyBackground two_photos api_with_key) = Ok tt
  /\ Api.images (apiSettings (this_settings (snd (applyBackground two_photos api_with_key))))
     = ["p1.jpg"; "p2.jpg"]
  /\ Api.currentIndex
       (apiSettings (this_settings (snd (applyBackground two_photos api_with_key)))) = 1
  /\ backgroundContainer (snd (applyBackground two_photos api_with_key))
     = Style "url(p1.jpg)" "transparent" "background-image 0.5s ease-in-out"
  /\ stored (snd (applyBackground two_photos api_with_key))
     = Some (this_settings (snd (applyBackground two_photos api_with_key))).
Proof.
  apply (X3_api_fetch_fills_pool two_photos api_with_key "p1.jpg" ["p2.jpg"]).
  - reflexivity.
  - discriminate.
  - reflexivity.
  - left. reflexivity.
  - discriminate.
  - reflexivity.
  - reflexivity.
Defined.

(** X4. A fetch that succeeds with no photo. In API mode with a key and
    an empty cache, when the image service answers with an empty list,
    [applyBackground] returns normally and draws nothing: the container
    keeps its style (there is no colour fallback on this path), the
    cache stays empty and nothing is written to storage. *)
Theorem X4_api_empty_answer_draws_nothing (ev : env) (e : engine) :
  backgroundType (this_settings e) = "api" ->
  Api.apiKey (apiSettings (this_settings e)) <> "" ->
  Api.images (apiSettings (this_settings e)) = [] ->
  fetch ev (api_request (apiSettings (this_settings e))) = Body (Some []) ->
  fst (applyBackground ev e) = Ok tt
  /\ backgroundContainer (snd (applyBackground ev e)) = backgroundContainer e
  /\ Api.images (apiSettings (this_settings (snd (applyBackground ev e)))) = []
  /\ stored (snd (applyBackground ev e)) = stored e.
Proof.
  intros Hty Hkey Hpool Hfetch.
  rewrite applyBackground_api by exact Hty.
  unfold applyApiBackground. run_monad'.
  destruct (String.eqb_spec (Api.apiKey (apiSettings (this_settings e))) "");
    [contradiction|].
  rewrite Hpool. cbn [length Nat.eqb].
  rewrite fetchApiImages_receive, Hfetch. unfold receive. run_monad'.
  destruct (String.eqb (Api.source (apiSettings (this_settings e))) "unsplash"
            || String.eqb (Api.source (apiSettings (this_settings e))) "pexels");
    cbn; rewrite ?Hpool; cbn; auto.
Qed.

Lemma X4_api_empty_answer_draws_nothing_witness :
  fst (applyBackground no_photos api_with_key) = Ok tt
  /\ backgroundContainer (snd (applyBackground no_photos api_with_key))
     = backgroundContainer api_with_key
  /\ Api.images (apiSettings (this_settings (snd (applyBackground no_photos api_with_key))))
     = []
  /\ stored (snd (applyBackground no_photos api_with_key)) = stored api_with_key.
Proof.
  apply (X4_api_empty_answer_draws_nothing no_photos api_with_key).
  - reflexivity.
  - discriminate.
  - reflexivity.
  - reflexivity.
Defined.

Lemma lookup_splice1 {A} (l : list A) (i j : nat) :
  splice1 i l !! j = if decide (j < i)%nat then l !! j else l !! S j.
Proof.
  unfold splice1. destruct (decide (i <= length l)%nat) as [Hi | Hi].
  - case_decide as Hj.
    + rewrite lookup_app_l by (rewrite length_take; lia).
      now rewrite lookup_take_lt.
    + rewrite lookup_app_r by (rewrite length_take; lia).
      rewrite length_take, lookup_drop. f_equal. lia.
  - rewrite take_ge, drop_ge, app_nil_r by lia.
    case_decide as Hj; [reflexivity|].
    rewrite !lookup_ge_None_2 by lia. reflexivity.
Qed.

(** X5. Removing an uploaded image. A removal at an index of the pool
    takes out exactly that image: the images before it keep their
    positions, those after it move up by one, and the result is written
    to storage (a failed write is not an error). *)
Theorem X5_removal_keeps_order (ev : env) (index : Z) (e : engine) :
  0 <= index < pool_size e ->
  fst (removeUploadedImage ev index e) = Ok tt
  /\ (forall j : nat,
        getUploadedImages (snd (removeUploadedImage ev index e)) !! j
        = if decide (j < Z.to_nat index)%nat then getUploadedImages e !! j
          else getUploadedImages e !! S j)
  /\ stored (snd (removeUploadedImage ev index e))
     = (if storage_set_ok ev
        then Some (this_settings (snd (removeUploadedImage ev index e)))
        else stored e).
Proof.
  intros Hi. unfold pool_size in Hi. unfold getUploadedImages.
  unfold removeUploadedImage. run_monad'.
  destruct (Z.leb_spec 0 index); [|lia].
  destruct (Z.ltb_spec index
              (Z.of_nat (length (Upload.images (uploadSettings (this_settings e))))));
    [|lia].
  cbn [andb]. unfold saveSettings, modify.
  destruct (storage_set_ok ev); cbn;
    repeat match goal with
           | |- context [if ?c then _ else _] => destruct c; cbn
           end;
    repeat split; intros; try apply lookup_splice1; case_decide; try reflexivity;
    try apply lookup_splice1.
Qed.

Lemma X5_removal_keeps_order_witness :
  fst (removeUploadedImage fair_weather 1 three_images) = Ok tt
  /\ (forall j : nat,
        getUploadedImages (snd (removeUploadedImage fair_weather 1 three_images)) !! j
        = if decide (j < Z.to_nat 1)%nat then getUploadedImages three_images !! j
          else getUploadedImages three_images !! S j)
  /\ stored (snd (removeUploadedImage fair_weather 1 three_images))
     = Some (this_settings (snd (removeUploadedImage fair_weather 1 three_images))).
Proof.
  apply (X5_removal_keeps_order fair_weather 1 three_images).
  vm_compute. split; [discriminate | reflexivity].
Defined.

Lemma addUploadedImage_settings ev imageDataUrl e :
  this_settings (snd (addUploadedImage ev (Some imageDataUrl) e))
  = Settings (backgroundType (this_settings e))
      (Upload.Make (Upload.images (uploadSettings (this_settings e)) ++ [imageDataUrl])
         (Upload.cycle (uploadSettings (this_settings e)))
         (Upload.order (uploadSettings (this_settings e)))
         (Upload.currentIndex (uploadSettings (this_settings e))))
      (colorSettings (this_settings e)) (gradientSettings (this_settings e))
      (apiSettings (this_settings e)).
Proof.
  unfold addUploadedImage, saveSettings, modify. run_monad'.
  now destruct (storage_set_ok ev).
Qed.

Lemma removeUploadedImage_settings ev index e :
  0 <= index < pool_size e ->
  this_settings (snd (removeUploadedImage ev index e))
  = Settings (backgroundType (this_settings e))
      (Upload.Make
         (splice1 (Z.to_nat index) (Upload.images (uploadSettings (this_settings e))))
         (Upload.cycle (uploadSettings (this_settings e)))
         (Upload.order (uploadSettings (this_settings e)))
         (if Js.ge (Upload.currentIndex (uploadSettings (this_settings e)))
                   (Z.of_nat (length (splice1 (Z.to_nat index)
                                        (Upload.images (uploadSettings (this_settings e))))))
          then Js.Num 0 else Upload.currentIndex (uploadSettings (this_settings e))))
      (colorSettings (this_settings e)) (gradientSettings (this_settings e))
      (apiSettings (this_settings e)).
Proof.
  intros Hi. unfold pool_size in Hi.
  unfold removeUploadedImage, saveSettings, modify. run_monad'.
  destruct (Z.leb_spec 0 index); [|lia].
  destruct (Z.ltb_spec index
              (Z.of_nat (length (Upload.images (uploadSettings (this_settings e))))));
    [|lia].
  cbn.
  destruct (storage_set_ok ev); cbn;
    destruct (Js.ge (Upload.currentIndex (uploadSettings (this_settings e))) _);
    reflexivity.
Qed.

Lemma splice1_last {A} (l : list A) (x : A) : splice1 (length l) (l ++ [x]) = l.
Proof.
  unfold splice1. rewrite take_app_length.
  rewrite drop_ge by (rewrite length_app; cbn; lia). apply app_nil_r.
Qed.

(** X6. Adding an image and removing it again. From a state whose
    cursor is valid, uploading an image and then removing the last
    image of the pool gives back the settings exactly as they were:
    the same images in the same order and the same cursor. *)
Theorem X6_add_then_remove_last (ev ev' : env) (imageDataUrl : string) (e : engine) :
  cursor_ok e ->
  fst (addUploadedImage ev (Some imageDataUrl) e) = Ok imageDataUrl
  /\ getUploadedImages (snd (addUploadedImage ev (Some imageDataUrl) e))
     = (getUploadedImages e ++ [imageDataUrl])%list
  /\ this_settings
       (snd (removeUploadedImage ev' (pool_size e)
               (snd (addUploadedImage ev (Some imageDataUrl) e))))
     = this_settings e.
Proof.
  intros [Hc0 Hc].
  pose proof (addUploadedImage_settings ev imageDataUrl e) as Hadd.
  split; [unfold addUploadedImage, saveSettings, modify; run_monad';
          now destruct (storage_set_ok ev)|].
  split; [unfold getUploadedImages; now rewrite Hadd|].
  set (e1 := snd (addUploadedImage ev (Some imageDataUrl) e)) in *.
  assert (Hsize : pool_size e1 = pool_size e + 1).
  { unfold pool_size. rewrite Hadd. cbn. rewrite length_app. cbn. lia. }
  rewrite removeUploadedImage_settings by (unfold pool_size in *; lia).
  rewrite Hadd. cbn. unfold pool_size. rewrite Nat2Z.id, splice1_last.
  unfold cursor, pool_size in Hc0, Hc.
  destruct (this_settings e) as [ty [imgs cyc ord [cur| |]] col gra api];
    cbn in *; try lia.
  destruct (Z.leb_spec (Z.of_nat (length imgs)) cur); repeat f_equal; lia.
Qed.

Lemma X6_add_then_remove_last_witness :
  fst (addUploadedImage fair_weather (Some "d.png") three_images) = Ok "d.png"
  /\ getUploadedImages (snd (addUploadedImage fair_weather (Some "d.png") three_images))
     = (getUploadedImages three_images ++ ["d.png"])%list
  /\ this_settings
       (snd (removeUploadedImage fair_weather (pool_size three_images)
               (snd (addUploadedImage fair_weather (Some "d.png") three_images))))
     = this_settings three_images.
Proof.
  apply (X6_add_then_remove_last fair_weather fair_weather "d.png" three_images).
  unfold cursor_ok. vm_compute. split; [discriminate | left; reflexivity].
Defined.

Lemma quiet_mono S n : forall t, quiet S n t -> quiet S (Datatypes.S n) t.
Proof.
  induction n as [|n IH]; intros [r | w k].
  - auto.
  - intros [].
  - auto.
  - intros H e He. destruct (H e He) as (H1 & H2 & H3).
    split; [exact H1|]. split; [exact H2|]. now apply IH.
Qed.

Lemma loading_quiet S ev imageUrl : quiet S 3 (loading ev imageUrl).
Proof.
  cbn. intros e He. destruct (decodes ev imageUrl); cbn.
  - split; [exact He|]. split; [now left|].
    intros e1 He1. cbn. split; [exact He1|]. split; [now left|].
    intros e2 He2. destruct (storage_set_ok ev); cbn; rewrite ?He1; auto.
  - split; [exact He|]. split; [now left|].
    intros e1 He1. cbn. auto.
Qed.

Lemma applyUploadBackground_task_sequential ev e :
  0 < pool_size e -> sequential e ->
  applyUploadBackground_task ev e
  = (loading ev (nth_url (getUploadedImages e) (upload_cursor e)), advance e).
Proof.
  intros Hn Hseq. unfold applyUploadBackground_task. unfold pool_size in Hn.
  destruct (Nat.eqb_spec (length (Upload.images (uploadSettings (this_settings e)))) 0)
    as [H0 | _]; [lia|].
  rewrite nextUploadIndex_sequential by exact Hseq. reflexivity.
Qed.

Lemma advance_facts e :
  0 < pool_size e -> 0 <= cursor e ->
  cursor (advance e) = (cursor e + 1) mod pool_size e
  /\ pool_size (advance e) = pool_size e
  /\ getUploadedImages (advance e) = getUploadedImages e
  /\ backgroundType (this_settings (advance e)) = backgroundType (this_settings e)
  /\ Upload.cycle (uploadSettings (this_settings (advance e)))
     = Upload.cycle (uploadSettings (this_settings e))
  /\ Upload.order (uploadSettings (this_settings (advance e)))
     = Upload.order (uploadSettings (this_settings e))
  /\ stored (advance e) = stored e
  /\ backgroundContainer (advance e) = backgroundContainer e.
Proof.
  intros Hn Hc. unfold advance, cursor, pool_size, getUploadedImages in *. cbn.
  destruct (Upload.currentIndex (uploadSettings (this_settings e))) as [c| |];
    cbn in Hc |- *; try lia.
  destruct (Z.eqb_spec (Z.of_nat (length (Upload.images (uploadSettings (this_settings e)))))
              0); [lia|].
  cbn. rewrite Z.rem_mod_nonneg by lia. auto 10.
Qed.

(** The state in which the calls of [init] are left in flight, under
    the assumptions of the next theorem. *)
Lemma init_upload_newtab get_ok ev1 ev2 e :
  let e0 := loadSettings get_ok e in
  backgroundType (this_settings e0) = "upload" ->
  Upload.cycle (uploadSettings (this_settings e0)) = "newtab" ->
  sequential e0 -> 0 <= cursor e0 < pool_size e0 ->
  init get_ok ev1 ev2 e
  = (advance (advance e0),
     [loading ev1 (nth_url (getUploadedImages e0) (cursor e0));
      loading ev2 (nth_url (getUploadedImages e0) ((cursor e0 + 1) mod pool_size e0))]).
Proof.
  intros e0 Hty Hcyc Hseq Hc. unfold init. fold e0.
  destruct (advance_facts e0 ltac:(lia) ltac:(lia))
    as (Hc1 & Hn1 & Hi1 & Hty1 & Hcyc1 & Hord1 & _).
  unfold applyBackground_task. rewrite Hty. cbn [String.eqb Ascii.eqb Bool.eqb].
  rewrite applyUploadBackground_task_sequential by (assumption || lia).
  unfold handleBackgroundCycle. rewrite Hty1, Hty, Hcyc1, Hcyc.
  cbn [String.eqb Ascii.eqb Bool.eqb andb].
  rewrite applyUploadBackground_task_sequential;
    [| lia | unfold sequential in *; now rewrite Hord1].
  cbn [option_list].
  rewrite Hi1, (cursor_num e0) by lia.
  rewrite (cursor_num (advance e0))
    by (rewrite Hc1; apply Z.mod_pos_bound; lia).
  now rewrite Hc1.
Qed.

Lemma resume_quiet S st0 (p : page) (i : nat) :
  this_settings (fst p) = S ->
  stored (fst p) = st0 \/ stored (fst p) = Some S ->
  Forall (quiet S 3) (snd p) ->
  this_settings (fst (resume p i)) = S
  /\ (stored (fst (resume p i)) = st0 \/ stored (fst (resume p i)) = Some S)
  /\ Forall (quiet S 3) (snd (resume p i)).
Proof.
  intros HS Hst Hq. unfold resume.
  destruct (snd p !! i) as [[r | w k]|] eqn:Hi; auto.
  pose proof (Forall_lookup_1 _ _ _ _ Hq Hi) as Hk. cbn in Hk.
  destruct (Hk (fst p) HS) as (H1 & H2 & H3).
  destruct (k (fst p)) as [t e'] eqn:Hke. cbn in *.
  split; [exact H1|]. split.
  - destruct H2 as [H2 | H2]; rewrite H2; auto.
  - apply Forall_insert; [exact Hq|]. now apply (quiet_mono S 2).
Qed.

Lemma run_schedule_quiet S st0 schedule : forall p : page,
  this_settings (fst p) = S ->
  stored (fst p) = st0 \/ stored (fst p) = Some S ->
  Forall (quiet S 3) (snd p) ->
  this_settings (fst (run_schedule schedule p)) = S
  /\ (stored (fst (run_schedule schedule p)) = st0
      \/ stored (fst (run_schedule schedule p)) = Some S).
Proof.
  induction schedule as [|i schedule IH]; intros p HS Hst Hq; [auto|].
  destruct (resume_quiet S st0 p i HS Hst Hq) as (H1 & H2 & H3).
  cbn [run_schedule foldl]. now apply IH.
Qed.

(** A call that nothing overlaps behaves as the run-to-completion
    functions say. *)
Lemma draw_task_alone ev imageUrl e :
  alone 3 (draw_task ev imageUrl upload_error, e)
  = (let '(r, e') := (setBackgroundImage ev imageUrl ≫= fun _ => saveSettings ev) e in
     (Done r, e')).
Proof.
  unfold setBackgroundImage. run_monad'. cbn.
  destruct (decodes ev imageUrl); cbn; [|reflexivity].
  unfold saveSettings, modify. cbn. now destruct (storage_set_ok ev).
Qed.

Lemma draw_task_alone_api ev imageUrl e :
  alone 3 (draw_task ev imageUrl api_catch, e)
  = (let '(r, e') :=
       try_catch (setBackgroundImage ev imageUrl ≫= fun _ => saveSettings ev)
                 (fun _ => applyColorBackground) e in
     (Done r, e')).
Proof.
  unfold setBackgroundImage. run_monad'. cbn.
  destruct (decodes ev imageUrl); cbn; [|reflexivity].
  unfold saveSettings, modify. cbn. now destruct (storage_set_ok ev).
Qed.

Lemma alone_more n m te :
  (n <= m)%nat -> (exists r, fst (alone n te) = Done r) -> alone m te = alone n te.
Proof.
  revert m te. induction n as [|n IH]; intros m [t e] Hnm [r Hr]; cbn in *.
  - subst t. destruct m; reflexivity.
  - destruct m as [|m]; [lia|]. destruct t as [r' | w k]; cbn in *; [reflexivity|].
    apply IH; [lia | eauto].
Qed.

Lemma applyUploadBackground_alone ev e :
  alone 3 (applyUploadBackground_task ev e)
  = (Done (fst (applyUploadBackground ev e)), snd (applyUploadBackground ev e)).
Proof.
  unfold applyUploadBackground_task, applyUploadBackground. run_monad'.
  destruct (length (Upload.images (uploadSettings (this_settings e))) =? 0)%nat;
    [reflexivity|].
  destruct (nextUploadIndex_total ev e) as (e1 & -> & _).
  rewrite draw_task_alone. cbn beta iota. run_monad'.
  now destruct (setBackgroundImage ev _ e1) as [[[]|msg] e2]; cbn;
    [destruct (saveSettings ev e2)|].
Qed.

Lemma done_pair (x : result unit * engine) :
  (let '(r, e') := x in (Done r, e')) = (Done (fst x), snd x).
Proof. now destruct x. Qed.

Lemma api_select_alone ev e :
  alone 3 (api_select ev e)
  = (let '(r, e') :=
       try_catch
         (api ← gets (fun e => apiSettings (this_settings e));
          if (0 <? length (Api.images api))%nat then
            imageIndex ← nextApiIndex ev;
            setBackgroundImage ev (nth_url (Api.images api) (Js.Num imageIndex));;
            saveSettings ev
          else mret tt)
         (fun _ => applyColorBackground) e in
     (Done r, e')).
Proof.
  unfold api_select. run_monad'.
  destruct (0 <? length (Api.images (apiSettings (this_settings e))))%nat;
    [|reflexivity].
  rewrite nextApiIndex_spec.
  destruct (bool_decide (Api.order (apiSettings (this_settings e)) = Some "random"));
    rewrite draw_task_alone_api; run_monad'; reflexivity.
Qed.

Lemma applyApiBackground_alone ev e :
  alone 5 (applyApiBackground_task ev e)
  = (Done (fst (applyApiBackground ev e)), snd (applyApiBackground ev e)).
Proof.
  unfold applyApiBackground_task, applyApiBackground. run_monad'.
  destruct (String.eqb (Api.apiKey (apiSettings (this_settings e))) "");
    [reflexivity|].
  destruct (length (Api.images (apiSettings (this_settings e))) =? 0)%nat.
  - rewrite fetchApiImages_receive.
    change (alone 5 (Pending ?w ?k, e)) with (alone 4 (k e)). cbn beta.
    destruct (receive _ e) as [[[]|msg] e1]; cbn [fst snd].
    + change (alone 4 (Pending ?w ?k, e1)) with (alone 3 (k e1)).
      rewrite api_select_alone. run_monad'. apply done_pair.
    + reflexivity.
  - rewrite (alone_more 3 5) by (try lia; rewrite api_select_alone;
                                 destruct (try_catch _ _ e); cbn; eauto).
    rewrite api_select_alone. run_monad'. apply done_pair.
Qed.

Lemma applyBackground_alone ev e :
  alone 5 (applyBackground_task ev e)
  = (Done (fst (applyBackground ev e)), snd (applyBackground ev e)).
Proof.
  unfold applyBackground_task, applyBackground. run_monad'.
  destruct (String.eqb (backgroundType (this_settings e)) "upload").
  - rewrite (alone_more 3 5); [apply applyUploadBackground_alone | lia |].
    rewrite applyUploadBackground_alone. cbn. eauto.
  - destruct (String.eqb (backgroundType (this_settings e)) "color"); [reflexivity|].
    destruct (String.eqb (backgroundType (this_settings e)) "gradient"); [reflexivity|].
    destruct (String.eqb (backgroundType (this_settings e)) "api"); [|reflexivity].
    apply applyApiBackground_alone.
Qed.

(** X7. A page load with a new image per tab. When the loaded settings
    are in upload mode with cycle 'newtab' and sequential order over a
    non-empty pool whose cursor is [c], [init] starts two selections:
    the one of [applyBackground] and, before its image has loaded, the
    one of [handleBackgroundCycle]. The images requested are those at
    [c] and at [c + 1] (wrapping), and however the two calls are then
    resumed the cursor stays two further, the pool is untouched and the
    stored document is either the one found or the settings with the
    cursor two further. When both images decode, the one whose load
    completes last is the one left on the page. *)
Theorem X7_init_selects_twice
    (get_ok : bool) (ev1 ev2 : env) (e : engine) (schedule : list nat) :
  let e0 := loadSettings get_ok e in
  backgroundType (this_settings e0) = "upload" ->
  Upload.cycle (uploadSettings (this_settings e0)) = "newtab" ->
  sequential e0 -> 0 <= cursor e0 < pool_size e0 ->
  let first := nth_url (getUploadedImages e0) (cursor e0) in
  let second := nth_url (getUploadedImages e0) ((cursor e0 + 1) mod pool_size e0) in
  let p := init get_ok ev1 ev2 e in
  waits_for <$> snd p = [Some (ImageLoad first); Some (ImageLoad second)]
  /\ cursor (fst (run_schedule schedule p)) = (cursor e0 + 2) mod pool_size e0
  /\ getUploadedImages (fst (run_schedule schedule p)) = getUploadedImages e0
  /\ (stored (fst (run_schedule schedule p)) = stored e0
      \/ stored (fst (run_schedule schedule p))
         = Some (this_settings (fst (run_schedule schedule p))))
  /\ (decodes ev1 first = true -> decodes ev2 second = true ->
      backgroundImage (backgroundContainer (fst (run_schedule [0; 1]%nat p)))
      = ("url(" ++ second ++ ")")%string
      /\ backgroundImage (backgroundContainer (fst (run_schedule [1; 0]%nat p)))
         = ("url(" ++ first ++ ")")%string).
Proof.
  intros e0 Hty Hcyc Hseq Hc first second p.
  pose proof (init_upload_newtab get_ok ev1 ev2 e Hty Hcyc Hseq Hc) as Hinit.
  fold e0 first second p in Hinit.
  destruct (advance_facts e0 ltac:(lia) ltac:(lia))
    as (Hc1 & Hn1 & Hi1 & _ & _ & _ & Hst1 & _).
  assert (Hc1' : 0 <= cursor (advance e0))
    by (rewrite Hc1; apply Z.mod_pos_bound; lia).
  destruct (advance_facts (advance e0) ltac:(lia) Hc1')
    as (Hc2 & Hn2 & Hi2 & _ & _ & _ & Hst2 & _).
  assert (Hcur : cursor (advance (advance e0)) = (cursor e0 + 2) mod pool_size e0).
  { rewrite Hc2, Hn1, Hc1, Zplus_mod_idemp_l. f_equal. lia. }
  destruct (run_schedule_quiet (this_settings (advance (advance e0))) (stored e0)
              schedule p) as [HS Hst].
  { now rewrite Hinit. }
  { left. rewrite Hinit. cbn [fst]. now rewrite Hst2, Hst1. }
  { rewrite Hinit. cbn [snd].
    constructor; [apply loading_quiet|].
    constructor; [apply loading_quiet | constructor]. }
  split; [now rewrite Hinit|].
  split; [unfold cursor in *; now rewrite HS|].
  split; [unfold getUploadedImages in *; rewrite HS; now rewrite Hi2, Hi1|].
  split; [rewrite HS; exact Hst|].
  intros Hd1 Hd2. rewrite Hinit. clearbody first second. cbn.
  rewrite Hd1. cbn. rewrite Hd2. cbn. rewrite Hd1. cbn. auto.
Qed.

Lemma X7_init_selects_twice_witness :
  waits_for <$> snd (init true fair_weather fair_weather stored_three)
  = [Some (ImageLoad "a.png"); Some (ImageLoad "b.png")]
  /\ cursor (fst (run_schedule [0; 1; 0; 1; 0; 1]%nat
                   (init true fair_weather fair_weather stored_three))) = 2.
Proof.
  assert (Hc : 0 <= cursor (loadSettings true stored_three)
               < pool_size (loadSettings true stored_three))
    by (vm_compute; split; [discriminate | reflexivity]).
  assert (Hs : sequential (loadSettings true stored_three))
    by (unfold sequential; cbn; discriminate).
  destruct (X7_init_selects_twice true fair_weather fair_weather stored_three
              [0; 1; 0; 1; 0; 1]%nat eq_refl eq_refl Hs Hc) as (H1 & H2 & _).
  exact (conj H1 H2).
Defined.

(** X30. Sequential selection over a non-empty upload pool of size N
    whose cursor is the integer 0, as the constructor leaves it: the
    k-th call of [applyUploadBackground] picks index (k-1) mod N and
    the cursor after k calls is k mod N, whatever the image loads and
    storage writes do; N calls pick 0, 1, ..., N-1, each once, and
    bring the cursor back to 0. From a state whose cursor is an index
    of the pool (or 0 over an empty pool), every sequence of
    selections, removals and additions leaves it one; a removal at an
    index puts the cursor back to 0 exactly when the shortened pool's
    length no longer exceeds it. *)
Theorem X30_sequential_rotation
    (e : engine) (evs : list env) (e1 : engine) (ops : list op)
    (ev : env) (index : Z) :
  0 < pool_size e -> sequential e -> upload_cursor e = Js.Num 0 -> cursor_ok e1 ->
  picks evs e
  = (fun k : nat => Js.Num (Z.of_nat k mod pool_size e)) <$> seq 0 (length evs)
  /\ upload_cursor (calls evs e) = Js.Num (Z.of_nat (length evs) mod pool_size e)
  /\ pool_size (calls evs e) = pool_size e
  /\ (Z.of_nat (length evs) = pool_size e ->
      picks evs e = (fun k : nat => Js.Num (Z.of_nat k)) <$> seq 0 (length evs)
      /\ NoDup (picks evs e)
      /\ upload_cursor (calls evs e) = Js.Num 0)
  /\ (exists c, upload_cursor (run ops e1) = Js.Num c
                /\ 0 <= c /\ (c < pool_size (run ops e1) \/ c = 0))
  /\ (0 <= index < pool_size e1 ->
      pool_size (snd (removeUploadedImage ev index e1)) = pool_size e1 - 1
      /\ cursor (snd (removeUploadedImage ev index e1))
         = (if pool_size e1 - 1 <=? cursor e1 then 0 else cursor e1)).
Proof.
  intros Hn Hseq Hnum Hok.
  assert (Hc : cursor e = 0) by (unfold cursor; fold (upload_cursor e); now rewrite Hnum).
  pose proof (picks_from evs e Hseq ltac:(lia)) as Hp.
  destruct (calls_cursor evs e Hseq ltac:(lia)) as (Hcur & Hsize & _).
  rewrite Hc in Hp, Hcur. rewrite Z.add_0_l in Hcur.
  assert (Hcur' : upload_cursor (calls evs e)
                  = Js.Num (Z.of_nat (length evs) mod pool_size e)).
  { rewrite <- Hcur. apply cursor_num. rewrite Hcur.
    apply Z.mod_pos_bound. lia. }
  assert (Hfull : Z.of_nat (length evs) = pool_size e ->
                  picks evs e = (fun k : nat => Js.Num (Z.of_nat k)) <$> seq 0 (length evs)).
  { intros Hlen. rewrite Hp. apply list_fmap_ext. intros i k Hk.
    apply lookup_seq in Hk as [-> Hk]. cbn. f_equal. apply Z.mod_small. lia. }
  split; [exact Hp|]. split; [exact Hcur'|]. split; [exact Hsize|].
  split; [|split].
  - intros Hlen. split; [now apply Hfull|]. split.
    + rewrite Hfull by assumption.
      apply NoDup_fmap; [|apply NoDup_seq].
      intros x y [= Hxy]. now apply Nat2Z.inj.
    + rewrite Hcur', Hlen. f_equal. apply Z.mod_same. lia.
  - destruct (run_cursor_ok ops e1 Hok) as [H0 Hlt].
    exists (cursor (run ops e1)). split; [now apply cursor_num | auto].
  - apply removeUploadedImage_valid.
Qed.

Lemma X30_sequential_rotation_witness :
  picks [fair_weather; fair_weather; fair_weather; fair_weather] three_images
  = [Js.Num 0; Js.Num 1; Js.Num 2; Js.Num 0]
  /\ upload_cursor
       (calls [fair_weather; fair_weather; fair_weather; fair_weather] three_images)
     = Js.Num 1
  /\ (exists c,
        upload_cursor
          (run [Remove fair_weather 0; Add fair_weather (Some "d.png");
                Select fair_weather]
               (calls [fair_weather; fair_weather] three_images)) = Js.Num c
        /\ 0 <= c
        /\ (c < pool_size
                  (run [Remove fair_weather 0; Add fair_weather (Some "d.png");
                        Select fair_weather]
                       (calls [fair_weather; fair_weather] three_images))
            \/ c = 0))
  /\ pool_size (snd (removeUploadedImage fair_weather 0
                       (calls [fair_weather; fair_weather] three_images))) = 2
  /\ cursor (snd (removeUploadedImage fair_weather 0
                    (calls [fair_weather; fair_weather] three_images))) = 0.
Proof.
  assert (H3 : 0 < pool_size three_images) by (vm_compute; reflexivity).
  assert (Hs : sequential three_images) by (unfold sequential; cbn; discriminate).
  assert (Hok : cursor_ok (calls [fair_weather; fair_weather] three_images))
    by (unfold cursor_ok; vm_compute; split; [discriminate | left; reflexivity]).
  assert (Hi : 0 <= 0 < pool_size (calls [fair_weather; fair_weather] three_images))
    by (vm_compute; split; [discriminate | reflexivity]).
  destruct (X30_sequential_rotation three_images
              [fair_weather; fair_weather; fair_weather; fair_weather]
              (calls [fair_weather; fair_weather] three_images)
              [Remove fair_weather 0; Add fair_weather (Some "d.png");
               Select fair_weather]
              fair_weather 0 H3 Hs eq_refl Hok)
    as (Hp & Hcur & _ & _ & Hrun & Hrem).
  split; [exact Hp|]. split; [exact Hcur|]. split; [exact Hrun|].
  exact (Hrem Hi).
Defined.

End BackgroundMoreFacts.

(** ** Uploading background images *)

Section UploadingFacts.
Import Background Uploading.

Local Ltac run_monad3 :=
  unfold mbind, mret, M_bind, M_ret, bind, ret, gets, get, modify, throw, try_catch,
    outcome;
  cbn beta iota.

Lemma keeps_pool_ret {A} (a : A) : keeps_pool (mret a).
Proof. intros e. reflexivity. Qed.

Lemma keeps_pool_throw {A} (msg : string) : keeps_pool (@throw engine A msg).
Proof. intros e. reflexivity. Qed.

Lemma keeps_pool_gets {A} (f : engine -> A) : keeps_pool (gets f).
Proof. intros e. reflexivity. Qed.

Lemma keeps_pool_modify (f : engine -> engine) :
  (forall e, getUploadedImages (f e) = getUploadedImages e) -> keeps_pool (modify f).
Proof. intros H e. apply H. Qed.

Lemma keeps_pool_bind {A B} (m : M engine A) (k : A -> M engine B) :
  keeps_pool m -> (forall a, keeps_pool (k a)) -> keeps_pool (m ≫= k).
Proof.
  intros Hm Hk e. run_monad3. specialize (Hm e).
  destruct (m e) as [[a | msg] e1]; cbn [snd] in *.
  - now rewrite (Hk a e1).
  - exact Hm.
Qed.

Lemma keeps_pool_try {A} (m : M engine A) (h : string -> M engine A) :
  keeps_pool m -> (forall msg, keeps_pool (h msg)) -> keeps_pool (try_catch m h).
Proof.
  intros Hm Hh e. unfold try_catch. specialize (Hm e).
  destruct (m e) as [[a | msg] e1]; cbn [snd] in *.
  - exact Hm.
  - now rewrite (Hh msg e1).
Qed.

Lemma keeps_pool_saveSettings ev : keeps_pool (saveSettings ev).
Proof.
  apply keeps_pool_modify. intros e. now destruct (storage_set_ok ev).
Qed.

Lemma keeps_pool_color : keeps_pool applyColorBackground.
Proof. apply keeps_pool_modify. reflexivity. Qed.

Lemma keeps_pool_setBackgroundImage ev imageUrl :
  keeps_pool (setBackgroundImage ev imageUrl).
Proof.
  unfold setBackgroundImage. destruct (decodes ev imageUrl).
  - apply keeps_pool_modify. reflexivity.
  - apply keeps_pool_throw.
Qed.

Lemma keeps_pool_upload ev : keeps_pool (applyUploadBackground ev).
Proof.
  unfold applyUploadBackground.
  apply keeps_pool_bind; [apply keeps_pool_gets|]. intros up.
  destruct (_ =? _)%nat; [apply keeps_pool_color|].
  apply keeps_pool_bind.
  - unfold nextUploadIndex.
    apply keeps_pool_bind; [apply keeps_pool_gets|]. intros up'.
    destruct (String.eqb _ _); [apply keeps_pool_ret|].
    apply keeps_pool_bind; [|intros; apply keeps_pool_ret].
    apply keeps_pool_modify. reflexivity.
  - intros i. apply keeps_pool_bind; [apply keeps_pool_setBackgroundImage|].
    intros _. apply keeps_pool_saveSettings.
Qed.

Lemma keeps_pool_fetch ev : keeps_pool (fetchApiImages ev).
Proof.
  unfold fetchApiImages.
  apply keeps_pool_bind; [apply keeps_pool_gets|]. intros api.
  destruct (fetch ev _) as [msg | code | msg | photos]; try apply keeps_pool_throw.
  apply keeps_pool_bind; [|intros; apply keeps_pool_modify; reflexivity].
  destruct (_ || _); [|apply keeps_pool_ret].
  destruct photos; [apply keeps_pool_modify; reflexivity | apply keeps_pool_throw].
Qed.

Lemma keeps_pool_api ev : keeps_pool (applyApiBackground ev).
Proof.
  unfold applyApiBackground.
  apply keeps_pool_bind; [apply keeps_pool_gets|]. intros api.
  destruct (String.eqb _ _); [apply keeps_pool_color|].
  apply keeps_pool_try; [|intros; apply keeps_pool_color].
  apply keeps_pool_bind.
  { destruct (_ =? _)%nat; [apply keeps_pool_fetch | apply keeps_pool_ret]. }
  intros _. apply keeps_pool_bind; [apply keeps_pool_gets|]. intros api'.
  destruct (_ <? _)%nat; [|apply keeps_pool_ret].
  apply keeps_pool_bind.
  - unfold nextApiIndex.
    apply keeps_pool_bind; [apply keeps_pool_gets|]. intros api''.
    destruct (bool_decide _); [apply keeps_pool_ret|].
    apply keeps_pool_bind; [|intros; apply keeps_pool_ret].
    apply keeps_pool_modify. reflexivity.
  - intros i. apply keeps_pool_bind; [apply keeps_pool_setBackgroundImage|].
    intros _. apply keeps_pool_saveSettings.
Qed.

(** No way of drawing the background touches the uploaded images. *)
Lemma keeps_pool_applyBackground ev : keeps_pool (applyBackground ev).
Proof.
  unfold applyBackground.
  apply keeps_pool_bind; [apply keeps_pool_gets|]. intros ty.
  destruct (String.eqb ty "upload"); [apply keeps_pool_upload|].
  destruct (String.eqb ty "color"); [apply keeps_pool_color|].
  destruct (String.eqb ty "gradient"); [apply keeps_pool_modify; reflexivity|].
  destruct (String.eqb ty "api"); [apply keeps_pool_api | apply keeps_pool_color].
Qed.

Lemma addImages_readable ev (files : list file) : forall e,
  readable files = true ->
  exists e1,
    addImages ev files e = (Ok tt, e1)
    /\ getUploadedImages e1 = (getUploadedImages e ++ data_urls files)%list
    /\ backgroundContainer e1 = backgroundContainer e
    /\ backgroundType (this_settings e1) = backgroundType (this_settings e).
Proof.
  induction files as [|f files IH]; intros e Hr.
  - exists e. cbn. rewrite app_nil_r. auto.
  - cbn [readable forallb] in Hr. apply andb_prop in Hr as [Hf Hr].
    cbn [addImages]. destruct f as [[|] [u|]]; cbn in Hf; try discriminate.
    + run_monad3. cbn [is_image contents].
      pose proof (addUploadedImage_settings ev u e) as Hs.
      destruct (addUploadedImage ev (Some u) e) as [[x | msg] e0] eqn:Ha.
      2:{ unfold addUploadedImage in Ha. revert Ha. run_monad3. discriminate. }
      cbn [snd] in Hs.
      assert (Hc : backgroundContainer e0 = backgroundContainer e).
      { unfold addUploadedImage, saveSettings in Ha. revert Ha. run_monad3.
        intros Ha. injection Ha as _ <-. now destruct (storage_set_ok ev). }
      destruct (IH e0 Hr) as (e1 & H1 & Himg & Hcont & Hty).
      exists e1. rewrite H1. split; [reflexivity|].
      unfold getUploadedImages in *. rewrite Himg, Hcont, Hty, Hs, Hc. cbn.
      unfold data_urls. cbn. now rewrite <- app_assoc.
    + run_monad3. cbn [is_image]. destruct (IH e Hr) as (e1 & H1 & Himg & Hcont & Hty).
      exists e1. rewrite H1. auto.
    + run_monad3. cbn [is_image]. destruct (IH e Hr) as (e1 & H1 & Himg & Hcont & Hty).
      exists e1. rewrite H1. auto.
Qed.

Lemma addImages_app ev (pre post : list file) e :
  addImages ev (pre ++ post) e
  = match addImages ev pre e with
    | (Ok _, e1) => addImages ev post e1
    | (Throw msg, e1) => (Throw msg, e1)
    end.
Proof.
  revert e. induction pre as [|f pre IH]; intros e; [reflexivity|].
  cbn [List.app addImages]. run_monad3.
  destruct (if is_image f then _ else _) as [[x | msg] e0]; [apply IH | reflexivity].
Qed.

(** X29. Uploading several background images. The handler never
    throws. When every image file of the selection can be read, their
    data URLs are appended to the pool in the order of the selection
    (files that are not images are skipped) and the background is
    drawn again; an error is shown exactly when that drawing, or the
    refresh of the dialog's list, throws, although by then all the
    images are in the pool. When an image file cannot be read, the
    images before it stay in the pool, those after it are not added,
    the background is not drawn again and an error is shown. *)
Theorem X29_upload_batch
    (ev : env) (populateUploadedImages : result unit)
    (files pre post : list file) (e : engine) :
  files <> [] ->
  let r := handleBackgroundImageUpload ev populateUploadedImages files e in
  (exists shown, fst r = Ok shown)
  /\ (readable files = true ->
      getUploadedImages (snd r) = (getUploadedImages e ++ data_urls files)%list
      /\ fst r
         = Ok match fst (applyBackground ev (snd (addImages ev files e))),
                    populateUploadedImages with
              | Ok _, Ok _ => None
              | _, _ => Some "Failed to upload images"
              end)
  /\ (files = (pre ++ File true None :: post)%list -> readable pre = true ->
      fst r = Ok (Some "Failed to upload images")
      /\ getUploadedImages (snd r) = (getUploadedImages e ++ data_urls pre)%list
      /\ backgroundContainer (snd r) = backgroundContainer e).
Proof.
  intros Hne r. subst r.
  assert (Hu : handleBackgroundImageUpload ev populateUploadedImages files e
               = try_catch
                   (addImages ev files;; applyBackground ev;;
                    outcome populateUploadedImages;; mret (@None string))
                   (fun _ => mret (Some "Failed to upload images")) e).
  { destruct files; [congruence | reflexivity]. }
  rewrite Hu. clear Hu. split; [|split].
  - run_monad3. destruct (addImages ev files e) as [[[] | msg] e1]; [|eauto].
    destruct (applyBackground ev e1) as [[[] | msg] e2]; [|eauto].
    destruct populateUploadedImages; eauto.
  - intros Hr. destruct (addImages_readable ev files e Hr) as (e1 & H1 & Himg & _).
    run_monad3. rewrite H1. cbn [snd].
    pose proof (keeps_pool_applyBackground ev e1) as Hk.
    destruct (applyBackground ev e1) as [[[] | msg] e2]; cbn [fst snd] in *.
    + destruct populateUploadedImages; cbn; rewrite Hk, Himg; auto.
    + cbn. rewrite Hk, Himg. auto.
  - intros -> Hr. destruct (addImages_readable ev pre e Hr) as (e1 & H1 & Himg & Hc & _).
    run_monad3. rewrite addImages_app, H1. cbn [addImages is_image contents].
    run_monad3. cbn. rewrite Himg, Hc. auto.
Qed.

Lemma X29_upload_batch_witness :
  getUploadedImages
    (snd (handleBackgroundImageUpload BackgroundExamples.two_photos (Ok tt) three_files
            BackgroundExamples.three_random))
  = ["a.png"; "b.png"; "c.png"; "data:a"; "data:b"]
  /\ fst (handleBackgroundImageUpload BackgroundExamples.two_photos (Ok tt) bad_second
            BackgroundExamples.three_random)
     = Ok (Some "Failed to upload images").
Proof.
  split.
  - exact (proj1 (proj1 (proj2 (X29_upload_batch BackgroundExamples.two_photos (Ok tt)
             three_files [] [] BackgroundExamples.three_random ltac:(discriminate)))
             eq_refl)).
  - exact (proj1 (proj2 (proj2 (X29_upload_batch BackgroundExamples.two_photos (Ok tt)
             bad_second [File true (Some "data:a")] [File true (Some "data:b")]
             BackgroundExamples.three_random ltac:(discriminate))) eq_refl eq_refl)).
Defined.

End UploadingFacts.

(** ** Stats tracker: what is counted as usage *)

Section TrackingFacts.
Import Stats Tracking.












Lemma saveCurrentSession_log cal thirty now ok s :
  0 < activeTime (currentSession s) ->
  thirty now < parse cal (toISOString cal now) ->
  let s' := saveCurrentSession cal thirty now ok s in
  sessions (this_stats (tracker s'))
  = (filter (fun x => thirty now < parse cal (date x))
            (sessions (this_stats (tracker s)))
     ++ [Session (toISOString cal now) (activeTime (currentSession s))
                 (tabsOpenedToday (this_stats (tracker s)))])%list
  /\ currentSession s' = currentSession s
  /\ isActive s' = isActive s
  /\ tabsOpenedToday (this_stats (tracker s')) = tabsOpenedToday (this_stats (tracker s)).
Proof.
  intros Hpos Hrecent. unfold saveCurrentSession.
  destruct (Z.ltb_spec 0 (activeTime (currentSession s))); [|lia].
  cbn. rewrite saveStats_stats. cbn.
  rewrite filter_app, filter_cons_True by exact Hrecent.
  rewrite filter_nil. auto.
Qed.

(** X11. The session log. Saving the current session when it has
    earned active time appends one entry (the instant, the active
    seconds earned so far, the day's tab count) after the earlier
    entries that are less than thirty days old, in their order, and
    drops the older ones. The active time of the running session is not
    reset: a second save without a timer callback in between logs the
    same duration again. A session with no active time logs nothing. *)
Theorem X11_session_log
    (cal : calendar) (thirty : Z -> Z) (now now' : Z) (ok ok' : bool) (s : t) :
  let entry at_ := Session (toISOString cal at_) (activeTime (currentSession s))
                           (tabsOpenedToday (this_stats (tracker s))) in
  let s1 := saveCurrentSession cal thirty now ok s in
  let s2 := saveCurrentSession cal thirty now' ok' s1 in
  (activeTime (currentSession s) <= 0 -> s1 = s)
  /\ (0 < activeTime (currentSession s) ->
      thirty now < parse cal (toISOString cal now) ->
      thirty now' < parse cal (toISOString cal now) ->
      thirty now' < parse cal (toISOString cal now') ->
      sessions (this_stats (tracker s1))
      = (filter (fun x => thirty now < parse cal (date x))
                (sessions (this_stats (tracker s))) ++ [entry now])%list
      /\ Forall (fun x => thirty now < parse cal (date x))
                (sessions (this_stats (tracker s1)))
      /\ currentSession s1 = currentSession s
      /\ sessions (this_stats (tracker s2))
         = (filter (fun x => thirty now' < parse cal (date x))
              (filter (fun x => thirty now < parse cal (date x))
                 (sessions (this_stats (tracker s))))
            ++ [entry now; entry now'])%list).
Proof.
  intros entry s1 s2. split.
  - intros Hz. subst s1. unfold saveCurrentSession.
    destruct (Z.ltb_spec 0 (activeTime (currentSession s))); [lia | reflexivity].
  - intros Hpos H1 H2 H3.
    destruct (saveCurrentSession_log cal thirty now ok s Hpos H1)
      as (L1 & C1 & A1 & T1).
    fold s1 in L1, C1, A1, T1. fold (entry now) in L1.
    split; [exact L1|]. split.
    { rewrite L1. apply Forall_app. split.
      - apply Forall_forall. intros x Hx. apply list_elem_of_filter in Hx. tauto.
      - constructor; [exact H1 | constructor]. }
    split; [exact C1|].
    destruct (saveCurrentSession_log cal thirty now' ok' s1) as (L2 & _).
    { rewrite C1. exact Hpos. }
    { exact H3. }
    fold s2 in L2. rewrite L2, L1, C1, T1.
    rewrite filter_app, filter_cons_True by exact H2.
    rewrite filter_nil. fold (entry now').
    now rewrite <- app_assoc.
Qed.

Lemma X11_session_log_witness :
  sessions (this_stats (tracker
     (saveCurrentSession day_calendar thirty_days 200000 true
        (saveCurrentSession day_calendar thirty_days 130000 true two_minutes))))
  = [Session "130000" 120 3; Session "200000" 120 3].
Proof.
  exact (proj2 (proj2 (proj2 (proj2
    (X11_session_log day_calendar thirty_days 130000 200000 true true two_minutes)
    ltac:(cbn; lia) ltac:(vm_compute; reflexivity) ltac:(vm_compute; reflexivity)
    ltac:(vm_compute; reflexivity))))).
Defined.

(** X12. The usage time shown, for a whole number of seconds between
    [-2^53] and [2^53]. Under a minute (and for any negative number)
    the display reads [< 1m]; from a minute to under an hour it shows
    whole minutes, 1 to 59; from an hour on it shows whole hours and
    the remaining whole minutes, 0 to 59. What is shown never exceeds
    the time given and falls short of it by less than a minute. *)
Theorem X12_usage_time_display (seconds : Z) :
  - 2 ^ 53 < seconds < 2 ^ 53 ->
  (seconds < 60 -> formatUsageTime seconds = "< 1m")
  /\ (60 <= seconds < 3600 ->
      exists m, formatUsageTime seconds = Js.toString m ++ "m"
                /\ 1 <= m <= 59 /\ 60 * m <= seconds < 60 * m + 60)
  /\ (3600 <= seconds ->
      exists h m, formatUsageTime seconds
                  = Js.toString h ++ "h " ++ Js.toString m ++ "m"
                  /\ 1 <= h /\ 0 <= m <= 59
                  /\ 3600 * h + 60 * m <= seconds < 3600 * h + 60 * m + 60).
Proof.
  intros _. unfold formatUsageTime.
  pose proof (Z.div_mod seconds 3600 ltac:(lia)) as Hh.
  pose proof (Z.mod_pos_bound seconds 3600 ltac:(lia)) as Hhm.
  pose proof (Z.div_mod (Z.rem seconds 3600) 60 ltac:(lia)) as Hm.
  pose proof (Z.mod_pos_bound (Z.rem seconds 3600) 60 ltac:(lia)) as Hmm.
  split; [|split].
  - intros Hs.
    assert (Hq : seconds / 3600 <= 0).
    { destruct (Z_le_gt_dec 0 seconds); [rewrite Z.div_small; lia|].
      apply Z.lt_le_incl, Z.div_lt_upper_bound; lia. }
    destruct (Z.ltb_spec 0 (seconds / 3600)); [lia|].
    assert (Hr : Z.rem seconds 3600 / 60 <= 0).
    { destruct (Z_le_gt_dec 0 seconds).
      - rewrite Z.rem_small by lia. rewrite Z.div_small; lia.
      - assert (Hn : Z.rem seconds 3600 <= 0).
        { replace seconds with (- (- seconds)) by lia.
          rewrite Z.rem_opp_l by lia.
          pose proof (Z.rem_nonneg (- seconds) 3600). lia. }
        apply Z.div_le_upper_bound; lia. }
    destruct (Z.ltb_spec 0 (Z.rem seconds 3600 / 60)); [lia | reflexivity].
  - intros Hs.
    rewrite (Z.div_small seconds 3600) by lia. cbn [Z.ltb Z.compare].
    rewrite Z.rem_small in * by lia.
    assert (1 <= seconds / 60) by (apply Z.div_le_lower_bound; lia).
    assert (seconds / 60 <= 59).
    { apply Z.lt_succ_r, Z.div_lt_upper_bound; lia. }
    destruct (Z.ltb_spec 0 (seconds / 60)); [|lia].
    exists (seconds / 60). split; [reflexivity|]. lia.
  - intros Hs.
    assert (1 <= seconds / 3600) by (apply Z.div_le_lower_bound; lia).
    destruct (Z.ltb_spec 0 (seconds / 3600)); [|lia].
    rewrite Z.rem_mod_nonneg in * by lia.
    assert (0 <= seconds mod 3600 / 60) by (apply Z.div_pos; lia).
    assert (seconds mod 3600 / 60 <= 59).
    { apply Z.lt_succ_r, Z.div_lt_upper_bound; lia. }
    exists (seconds / 3600), (seconds mod 3600 / 60).
    split; [reflexivity|]. lia.
Qed.

Lemma X12_usage_time_display_witness :
  exists h m, formatUsageTime 7325 = Js.toString h ++ "h " ++ Js.toString m ++ "m"
              /\ 1 <= h /\ 0 <= m <= 59
              /\ 3600 * h + 60 * m <= 7325 < 3600 * h + 60 * m + 60.
Proof.
  apply (proj2 (proj2 (X12_usage_time_display 7325 ltac:(lia)))). lia.
Defined.

(** X13. The days-used figure. Without a first-use date it is 0;
    otherwise it is the distance between now and the first use counted
    in started days of 86400000 ms: 0 only at the very instant of first
    use, 1 from then up to a full day, and so on, whichever of the two
    instants is the later. *)
Theorem X13_days_used (cal : calendar) (now : Z) (st : stats) :
  let days := calculateDaysUsed cal now st in
  (truthy (firstUseDate st) = false -> days = 0)
  /\ (truthy (firstUseDate st) = true ->
      forall first, firstUseDate st = Some first ->
      86400000 * (days - 1) < Z.abs (now - parse cal first) <= 86400000 * days).
Proof.
  cbn zeta. unfold calculateDaysUsed. split.
  - intros ->. reflexivity.
  - intros Ht first Hf. rewrite Ht, Hf.
    change (default "" (Some first)) with first.
    change (1000 * 60 * 60 * 24) with 86400000.
    set (d := Z.abs (now - parse cal first)).
    pose proof (Z.div_mod (- d) 86400000 ltac:(lia)).
    pose proof (Z.mod_pos_bound (- d) 86400000 ltac:(lia)).
    lia.
Qed.

Lemma X13_days_used_witness :
  86400000 * (calculateDaysUsed day_calendar 86400001
                (Make 0 0 0 (Some "0") None 0 []) - 1)
  < Z.abs (86400001 - parse day_calendar "0")
  <= 86400000 * calculateDaysUsed day_calendar 86400001
                  (Make 0 0 0 (Some "0") None 0 []).
Proof.
  apply (proj2 (X13_days_used day_calendar 86400001 (Make 0 0 0 (Some "0") None 0 []))
           eq_refl "0" eq_refl).
Defined.

Lemma changes_enabled (payloads : list (option Json.jval)) : forall (w : timers),
  Forall (fun d => exists v, Json.getProp d "enabled" = Ok v /\ Json.truthy v = true)
         payloads ->
  changes payloads w
  = Timers (nextHandle w + length payloads)
           (live w ++ seq (nextHandle w) (length payloads))%list
           (match payloads with
            | [] => trackingInterval w
            | _ => Some (nextHandle w + length payloads - 1)%nat
            end).
Proof.
  induction payloads as [|d payloads IH]; intros w Hp.
  - cbn. rewrite Nat.add_0_r, app_nil_r. now destruct w.
  - apply Forall_cons in Hp as [(v & Hv & Ht) Hp].
    cbn [changes foldl]. fold (changes payloads (handleSettingsChange d w)).
    rewrite IH by exact Hp. unfold handleSettingsChange. rewrite Hv, Ht.
    cbn [startTracking nextHandle live trackingInterval length seq].
    rewrite <- app_assoc. cbn [List.app]. f_equal; [lia|].
    destruct payloads; f_equal; cbn [length]; lia.
Qed.

Lemma filter_other_handles (h : nat) (l : list nat) :
  h ∉ l -> filter (fun x => x <> h) l = l.
Proof.
  induction l as [|x l IH]; intros Hh; [reflexivity|].
  apply not_elem_of_cons in Hh as [Hx Hh].
  rewrite filter_cons_True by congruence. now rewrite IH.
Qed.

(** X24. Tracking timers pile up. The tracker starts one interval
    timer; every settings change that arrives with statistics enabled
    starts one more and forgets the handle of the one before, and a
    change with statistics disabled clears only the timer started
    last. After [n] changes with statistics enabled, [n + 1] timers
    run; disabling then leaves [n] of them running, and disabling again
    clears nothing. *)
Theorem X24_tracking_timers_pile_up
    (payloads : list (option Json.jval)) (off : option Json.jval) :
  Forall (fun d => exists v, Json.getProp d "enabled" = Ok v /\ Json.truthy v = true)
         payloads ->
  (exists v, Json.getProp off "enabled" = Ok v /\ Json.truthy v = false) ->
  let n := length payloads in
  let running := changes payloads (startTracking no_timers) in
  let disabled := handleSettingsChange off running in
  live running = seq 1 (S n)
  /\ live disabled = seq 1 n
  /\ trackingInterval disabled = None
  /\ handleSettingsChange off disabled = disabled.
Proof.
  intros Hp (v & Hv & Ht) n running disabled.
  assert (Hr : running = Timers (2 + n) (seq 1 (S n)) (Some (S n))).
  { subst running n. rewrite changes_enabled by exact Hp.
    cbn [startTracking no_timers nextHandle live trackingInterval].
    destruct payloads as [|d ps]; [reflexivity|].
    cbn [length]. f_equal; first [reflexivity | f_equal; lia]. }
  assert (Hd : disabled = Timers (2 + n) (seq 1 n) None).
  { subst disabled. rewrite Hr. unfold handleSettingsChange. rewrite Hv, Ht.
    unfold stopTracking. cbn [trackingInterval live nextHandle Nat.eqb].
    f_equal. rewrite seq_S, filter_app.
    rewrite filter_cons_False by (intros H; now apply H).
    rewrite filter_nil, app_nil_r.
    apply filter_other_handles. rewrite elem_of_seq. lia. }
  rewrite Hd, Hr. cbn [live trackingInterval].
  repeat split. unfold handleSettingsChange. now rewrite Hv, Ht.
Qed.

Lemma X24_tracking_timers_pile_up_witness :
  live (handleSettingsChange (Some (Json.JObj {[ "enabled" := Json.JBool false ]}))
          (changes [Some App.default_stats; Some App.default_stats]
                   (startTracking no_timers)))
  = [1; 2]%nat.
Proof.
  refine (proj1 (proj2 (X24_tracking_timers_pile_up
            [Some App.default_stats; Some App.default_stats]
            (Some (Json.JObj {[ "enabled" := Json.JBool false ]})) _ _))).
  - repeat constructor; exists (Some (Json.JBool true)); split; reflexivity.
  - exists (Some (Json.JBool false)). split; reflexivity.
Defined.

End TrackingFacts.
(** ** Pinned apps: the list, its display and drag and drop *)

Section PinnedAppsFacts.
Import PinnedApps.
Local Open Scope list_scope.

Local Ltac run_monad'' :=
  unfold mbind, mret, M_bind, M_ret, bind, ret, gets, get, modify, throw, and_then;
  cbn beta iota.

Lemma appendElements_items (l : list slot) : forall i s,
  Forall (fun x => is_item x = true) l ->
  appendElements i l s
  = (Ok tt, set_grid (fun g => (g ++ map (Element (passes s)) (seq i (length l)))%list) s).
Proof.
  induction l as [|x l IH]; intros i s Hl.
  - cbn. unfold set_grid. rewrite app_nil_r. now destruct s.
  - apply Forall_cons in Hl as [Hx Hl]. destruct x; try discriminate.
    cbn [appendElements]. run_monad''. rewrite IH by exact Hl.
    destruct s; cbn. unfold set_grid; cbn. now rewrite <- app_assoc.
Qed.

Lemma renderApps_items (s : t) :
  Forall (fun x => is_item x = true) (apps s) ->
  renderApps s
  = (Ok tt,
     State (apps s) (stored s) (rendered (S (passes s)) (length (apps s)))
           (S (passes s)) (draggedElement s) (draggedIndex s) (editingIndex s)
           (modalActive s) (fields s) (notifications s)).
Proof.
  intros Hl. unfold renderApps. run_monad''. cbn.
  rewrite appendElements_items by exact Hl. reflexivity.
Qed.

Lemma serialize_items (l : list slot) :
  Forall (fun x => is_item x = true) l -> serialize l = l.
Proof.
  induction 1 as [|x l Hx _ IH]; [reflexivity|].
  unfold serialize in *. cbn [map]. rewrite IH.
  destruct x; try discriminate; reflexivity.
Qed.

Lemma putBefore_spec (r d : element) (l1 l2 : list element) :
  r ∉ l1 -> putBefore r d (l1 ++ r :: l2) = Some (l1 ++ d :: r :: l2).
Proof.
  induction l1 as [|x l1 IH]; intros Hr; cbn.
  - now rewrite decide_True.
  - apply not_elem_of_cons in Hr as [Hx Hr].
    rewrite decide_False by congruence. now rewrite IH.
Qed.

Lemma nextSibling_spec (x : element) (l1 l2 : list element) :
  x ∉ l1 -> nextSibling x (l1 ++ x :: l2) = head l2.
Proof.
  induction l1 as [|y l1 IH]; intros Hx; cbn.
  - now rewrite decide_True.
  - apply not_elem_of_cons in Hx as [Hy Hx].
    rewrite decide_False by congruence. now apply IH.
Qed.

Lemma filter_ne_notin (d : element) (l : list element) :
  d ∉ l -> filter (fun x => x <> d) l = l.
Proof.
  induction l as [|x l IH]; intros Hd; [reflexivity|].
  apply not_elem_of_cons in Hd as [Hx Hd].
  rewrite filter_cons_True by congruence. now rewrite IH.
Qed.

Lemma filter_ne_self (d : element) (l : list element) :
  filter (fun x => x <> d) (d :: l) = filter (fun x => x <> d) l.
Proof. rewrite filter_cons_False; [reflexivity | intros H; now apply H]. Qed.

(** Where [insertBefore] puts a child of the grid that is dragged over
    another child: next to it, on the side asked for; the other
    children keep their places relative to one another. *)
Lemma insertBefore_spec (g : list element) (d tg : element) (leftHalf : bool) :
  NoDup g -> d ∈ g -> tg ∈ g -> d <> tg ->
  exists L R,
    filter (fun x => x <> d) g = (L ++ tg :: R)%list
    /\ insertBefore d (if leftHalf then Some tg else nextSibling tg g) g
       = Some (if leftHalf then L ++ d :: tg :: R else L ++ tg :: d :: R)%list.
Proof.
  intros Hnd Hd Ht Hne.
  apply list_elem_of_split in Ht as (l1 & l2 & ->).
  apply NoDup_app in Hnd as (Hnd1 & Hx1 & Hnd2).
  apply NoDup_cons in Hnd2 as (Ht2 & Hnd2).
  assert (Ht1 : tg ∉ l1).
  { intros Hin. apply (Hx1 _ Hin). left. }
  apply elem_of_app in Hd as [Hd | Hd].
  - (* the dragged node comes before the target *)
    apply list_elem_of_split in Hd as (a & b & ->).
    apply NoDup_app in Hnd1 as (Hnda & Hxa & Hndb).
    apply NoDup_cons in Hndb as (Hdb & Hndb).
    assert (Hda : d ∉ a) by (intros Hin; apply (Hxa _ Hin); left).
    assert (Hdl2 : d ∉ l2).
    { intros Hin. apply (Hx1 d); [apply elem_of_app; right; left | now right]. }
    assert (Hf : filter (fun x => x <> d) ((a ++ d :: b) ++ tg :: l2)
                 = ((a ++ b) ++ tg :: l2)%list).
    { rewrite !filter_app, filter_ne_self, (filter_cons_True _ tg) by congruence.
      now rewrite !filter_ne_notin by assumption. }
    exists (a ++ b)%list, l2. split; [exact Hf|].
    assert (Htab : tg ∉ (a ++ b)%list).
    { intros Hin. apply Ht1. apply elem_of_app in Hin as [?|?];
        apply elem_of_app; [now left | right; now right]. }
    unfold insertBefore. destruct leftHalf.
    + rewrite decide_False by congruence. rewrite Hf. now apply putBefore_spec.
    + rewrite (nextSibling_spec tg (a ++ d :: b) l2) by exact Ht1.
      destruct l2 as [|r l2']; cbn [head].
      * rewrite decide_False by congruence. rewrite Hf.
        now rewrite <- !app_assoc.
      * assert (r <> d) by (intros ->; apply Hdl2; left).
        rewrite decide_False by congruence. rewrite Hf.
        replace ((a ++ b) ++ tg :: r :: l2')%list
          with (((a ++ b) ++ [tg]) ++ r :: l2')%list by now rewrite <- !app_assoc.
        rewrite putBefore_spec.
        { now rewrite <- !app_assoc. }
        intros Hin. apply elem_of_app in Hin as [Hin | Hin].
        -- apply (Hx1 r); [|right; left].
           apply elem_of_app in Hin as [?|?]; apply elem_of_app;
             [now left | right; now right].
        -- apply list_elem_of_singleton in Hin as ->. apply Ht2. left.
  - (* the dragged node comes after the target *)
    apply elem_of_cons in Hd as [-> | Hd]; [congruence|].
    apply list_elem_of_split in Hd as (a & b & ->).
    apply NoDup_app in Hnd2 as (Hnda & Hxa & Hndb).
    apply NoDup_cons in Hndb as (Hdb & Hndb).
    assert (Hda : d ∉ a) by (intros Hin; apply (Hxa _ Hin); left).
    assert (Hdl1 : d ∉ l1).
    { intros Hin. apply (Hx1 d Hin). right. apply elem_of_app. right. left. }
    assert (Hf : filter (fun x => x <> d) (l1 ++ tg :: a ++ d :: b)
                 = (l1 ++ tg :: a ++ b)%list).
    { rewrite filter_app, (filter_cons_True _ tg) by congruence.
      rewrite filter_app, filter_ne_self.
      now rewrite !filter_ne_notin by assumption. }
    exists l1, (a ++ b)%list. split; [exact Hf|].
    unfold insertBefore. destruct leftHalf.
    + rewrite decide_False by congruence. rewrite Hf. now apply putBefore_spec.
    + rewrite (nextSibling_spec tg l1 (a ++ d :: b)) by exact Ht1.
      destruct a as [|r a']; cbn [head List.app].
      * rewrite decide_True by reflexivity.
        replace (l1 ++ tg :: d :: b)%list with ((l1 ++ [tg]) ++ d :: b)%list
          by now rewrite <- app_assoc.
        rewrite nextSibling_spec.
        2:{ intros Hin. apply elem_of_app in Hin as [Hin | Hin];
              [now apply Hdl1 | apply list_elem_of_singleton in Hin; congruence]. }
        rewrite <- app_assoc. cbn [List.app].
        change (l1 ++ tg :: d :: b)%list with (l1 ++ tg :: [] ++ d :: b)%list.
        rewrite Hf. cbn [List.app].
        destruct b as [|r b']; cbn [head].
        -- replace (l1 ++ [tg])%list with (l1 ++ [tg])%list by reflexivity.
           now rewrite <- app_assoc.
        -- replace (l1 ++ tg :: r :: b')%list with ((l1 ++ [tg]) ++ r :: b')%list
             by now rewrite <- app_assoc.
           rewrite putBefore_spec; [now rewrite <- app_assoc|].
           intros Hin. apply elem_of_app in Hin as [Hin | Hin].
           ++ apply (Hx1 r Hin). right. right. left.
           ++ apply list_elem_of_singleton in Hin as ->. apply Ht2. right. left.
      * assert (r <> d) by (intros ->; apply Hda; left).
        rewrite decide_False by congruence.
        cbn [List.app] in Hf. rewrite Hf.
        replace (l1 ++ tg :: r :: a' ++ b)%list
          with ((l1 ++ [tg]) ++ r :: a' ++ b)%list by now rewrite <- app_assoc.
        rewrite putBefore_spec; [now rewrite <- app_assoc|].
        intros Hin. apply elem_of_app in Hin as [Hin | Hin].
        -- apply (Hx1 r Hin). right. left.
        -- apply list_elem_of_singleton in Hin as ->. apply Ht2. left.
Qed.

Lemma NoDup_rendered (p n : nat) : NoDup (rendered p n).
Proof.
  unfold rendered. apply NoDup_fmap_2; [|apply NoDup_seq].
  intros i j H. now inversion H.
Qed.

Lemma elem_of_rendered (p n : nat) (el : element) :
  el ∈ rendered p n <-> pass el = p /\ (index el < n)%nat.
Proof.
  unfold rendered. rewrite list_elem_of_fmap. split.
  - intros (i & -> & Hi). apply elem_of_seq in Hi. cbn. lia.
  - intros (Hp & Hi). exists (index el). split.
    + destruct el; cbn in *; now subst.
    + apply elem_of_seq. lia.
Qed.

Lemma perm_remove (g : list element) (d : element) :
  NoDup g -> d ∈ g -> g ≡ₚ d :: filter (fun x => x <> d) g.
Proof.
  intros Hnd Hd. apply list_elem_of_split in Hd as (a & b & ->).
  apply NoDup_app in Hnd as (_ & Hx & Hb). apply NoDup_cons in Hb as (Hdb & _).
  assert (Hda : d ∉ a) by (intros Hin; apply (Hx _ Hin); left).
  rewrite filter_app, filter_ne_self, !filter_ne_notin by assumption.
  symmetry. apply Permutation_middle.
Qed.

Lemma pushed_seq (l : list slot) :
  Forall (fun x => is_item x = true) l ->
  map (pushed l) (seq 0 (length l)) = l.
Proof.
  intros Hl. apply list_eq. intros i. rewrite list_lookup_fmap.
  destruct (decide (i < length l)%nat) as [Hi | Hi].
  - rewrite lookup_seq_lt by exact Hi. cbn.
    destruct (lookup_lt_is_Some_2 l i Hi) as [x Hx]. unfold pushed. rewrite Hx.
    rewrite Forall_forall in Hl. specialize (Hl x (list_elem_of_lookup_2 _ _ _ Hx)).
    destruct x; try discriminate. reflexivity.
  - rewrite lookup_seq_ge by lia. cbn. symmetry. apply lookup_ge_None. lia.
Qed.

Lemma pushed_items (l : list slot) (order : list nat) :
  Forall (fun x => is_item x = true) l ->
  order ≡ₚ seq 0 (length l) ->
  Forall (fun x => is_item x = true) (map (pushed l) order)
  /\ map (pushed l) order ≡ₚ l.
Proof.
  intros Hl Hp. split.
  - rewrite Hp, pushed_seq by exact Hl. exact Hl.
  - rewrite Hp. now rewrite pushed_seq.
Qed.

Lemma index_rendered (p n : nat) : map index (rendered p n) = seq 0 n.
Proof.
  unfold rendered. rewrite map_map. cbn. apply map_id.
Qed.

Lemma index_filter (p n : nat) (g : list element) (el : element) :
  g ⊆ rendered p n -> el ∈ rendered p n ->
  map index (filter (fun x => x <> el) g)
  = filter (fun i => i <> index el) (map index g).
Proof.
  intros Hg Hel. apply elem_of_rendered in Hel as [Hp _].
  induction g as [|x g IH]; [reflexivity|].
  assert (Hx : pass x = p).
  { apply (elem_of_rendered p n). apply Hg. left. }
  assert (Hg' : g ⊆ rendered p n).
  { intros y Hy. apply Hg. now right. }
  cbn [map]. destruct (decide (x = el)) as [-> | Hne].
  - rewrite filter_cons_False by (intros H; now apply H).
    rewrite filter_cons_False by (intros H; now apply H). now apply IH.
  - rewrite filter_cons_True by exact Hne.
    rewrite filter_cons_True.
    + cbn [map]. f_equal. now apply IH.
    + intros Hi. apply Hne. destruct x, el; cbn in *; congruence.
Qed.

(** One [dragover] during a drag: the listener returns, the grid holds
    the same nodes, and the nodes other than the dragged one keep their
    order. *)
Lemma dragover_dragging (el tg : element) (leftHalf : bool) (s : t) :
  dragging el s -> tg ∈ grid s ->
  exists g,
    dragover tg leftHalf s = (Ok tt, set_grid (fun _ => g) s)
    /\ g ≡ₚ grid s
    /\ filter (fun x => x <> el) g = filter (fun x => x <> el) (grid s)
    /\ (el <> tg ->
        exists L R,
          filter (fun x => x <> el) (grid s) = L ++ tg :: R
          /\ g = if leftHalf then L ++ el :: tg :: R else L ++ tg :: el :: R).
Proof.
  intros (Hl & Hg & Hde & Hdi & Hel & He) Ht.
  assert (Hnd : NoDup (grid s)) by (rewrite Hg; apply NoDup_rendered).
  unfold dragover. run_monad''. rewrite Hde.
  destruct (decide (el = tg)) as [<- | Hne].
  - exists (grid s). split; [now destruct s|]. split; [reflexivity|].
    split; [reflexivity | congruence].
  - rewrite decide_True by exact Ht.
    destruct (insertBefore_spec (grid s) el tg leftHalf Hnd Hel Ht Hne)
      as (L & R & Hf & Hi).
    rewrite Hi.
    exists (if leftHalf then L ++ el :: tg :: R else L ++ tg :: el :: R).
    split; [reflexivity|].
    assert (HelLR : el ∉ L ++ tg :: R).
    { rewrite <- Hf. intros Hin. apply list_elem_of_filter in Hin as [Hin _].
      now apply Hin. }
    assert (HelL : el ∉ L) by (intros Hin; apply HelLR, elem_of_app; now left).
    assert (HelR : el ∉ R).
    { intros Hin. apply HelLR, elem_of_app. right. now right. }
    split.
    { rewrite (perm_remove (grid s) el Hnd Hel), Hf. destruct leftHalf.
      - symmetry. apply Permutation_middle.
      - change (L ++ tg :: el :: R) with (L ++ [tg] ++ el :: R).
        rewrite app_assoc. rewrite <- Permutation_middle.
        now rewrite <- app_assoc. }
    split.
    { rewrite Hf. destruct leftHalf.
      - rewrite filter_app, filter_ne_self, (filter_cons_True _ tg) by congruence.
        now rewrite !filter_ne_notin by assumption.
      - rewrite filter_app, (filter_cons_True _ tg), filter_ne_self by congruence.
        now rewrite !filter_ne_notin by assumption. }
    intros _. exists L, R. split; [exact Hf | reflexivity].
Qed.

Lemma dragging_set_grid (el : element) (g : list element) (s : t) :
  dragging el s -> g ≡ₚ grid s -> dragging el (set_grid (fun _ => g) s).
Proof.
  intros (Hl & Hg & Hde & Hdi & Hel & He) Hp.
  repeat split; cbn; try assumption.
  - now rewrite Hp.
  - now rewrite Hp.
Qed.

(** Any run of [dragover] events during a drag. *)
Lemma dragovers_dragging (el : element) (over : list (nat * bool)) :
  forall s, dragging el s ->
  exists g,
    dragovers over s = (Ok tt, set_grid (fun _ => g) s)
    /\ g ≡ₚ grid s
    /\ filter (fun x => x <> el) g = filter (fun x => x <> el) (grid s).
Proof.
  induction over as [|[place leftHalf] over IH]; intros s Hs.
  - exists (grid s). split; [now destruct s|]. split; reflexivity.
  - cbn [dragovers]. unfold and_then, at_place. run_monad''.
    destruct (grid s !! place) as [tg|] eqn:Hp.
    + destruct (dragover_dragging el tg leftHalf s Hs) as (g & Hr & Hperm & Hf & _).
      { eapply list_elem_of_lookup_2; eassumption. }
      rewrite Hr.
      destruct (IH _ (dragging_set_grid el g s Hs Hperm)) as (g' & Hr' & Hperm' & Hf').
      rewrite Hr'. exists g'. split; [reflexivity|]. cbn in *.
      split; [now rewrite Hperm' | now rewrite Hf'].
    + destruct (IH s Hs) as (g' & Hr' & Hperm' & Hf'). rewrite Hr'.
      exists g'. auto.
Qed.

Lemma reorderApps_spec (ok : bool) (s : t) :
  Forall (fun x => is_item x = true) (apps s) ->
  grid s ≡ₚ rendered (passes s) (length (apps s)) ->
  let l' := map (pushed (apps s)) (map index (grid s)) in
  reorderApps ok s
  = (Ok tt,
     saveApps ok
       (State l' (stored s) (rendered (S (passes s)) (length (apps s)))
              (S (passes s)) (draggedElement s) (draggedIndex s) (editingIndex s)
              (modalActive s) (fields s) (notifications s)))
  /\ Forall (fun x => is_item x = true) l'
  /\ l' ≡ₚ apps s.
Proof.
  intros Hl Hg l'.
  assert (Ho : map index (grid s) ≡ₚ seq 0 (length (apps s))).
  { rewrite Hg. now rewrite index_rendered. }
  destruct (pushed_items (apps s) (map index (grid s)) Hl Ho) as [Hi Hp].
  split; [|split; assumption].
  unfold reorderApps. run_monad''.
  rewrite renderApps_items.
  - cbn. subst l'. rewrite map_map, length_map.
    assert (Hlen : length (grid s) = length (apps s)).
    { rewrite Hg. unfold rendered. now rewrite length_map, length_seq. }
    now rewrite Hlen.
  - cbn. now rewrite <- map_map.
Qed.

Lemma steady_dragstart (place : nat) (el : element) (s : t) :
  steady s -> grid s !! place = Some el -> dragging el (dragstart el s).
Proof.
  intros (Hl & Hg & _ & _ & He) Hp.
  repeat split; cbn; try assumption.
  eapply list_elem_of_lookup_2; eassumption.
Qed.

(** A whole drag that ends with a drop. *)
Lemma drag_drop_spec (place place' : nat) (over : list (nat * bool)) (ok : bool)
    (el : element) (s : t) :
  steady s -> grid s !! place = Some el -> (place' < length (apps s))%nat ->
  exists g,
    g ≡ₚ grid s
    /\ filter (fun x => x <> el) g = filter (fun x => x <> el) (grid s)
    /\ (forall tplace leftHalf tg,
          over = [(tplace, leftHalf)] -> grid s !! tplace = Some tg -> el <> tg ->
          exists L R,
            filter (fun x => x <> el) (grid s) = L ++ tg :: R
            /\ g = if leftHalf then L ++ el :: tg :: R else L ++ tg :: el :: R)
    /\ and_then (modify (dragstart el))
         (and_then (dragovers over)
            (and_then (at_place place' (fun _ => drop ok)) (modify dragend))) s
       = (Ok tt,
          saveApps ok
            (State (map (pushed (apps s)) (map index g)) (stored s)
                   (rendered (S (passes s)) (length (apps s)))
                   (S (passes s)) None None (editingIndex s)
                   (modalActive s) (fields s) (notifications s))).
Proof.
  intros Hs Hp Hlt.
  pose proof (steady_dragstart place el s Hs Hp) as Hd.
  destruct (dragovers_dragging el over _ Hd) as (g & Hr & Hperm & Hf).
  exists g. split; [exact Hperm|]. split; [exact Hf|]. split.
  { intros tplace leftHalf tg -> Htg Hne.
    cbn [dragovers] in Hr. unfold and_then, at_place in Hr. revert Hr. run_monad''.
    cbn [grid dragstart set_dragged]. rewrite Htg.
    destruct (dragover_dragging el tg leftHalf _ Hd) as (g0 & Hr0 & _ & _ & Hex).
    { cbn. eapply list_elem_of_lookup_2; eassumption. }
    rewrite Hr0. intros Hr. injection Hr as Hr.
    subst g0. exact (Hex Hne). }
  destruct Hs as (Hl & Hg & Hde & Hdi & He).
  run_monad''. rewrite Hr. unfold at_place. run_monad''.
  assert (Hlen : length g = length (apps s)).
  { rewrite Hperm, Hg. unfold rendered. now rewrite length_map, length_seq. }
  destruct (lookup_lt_is_Some_2 g place') as [x Hx]; [lia|].
  cbn [grid set_grid dragstart set_dragged]. rewrite Hx.
  unfold drop. run_monad''. cbn [draggedIndex set_grid dragstart set_dragged].
  destruct (reorderApps_spec ok (set_grid (fun _ => g) (dragstart el s))) as (Hre & _).
  { exact Hl. }
  { cbn. now rewrite Hperm. }
  cbn zeta in Hre. rewrite Hre. cbn.
  unfold saveApps, dragend, set_dragged, set_stored. destruct ok; reflexivity.
Qed.

Lemma steady_rendered (s : t) (l : list slot) (st : option (list slot))
    (m : bool) (f : form) (n : list (string * string)) (e : option nat) :
  Forall (fun x => is_item x = true) l ->
  match e with Some i => (i < length l)%nat | None => True end ->
  steady (State l st (rendered (S (passes s)) (length l)) (S (passes s))
                None None e m f n).
Proof. intros Hl He. repeat split; cbn; auto. Qed.

Lemma saveApps_items (ok : bool) (s : t) :
  Forall (fun x => is_item x = true) (apps s) ->
  saveApps ok s
  = State (apps s) (if ok then Some (apps s) else stored s) (grid s) (passes s)
          (draggedElement s) (draggedIndex s) (editingIndex s) (modalActive s)
          (fields s) (notifications s).
Proof.
  intros Hl. unfold saveApps, set_stored. destruct ok.
  - now rewrite serialize_items.
  - now destruct s.
Qed.

Lemma saveApp_reject (trim : string -> string) (origin : string -> option string)
    (src : string -> string) (ok : bool) (s : t) :
  let name := trim (name_value (fields s)) in
  let url := trim (url_value (fields s)) in
  name = "" \/ url = "" \/ origin url = None ->
  exists message,
    saveApp trim origin src ok s = (Ok tt, showNotification message "error" s).
Proof.
  intros name url H. unfold saveApp. run_monad''. fold name url.
  destruct (String.eqb_spec name "") as [Hn | Hn].
  { eexists. reflexivity. }
  destruct (String.eqb_spec url "") as [Hu | Hu].
  { eexists. reflexivity. }
  cbn [orb]. destruct (origin url) eqn:Ho.
  - destruct H as [? | [? | ?]]; congruence.
  - eexists. reflexivity.
Qed.

Lemma saveApp_accept (trim : string -> string) (origin : string -> option string)
    (src : string -> string) (ok : bool) (s : t) :
  let name := trim (name_value (fields s)) in
  let url := trim (url_value (fields s)) in
  let icon := match icon_preview (fields s) with Some a => src a | None => "" end in
  let l' := match editingIndex s with
            | Some i => <[i := Item (App name url icon)]> (apps s)
            | None => apps s ++ [Item (App name url icon)]
            end in
  Forall (fun x => is_item x = true) (apps s) ->
  match editingIndex s with Some i => (i < length (apps s))%nat | None => True end ->
  name <> "" -> url <> "" -> origin url <> None ->
  saveApp trim origin src ok s
  = (Ok tt,
     State l' (if ok then Some l' else stored s)
           (rendered (S (passes s)) (length l')) (S (passes s))
           (draggedElement s) (draggedIndex s) None false (fields s)
           (notifications s ++ [("App saved successfully", "success")]))
  /\ Forall (fun x => is_item x = true) l'.
Proof.
  intros name url icon l' Hl He Hn Hu Ho.
  assert (Hl' : Forall (fun x => is_item x = true) l').
  { subst l'. destruct (editingIndex s).
    - apply Forall_insert; [exact Hl | reflexivity].
    - apply Forall_app. split; [exact Hl | repeat constructor]. }
  split; [|exact Hl'].
  unfold saveApp. run_monad''. fold name url icon.
  destruct (String.eqb_spec name "") as [? | _]; [congruence|].
  destruct (String.eqb_spec url "") as [? | _]; [congruence|].
  cbn [orb]. destruct (origin url); [|congruence].
  assert (Ha : forall i, editingIndex s = Some i ->
                 assign i (Item (App name url icon)) (apps s)
                 = <[i := Item (App name url icon)]> (apps s)).
  { intros i Hi. rewrite Hi in He. unfold assign.
    destruct (Nat.ltb_spec i (length (apps s))); [reflexivity | lia]. }
  destruct (editingIndex s) as [i|] eqn:Hi.
  - cbn. rewrite renderApps_items; cbn; rewrite (Ha i eq_refl); [|exact Hl'].
    rewrite saveApps_items by exact Hl'. reflexivity.
  - cbn. rewrite renderApps_items; cbn; [|exact Hl'].
    rewrite saveApps_items by exact Hl'. reflexivity.
Qed.

Lemma splice1_items (i : nat) (l : list slot) :
  Forall (fun x => is_item x = true) l ->
  Forall (fun x => is_item x = true) (Background.splice1 i l).
Proof.
  intros Hl. unfold Background.splice1. apply Forall_app. split.
  - now apply Forall_take.
  - now apply Forall_drop.
Qed.

Lemma deleteApp_spec (ok : bool) (s : t) (i : nat) :
  Forall (fun x => is_item x = true) (apps s) ->
  editingIndex s = Some i ->
  let l' := Background.splice1 i (apps s) in
  deleteApp ok s
  = (Ok tt,
     State l' (if ok then Some l' else stored s)
           (rendered (S (passes s)) (length l')) (S (passes s))
           (draggedElement s) (draggedIndex s) None false (fields s)
           (notifications s ++ [("App deleted successfully", "success")])).
Proof.
  intros Hl Hi l'. pose proof (splice1_items i _ Hl) as Hl'.
  unfold deleteApp. run_monad''. rewrite Hi. cbn.
  rewrite renderApps_items; cbn; [|exact Hl'].
  rewrite saveApps_items by exact Hl'. reflexivity.
Qed.

(** Every listener returns and leaves the page steady. *)
Lemma fire_steady (trim : string -> string) (origin : string -> option string)
    (src : string -> string) (e : event) (s : t) :
  steady s ->
  exists s', fire trim origin src e s = (Ok tt, s') /\ steady s'.
Proof.
  intros Hs. pose proof Hs as (Hl & Hg & Hde & Hdi & He).
  destruct e as [| place | f | ok | ok | | place over dropped]; cbn [fire].
  - eexists. split; [reflexivity|]. repeat split; cbn; auto.
  - unfold at_place. run_monad''.
    destruct (grid s !! place) as [el|] eqn:Hp.
    + assert (Hel : el ∈ rendered (passes s) (length (apps s))).
      { rewrite <- Hg. eapply list_elem_of_lookup_2; eassumption. }
      apply elem_of_rendered in Hel as [_ Hlt].
      destruct (lookup_lt_is_Some_2 (apps s) (index el) Hlt) as [x Hx].
      rewrite Forall_forall in Hl.
      pose proof (Hl x (list_elem_of_lookup_2 _ _ _ Hx)) as Hitem.
      destruct x; try discriminate.
      unfold openEditModal. run_monad''. cbn. rewrite Hx.
      eexists. split; [reflexivity|].
      repeat split; cbn; auto. now apply Forall_forall.
    + eexists. split; [reflexivity | exact Hs].
  - eexists. split; [reflexivity|]. repeat split; cbn; auto.
  - set (name := trim (name_value (fields s))).
    set (url := trim (url_value (fields s))).
    destruct (decide (name = "")) as [Hn | Hn].
    { destruct (saveApp_reject trim origin src ok s) as (m & Hr); [now left|].
      rewrite Hr. eexists. split; [reflexivity|]. repeat split; cbn; auto. }
    destruct (decide (url = "")) as [Hu | Hu].
    { destruct (saveApp_reject trim origin src ok s) as (m & Hr); [right; now left|].
      rewrite Hr. eexists. split; [reflexivity|]. repeat split; cbn; auto. }
    destruct (origin url) eqn:Ho.
    + destruct (saveApp_accept trim origin src ok s Hl He Hn Hu) as (Hr & Hl').
      { fold url. congruence. }
      rewrite Hr. eexists. split; [reflexivity|].
      rewrite Hde, Hdi. now apply (steady_rendered s).
    + destruct (saveApp_reject trim origin src ok s) as (m & Hr); [right; now right|].
      rewrite Hr. eexists. split; [reflexivity|]. repeat split; cbn; auto.
  - destruct (editingIndex s) as [i|] eqn:Hi.
    + rewrite (deleteApp_spec ok s i Hl Hi). eexists. split; [reflexivity|].
      rewrite Hde, Hdi. apply (steady_rendered s); [|exact I].
      now apply splice1_items.
    + unfold deleteApp. run_monad''. rewrite Hi.
      eexists. split; [reflexivity | exact Hs].
  - eexists. split; [reflexivity|]. repeat split; cbn; auto.
  - unfold at_place at 1. run_monad''.
    destruct (grid s !! place) as [el|] eqn:Hp.
    2:{ eexists. split; [reflexivity | exact Hs]. }
    pose proof (steady_dragstart place el s Hs Hp) as Hd.
    destruct (dragovers_dragging el over _ Hd) as (g & Hr & Hperm & Hf).
    rewrite Hr.
    assert (Hundropped :
      steady (dragend (set_grid (fun _ => g) (dragstart el s)))).
    { repeat split; cbn; auto. now rewrite Hperm. }
    destruct dropped as [[place' ok]|].
    + unfold at_place. run_monad''. cbn [grid set_grid dragstart set_dragged].
      destruct (g !! place') as [x|] eqn:Hx.
      * unfold drop. run_monad''. cbn [draggedIndex set_grid dragstart set_dragged].
        destruct (reorderApps_spec ok (set_grid (fun _ => g) (dragstart el s)))
          as (Hre & Hitems & Hpm).
        { exact Hl. }
        { cbn. now rewrite Hperm. }
        cbn zeta in Hre. rewrite Hre. cbn.
        eexists. split; [reflexivity|].
        cbn in Hitems, Hpm.
        assert (Hlen : length (map (pushed (apps s)) (map index g)) = length (apps s)).
        { now rewrite Hpm. }
        unfold saveApps, dragend, set_dragged, set_stored.
        destruct ok; cbn; repeat split; cbn; auto;
          try (now rewrite Hlen); destruct (editingIndex s); auto; now rewrite Hlen.
      * eexists. split; [reflexivity | exact Hundropped].
    + eexists. split; [reflexivity | exact Hundropped].
Qed.

(** X14. The pinned-apps listeners never fail and never damage the
    list. From a page in its steady state, whatever the user does
    (opening the dialog, typing, saving, deleting, closing, dragging
    with or without a drop) and whether or not storage accepts the
    writes, every listener returns, and the page is steady again: the
    list holds only app objects (no hole, no [undefined]), every app is
    shown by exactly one node of the last render, nothing is left
    marked as dragged, and an app being edited is in the list. *)
Theorem X14_listeners_keep_page_steady
    (trim : string -> string) (origin : string -> option string)
    (src : string -> string) (events : list event) (s : t) :
  steady s ->
  exists s', run trim origin src events s = (Ok tt, s') /\ steady s'.
Proof.
  revert s. induction events as [|e events IH]; intros s Hs.
  - exists s. split; [reflexivity | exact Hs].
  - destruct (fire_steady trim origin src e s Hs) as (s1 & Hr1 & Hs1).
    destruct (IH s1 Hs1) as (s2 & Hr2 & Hs2).
    exists s2. split; [|exact Hs2].
    cbn [run]. unfold and_then. now rewrite Hr1.
Qed.

Lemma X14_listeners_keep_page_steady_witness :
  exists s',
    run plain_trim plain_origin plain_trim
        [DblClick 1; Input example_form; SaveClick true;
         Drag 0 [(2%nat, false); (1%nat, true)] (Some (1%nat, false));
         AddClick; Input example_form; SaveClick false;
         DblClick 3; DeleteClick true] started
    = (Ok tt, s')
    /\ steady s'.
Proof.
  apply (X14_listeners_keep_page_steady plain_trim plain_origin plain_trim).
  vm_compute. repeat split; auto.
Defined.

(** X15. Drag and drop. When an app is dragged over other apps and
    dropped, the new list holds the same apps as before, each once: it
    is the old list read in the order in which the nodes are shown at
    the drop. The apps other than the dragged one keep their order
    relative to one another, and after a single move over another app
    the dragged app stands immediately before it (pointer on its left
    half) or immediately after it (right half). The list is stored if
    storage accepts the write, and the grid is rendered anew. *)
Theorem X15_drag_and_drop
    (trim : string -> string) (origin : string -> option string)
    (src : string -> string)
    (place place' : nat) (over : list (nat * bool)) (ok : bool)
    (el : element) (s : t) :
  steady s -> grid s !! place = Some el -> (place' < length (apps s))%nat ->
  exists order s',
    fire trim origin src (Drag place over (Some (place', ok))) s = (Ok tt, s')
    /\ order ≡ₚ seq 0 (length (apps s))
    /\ filter (fun i => i <> index el) order
       = filter (fun i => i <> index el) (map index (grid s))
    /\ apps s' = map (pushed (apps s)) order
    /\ apps s' ≡ₚ apps s
    /\ stored s' = (if ok then Some (apps s') else stored s)
    /\ grid s' = rendered (passes s') (length (apps s'))
    /\ (forall tplace leftHalf tg,
          over = [(tplace, leftHalf)] -> grid s !! tplace = Some tg -> el <> tg ->
          exists L R,
            filter (fun i => i <> index el) (map index (grid s)) = L ++ index tg :: R
            /\ order = if leftHalf then L ++ index el :: index tg :: R
                       else L ++ index tg :: index el :: R).
Proof.
  intros Hs Hp Hlt.
  destruct (drag_drop_spec place place' over ok el s Hs Hp Hlt)
    as (g & Hperm & Hf & Hone & Hrun).
  destruct Hs as (Hl & Hg & Hde & Hdi & He).
  assert (Hel : el ∈ rendered (passes s) (length (apps s))).
  { rewrite <- Hg. eapply list_elem_of_lookup_2; eassumption. }
  assert (Hsub : forall g0, g0 ≡ₚ grid s -> g0 ⊆ rendered (passes s) (length (apps s))).
  { intros g0 H0 x Hx. rewrite <- Hg, <- H0. exact Hx. }
  assert (Ho : map index g ≡ₚ seq 0 (length (apps s))).
  { rewrite Hperm, Hg. now rewrite index_rendered. }
  destruct (pushed_items (apps s) (map index g) Hl Ho) as [Hi Hpm].
  assert (Hfi : filter (fun i => i <> index el) (map index g)
                = filter (fun i => i <> index el) (map index (grid s))).
  { rewrite <- !(index_filter (passes s) (length (apps s))); auto.
    now rewrite Hf. }
  exists (map index g).
  eexists. split.
  { cbn [fire]. unfold at_place at 1. run_monad''. rewrite Hp.
    unfold and_then in Hrun. unfold and_then. exact Hrun. }
  rewrite saveApps_items by exact Hi. cbn.
  split; [exact Ho|]. split; [exact Hfi|]. split; [reflexivity|].
  split; [exact Hpm|]. split; [reflexivity|]. split.
  { now rewrite Hpm. }
  intros tplace leftHalf tg Hov Htg Hne.
  destruct (Hone tplace leftHalf tg Hov Htg Hne) as (L & R & HLR & Hgg).
  exists (map index L), (map index R). split.
  - rewrite <- (index_filter (passes s) (length (apps s))); auto.
    rewrite HLR. now rewrite map_app.
  - rewrite Hgg. destruct leftHalf; now rewrite map_app.
Qed.

Lemma X15_drag_and_drop_witness :
  exists order s',
    fire plain_trim plain_origin plain_trim
         (Drag 0 [(2%nat, true)] (Some (2%nat, true))) started
    = (Ok tt, s')
    /\ order ≡ₚ seq 0 3
    /\ apps s' = map (pushed (apps started)) order
    /\ apps s' ≡ₚ apps started.
Proof.
  destruct (X15_drag_and_drop plain_trim plain_origin plain_trim 0 2 [(2%nat, true)] true
              (Element 1 0) started)
    as (order & s' & Hr & Ho & Hf & Ha & Hp & _).
  - vm_compute. repeat split; auto.
  - reflexivity.
  - vm_compute. lia.
  - exists order, s'. split; [exact Hr|]. split; [exact Ho|].
    split; [exact Ha | exact Hp].
Defined.

(** X16. A drag that is not dropped on an app. The list, the stored
    list and the render pass are untouched, yet the grid stays as the
    moves left it: the same nodes, the dragged one where the last move
    put it (after a single move, right before or right after the app
    passed over), the others in their old order. What is shown then
    differs from the list until the next render. *)
Theorem X16_drag_without_drop
    (trim : string -> string) (origin : string -> option string)
    (src : string -> string)
    (place : nat) (over : list (nat * bool)) (el : element) (s : t) :
  steady s -> grid s !! place = Some el ->
  exists s',
    fire trim origin src (Drag place over None) s = (Ok tt, s')
    /\ apps s' = apps s /\ stored s' = stored s /\ passes s' = passes s
    /\ grid s' ≡ₚ grid s
    /\ filter (fun x => x <> el) (grid s') = filter (fun x => x <> el) (grid s)
    /\ (forall tplace leftHalf tg,
          over = [(tplace, leftHalf)] -> grid s !! tplace = Some tg -> el <> tg ->
          exists L R,
            filter (fun x => x <> el) (grid s) = L ++ tg :: R
            /\ grid s' = if leftHalf then L ++ el :: tg :: R
                         else L ++ tg :: el :: R).
Proof.
  intros Hs Hp.
  pose proof (steady_dragstart place el s Hs Hp) as Hd.
  destruct (dragovers_dragging el over _ Hd) as (g & Hr & Hperm & Hf).
  exists (dragend (set_grid (fun _ => g) (dragstart el s))).
  split.
  { cbn [fire]. unfold at_place. run_monad''. rewrite Hp. now rewrite Hr. }
  cbn. repeat (split; [first [reflexivity | assumption]|]).
  intros tplace leftHalf tg -> Htg Hne.
  cbn [dragovers] in Hr. unfold and_then, at_place in Hr. revert Hr. run_monad''.
  cbn [grid dragstart set_dragged]. rewrite Htg.
  destruct (dragover_dragging el tg leftHalf _ Hd) as (g0 & Hr0 & _ & _ & Hex).
  { cbn. eapply list_elem_of_lookup_2; eassumption. }
  rewrite Hr0. intros Hr. injection Hr as Hr. subst g0. exact (Hex Hne).
Qed.

Lemma X16_drag_without_drop_witness :
  exists s',
    fire plain_trim plain_origin plain_trim (Drag 0 [(2%nat, false)] None) started
    = (Ok tt, s')
    /\ apps s' = apps started
    /\ grid s' = [Element 1 1; Element 1 2; Element 1 0].
Proof.
  destruct (X16_drag_without_drop plain_trim plain_origin plain_trim 0 [(2%nat, false)]
              (Element 1 0) started)
    as (s' & Hr & Ha & _).
  - vm_compute. repeat split; auto.
  - reflexivity.
  - exists s'. split; [exact Hr|]. split; [exact Ha|].
    vm_compute in Hr. injection Hr as <-. reflexivity.
Defined.

(** X17. Saving the dialog. If the trimmed name or address is empty,
    or the address is not one the host can parse, the listener only
    shows an error: list, storage and dialog stay as they are. Otherwise
    a new app is appended at the end of the list, or, when an app is
    being edited, that app alone is replaced, every other app keeping
    its place; the list is stored if storage accepts the write, the
    grid is rendered from the list and the dialog is closed. *)
Theorem X17_save_app
    (trim : string -> string) (origin : string -> option string)
    (src : string -> string) (ok : bool) (s : t) :
  let name := trim (name_value (fields s)) in
  let url := trim (url_value (fields s)) in
  let icon := match icon_preview (fields s) with Some a => src a | None => "" end in
  let saved := Item (App name url icon) in
  steady s ->
  (name = "" \/ url = "" \/ origin url = None ->
   exists message,
     saveApp trim origin src ok s = (Ok tt, showNotification message "error" s))
  /\ (name <> "" -> url <> "" -> origin url <> None ->
      exists s',
        saveApp trim origin src ok s = (Ok tt, s')
        /\ match editingIndex s with
           | None => apps s' = apps s ++ [saved]
           | Some i =>
               length (apps s') = length (apps s)
               /\ apps s' !! i = Some saved
               /\ forall j, j <> i -> apps s' !! j = apps s !! j
           end
        /\ stored s' = (if ok then Some (apps s') else stored s)
        /\ grid s' = rendered (passes s') (length (apps s'))
        /\ editingIndex s' = None /\ modalActive s' = false).
Proof.
  intros name url icon saved (Hl & Hg & Hde & Hdi & He). split.
  - apply saveApp_reject.
  - intros Hn Hu Ho.
    destruct (saveApp_accept trim origin src ok s Hl He Hn Hu Ho) as (Hr & _).
    eexists. split; [exact Hr|]. cbn.
    split; [|repeat split; reflexivity].
    destruct (editingIndex s) as [i|]; [|reflexivity].
    split; [apply length_insert|]. split.
    + now apply list_lookup_insert_eq.
    + intros j Hj. now apply list_lookup_insert_ne.
Qed.

Lemma X17_save_app_witness :
  exists s',
    saveApp plain_trim plain_origin plain_trim true (set_fields example_form started)
    = (Ok tt, s')
    /\ apps s' = apps started ++ [Item (App "Docs" "https://docs.example" "")]
    /\ stored s' = Some (apps s').
Proof.
  destruct (proj2 (X17_save_app plain_trim plain_origin plain_trim true
                     (set_fields example_form started)
                     ltac:(vm_compute; repeat split; auto))
              ltac:(discriminate) ltac:(discriminate) ltac:(discriminate))
    as (s' & Hr & Ha & Hst & _).
  exists s'. split; [exact Hr|]. split; [exact Ha | exact Hst].
Defined.

(** X18. Deleting from the dialog. When an app is being edited it is
    taken out of the list: the apps before it keep their places, the
    apps after it move up by one; the list is stored if storage accepts
    the write and the dialog is closed. When the dialog was opened to
    add an app, the delete button does nothing. *)
Theorem X18_delete_app (ok : bool) (s : t) :
  steady s ->
  match editingIndex s with
  | None => deleteApp ok s = (Ok tt, s)
  | Some i =>
      exists s',
        deleteApp ok s = (Ok tt, s')
        /\ S (length (apps s')) = length (apps s)
        /\ (forall j, (j < i)%nat -> apps s' !! j = apps s !! j)
        /\ (forall j, (i <= j)%nat -> apps s' !! j = apps s !! S j)
        /\ stored s' = (if ok then Some (apps s') else stored s)
        /\ grid s' = rendered (passes s') (length (apps s'))
        /\ editingIndex s' = None /\ modalActive s' = false
  end.
Proof.
  intros (Hl & Hg & Hde & Hdi & He).
  destruct (editingIndex s) as [i|] eqn:Hi.
  - eexists. split; [exact (deleteApp_spec ok s i Hl Hi)|]. cbn.
    split.
    { rewrite (length_splice1 i (apps s) He). lia. }
    split.
    { intros j Hj. rewrite lookup_splice1. now rewrite decide_True. }
    split.
    { intros j Hj. rewrite lookup_splice1. now rewrite decide_False by lia. }
    repeat split; reflexivity.
  - unfold deleteApp. run_monad''. now rewrite Hi.
Qed.

Lemma X18_delete_app_witness :
  exists s',
    deleteApp true (set_editingIndex (Some 1%nat) started) = (Ok tt, s')
    /\ S (length (apps s')) = length (apps started)
    /\ stored s' = Some (apps s').
Proof.
  destruct (X18_delete_app true (set_editingIndex (Some 1%nat) started)
              ltac:(vm_compute; repeat split; auto; lia))
    as (s' & Hr & Hlen & _ & _ & Hst & _).
  exists s'. split; [exact Hr|]. split; [exact Hlen | exact Hst].
Defined.

Lemma appendElements_undefined (l : list slot) : forall i s,
  Undefined ∈ l -> exists s', appendElements i l s = (Throw TypeError, s').
Proof.
  induction l as [|x l IH]; intros i s Hin.
  - now apply elem_of_nil in Hin.
  - destruct x; cbn [appendElements].
    + apply elem_of_cons in Hin as [? | Hin]; [discriminate|]. now apply IH.
    + eexists. reflexivity.
    + apply elem_of_cons in Hin as [? | Hin]; [discriminate|].
      run_monad''. now apply IH.
Qed.

(** X19. Starting the page. With nothing stored the three default
    apps are installed and stored (if storage accepts the write); a
    stored list of app objects is taken as it is, the empty list
    included, so deleting every app does not bring the defaults back;
    in both cases and when the read fails the page ends up steady. A
    list that the page stored is read back unchanged. A stored list
    with a [null] entry makes the first render throw, so the listeners
    are never set up. When the read fails the list is empty and storage
    is not written; the first app saved after that replaces whatever
    was stored. *)
Theorem X19_start
    (trim : string -> string) (origin : string -> option string)
    (src : string -> string)
    (st : option (list slot)) (ok : bool) (s : t) :
  (exists s0, start None true ok = (Ok tt, s0) /\ steady s0
              /\ apps s0 = defaults
              /\ stored s0 = if ok then Some defaults else None)
  /\ (forall l, Forall (fun x => is_item x = true) l ->
      exists s0, start (Some l) true ok = (Ok tt, s0) /\ steady s0
                 /\ apps s0 = l /\ stored s0 = Some l)
  /\ (steady s -> apps (loadApps (Some (stored (saveApps true s))) ok new) = apps s)
  /\ (forall l, Undefined ∈ l -> exists s0, start (Some l) true ok = (Throw TypeError, s0))
  /\ (exists s0, start st false ok = (Ok tt, s0) /\ steady s0
                 /\ apps s0 = [] /\ stored s0 = st
                 /\ forall f,
                      trim (name_value f) <> "" -> trim (url_value f) <> "" ->
                      origin (trim (url_value f)) <> None ->
                      exists s1,
                        run trim origin src [Input f; SaveClick true] s0 = (Ok tt, s1)
                        /\ stored s1
                           = Some [Item (App (trim (name_value f)) (trim (url_value f))
                                             (match icon_preview f with
                                              | Some a => src a
                                              | None => ""
                                              end))]).
Proof.
  split; [|split; [|split; [|split]]].
  - unfold start, init. run_monad''. cbn.
    rewrite renderApps_items.
    + eexists. split; [reflexivity|]. destruct ok; cbn.
      * split; [repeat split; cbn; auto; repeat constructor|]. auto.
      * split; [repeat split; cbn; auto; repeat constructor|]. auto.
    + destruct ok; cbn; repeat constructor.
  - intros l Hl. unfold start, init. run_monad''. cbn.
    rewrite renderApps_items by exact Hl.
    eexists. split; [reflexivity|]. cbn. repeat split; cbn; auto.
  - intros (Hl & _). cbn. now rewrite serialize_items.
  - intros l Hin. unfold start, init, renderApps. run_monad''. cbn.
    now apply appendElements_undefined.
  - unfold start, init. run_monad''. cbn.
    eexists. split; [reflexivity|]. split; [repeat split; cbn; auto|].
    split; [reflexivity|]. split; [reflexivity|].
    intros f Hn Hu Ho. cbn [run fire]. run_monad''.
    match goal with |- context [saveApp trim origin src true ?s0] =>
      destruct (saveApp_accept trim origin src true s0) as (Hr & _);
        [constructor | exact I | exact Hn | exact Hu | exact Ho |]
    end.
    rewrite Hr. eexists. split; reflexivity.
Qed.

Lemma X19_start_witness :
  apps (loadApps (Some (stored (saveApps true started))) false new) = apps started.
Proof.
  apply (proj1 (proj2 (proj2
    (X19_start plain_trim plain_origin plain_trim None false started)))).
  vm_compute. repeat split; auto.
Defined.

End PinnedAppsFacts.
(** ** Settings: what a save reaches, import, reset and reload *)

Section SettingsMoreFacts.
Import Json App Startup.

Lemma clock_updateSettings_clock ev d a :
  clockManager (clock_updateSettings ev d a)
  = let c := clockManager a in
    let c1 := clock_applySettings ev
                (ClockManager (spread (clock_settings c) d) (clock_hidden c)
                              (clockText c) (interval c)) in
    if strict_ne (clock_settings c !! "showSeconds") (clock_settings c1 !! "showSeconds")
    then startClock ev c1 else c1.
Proof.
  unfold clock_updateSettings.
  match goal with
  | |- context [storage_set ev ?k ?v ?x] =>
      destruct (storage_set_frame ev k v x) as (H1 & H2 & H3 & H4 & H5 & H6);
      set (a1 := snd (storage_set ev k v x)) in *
  end.
  cbn zeta. cbn [clockManager set_clock] in H3.
  destruct (strict_ne _ _) eqn:Hne; rewrite H3 in Hne; rewrite Hne; cbn;
    now rewrite H3.
Qed.

Lemma storage_set_storage ev key value a :
  storage (snd (storage_set ev key value a))
  = if storage_set_ok ev key then <[key := value]> (storage a) else storage a.
Proof. unfold storage_set. now destruct (storage_set_ok ev key). Qed.

Lemma clock_updateSettings_storage ev d a k :
  k <> "clockSettings" ->
  storage (clock_updateSettings ev d a) !! k = storage a !! k.
Proof.
  intros Hk. unfold clock_updateSettings. cbn zeta.
  match goal with
  | |- context [storage_set ev ?key ?v ?x] =>
      pose proof (storage_set_storage ev key v x) as Hs;
      set (a1 := snd (storage_set ev key v x)) in *
  end.
  assert (Hl : storage a1 !! k = storage a !! k).
  { rewrite Hs. destruct (storage_set_ok ev "clockSettings"); cbn; [|reflexivity].
    now rewrite lookup_insert_ne by congruence. }
  destruct (strict_ne _ _); cbn; exact Hl.
Qed.

Lemma background_updateSettings_storage ev d a k :
  k <> "backgroundSettings" ->
  storage (background_updateSettings ev d a) !! k = storage a !! k.
Proof.
  intros Hk. unfold background_updateSettings. cbn zeta.
  match goal with
  | |- context [storage_set ev ?key ?v ?x] =>
      pose proof (storage_set_storage ev key v x) as Hs;
      set (a1 := snd (storage_set ev key v x)) in *
  end.
  cbn. rewrite Hs. destruct (storage_set_ok ev "backgroundSettings"); cbn; [|reflexivity].
  now rewrite lookup_insert_ne by congruence.
Qed.

Lemma handleSettingsChange_storage ev d a :
  storage (handleSettingsChange ev d a) = storage a.
Proof.
  unfold handleSettingsChange, updateDisplay.
  destruct (getProp d "enabled") as [enabled|]; [|reflexivity].
  destruct (truthy enabled); cbn;
    destruct (getProp (settings (settingsManager a) !! "stats") "enabled");
    reflexivity.
Qed.

(** What one round of events leaves of the clock and of storage. *)
Lemma dispatchSettingsEvents_rest ev a :
  let s := settings (settingsManager a) in
  let a' := dispatchSettingsEvents ev a in
  clockManager a' = clockManager (clock_updateSettings ev (s !! "clock") a)
  /\ storage a' !! "newTabSettings" = storage a !! "newTabSettings".
Proof.
  intros s a'. subst a'. unfold dispatchSettingsEvents.
  rewrite dispatch_clock.
  set (e1 := CustomEvent "clockSettingsChanged" _).
  destruct (clock_updateSettings_frame ev (s !! "clock") (record_dispatch e1 a))
    as (M1 & _).
  pose proof (clock_updateSettings_clock ev (s !! "clock") (record_dispatch e1 a)) as C1.
  pose proof (clock_updateSettings_storage ev (s !! "clock") (record_dispatch e1 a)
                "newTabSettings" ltac:(discriminate)) as S1.
  fold s. set (b1 := clock_updateSettings ev _ (record_dispatch e1 a)) in *.
  cbn zeta. rewrite dispatch_app.
  set (b2 := record_dispatch (CustomEvent "appSettingsChanged" _) b1).
  rewrite dispatch_background.
  match goal with
  | |- context [background_updateSettings ev ?d ?x] =>
      destruct (background_updateSettings_frame ev d x) as (_ & _ & _ & C3 & _);
      pose proof (background_updateSettings_storage ev d x "newTabSettings"
                    ltac:(discriminate)) as S3;
      set (b3 := background_updateSettings ev d x) in *
  end.
  rewrite dispatch_stats.
  match goal with
  | |- context [handleSettingsChange ev ?d ?x] =>
      destruct (handleSettingsChange_frame ev d x) as (_ & _ & _ & C4 & _);
      pose proof (handleSettingsChange_storage ev d x) as S4;
      set (b4 := handleSettingsChange ev d x) in *
  end.
  cbn [record_dispatch clockManager storage] in *.
  split.
  - rewrite C4, C3. subst b2. cbn [record_dispatch clockManager]. rewrite C1.
    now rewrite clock_updateSettings_clock.
  - rewrite S4, S3. subst b2. cbn [record_dispatch storage]. exact S1.
Qed.

Lemma saveSettings_ok ev a :
  storage_set_ok ev "newTabSettings" = true ->
  saveSettings ev a
  = dispatchSettingsEvents ev
      (showStatus "Settings saved successfully!" "success"
         (Page (<["newTabSettings" := JObj (settings (settingsManager a))]> (storage a))
               (settingsManager a) (clockManager a) (pinnedAppsManager a)
               (backgroundEngine a) (statsTracker a) (dispatched a))).
Proof. intros Hok. unfold saveSettings, storage_set. now rewrite Hok. Qed.

Lemma saveSettings_fail ev a :
  storage_set_ok ev "newTabSettings" = false ->
  saveSettings ev a = showStatus "Failed to save settings" "error" a.
Proof. intros Hok. unfold saveSettings, storage_set. now rewrite Hok. Qed.

(** X20. What a save reaches in the clock and in the background
    engine. The panel keeps the clock's mode and visibility under the
    names [format] and [hidden], and the kind of background under
    [type]; the clock reads [use24HourFormat] and [showClock], the
    engine [backgroundType]. So when the sections carry no field of
    those three names (the constructor, the reset and the save button
    never write one), a successful save leaves the clock's 12/24-hour
    mode and its visibility, and the engine's background type, as they
    were, and whether the clock is hidden still follows the clock's own
    [showClock]. The fields whose names agree do arrive: [showSeconds],
    and [uploadSettings], which replaces the engine's as a whole. *)
Theorem X20_save_reach (ev : env) (a : app) :
  let s := settings (settingsManager a) in
  let c := clock_settings (clockManager a) in
  let b := background_settings (backgroundEngine a) in
  let a' := saveSettings ev a in
  storage_set_ok ev "newTabSettings" = true ->
  own_props (s !! "clock") !! "use24HourFormat" = None ->
  own_props (s !! "clock") !! "showClock" = None ->
  own_props (s !! "background") !! "backgroundType" = None ->
  clock_settings (clockManager a') !! "use24HourFormat" = c !! "use24HourFormat"
  /\ clock_settings (clockManager a') !! "showClock" = c !! "showClock"
  /\ clock_hidden (clockManager a') = negb (truthy (c !! "showClock"))
  /\ background_settings (backgroundEngine a') !! "backgroundType" = b !! "backgroundType"
  /\ (forall v, own_props (s !! "clock") !! "showSeconds" = Some v ->
        clock_settings (clockManager a') !! "showSeconds" = Some v)
  /\ (forall v, own_props (s !! "background") !! "uploadSettings" = Some v ->
        background_settings (backgroundEngine a') !! "uploadSettings" = Some v).
Proof.
  intros s c b a' Hok H24 Hshow Hty. subst a'.
  rewrite (saveSettings_ok ev a Hok).
  match goal with
  | |- context [dispatchSettingsEvents ev ?x] =>
      destruct (dispatchSettingsEvents_spec ev x) as (_ & _ & _ & Hc & Hb & _);
      destruct (dispatchSettingsEvents_rest ev x) as (Hcm & _);
      set (a' := dispatchSettingsEvents ev x) in *
  end.
  cbn [showStatus set_manager settingsManager settings clockManager backgroundEngine]
    in Hc, Hb, Hcm.
  fold s in Hc, Hb, Hcm.
  assert (Hsc : clock_settings (clockManager a') !! "showClock" = c !! "showClock").
  { rewrite Hc, lookup_spread. now rewrite Hshow. }
  split; [rewrite Hc, lookup_spread; now rewrite H24|].
  split; [exact Hsc|]. split.
  { rewrite Hcm, clock_updateSettings_clock.
    cbn [showStatus set_manager clockManager]. cbn zeta. fold c.
    assert (Hs : spread c (s !! "clock") !! "showClock" = c !! "showClock").
    { rewrite lookup_spread. now rewrite Hshow. }
    unfold clock_applySettings. cbn [clock_settings]. rewrite Hs.
    destruct (truthy (c !! "showClock")); cbn;
      destruct (strict_ne _ _); reflexivity. }
  split; [rewrite Hb, lookup_spread; now rewrite Hty|].
  split.
  - intros v Hv. rewrite Hc, lookup_spread. now rewrite Hv.
  - intros v Hv. rewrite Hb, lookup_spread. now rewrite Hv.
Qed.

Lemma X20_save_reach_witness :
  clock_settings (clockManager (saveSettings fair_weather edited)) !! "use24HourFormat"
  = clock_settings (clockManager edited) !! "use24HourFormat"
  /\ clock_hidden (clockManager (saveSettings fair_weather edited)) = false
  /\ clock_settings (clockManager (saveSettings fair_weather edited)) !! "showSeconds"
     = Some (JBool true).
Proof.
  destruct (X20_save_reach fair_weather edited eq_refl eq_refl eq_refl eq_refl)
    as (H1 & _ & H3 & _ & H5 & _).
  split; [exact H1|]. split; [exact H3|].
  apply H5. reflexivity.
Defined.

Lemma saveSettings_manager ev a :
  settings (settingsManager (saveSettings ev a)) = settings (settingsManager a).
Proof.
  destruct (storage_set_ok ev "newTabSettings") eqn:Hok.
  - rewrite (saveSettings_ok ev a Hok).
    match goal with
    | |- context [dispatchSettingsEvents ev ?x] =>
        destruct (dispatchSettingsEvents_spec ev x) as (_ & Hm & _)
    end.
    now rewrite Hm.
  - now rewrite (saveSettings_fail ev a Hok).
Qed.

(** X21. Importing a document that has the four sections. The
    document's top-level fields replace those of the settings in
    memory, whatever happens next. If storage accepts the write the
    merged settings are stored and the four events are published;
    if it refuses, nothing is stored and no module is told. The status
    line does not depend on that: it ends as a success when the form
    can be filled from the merged settings, and as a failure when
    filling the form throws, although by then the settings have been
    replaced (and, storage permitting, saved and published). Importing
    the page's own export leaves the settings as they are. *)
Theorem X21_import_valid_document
    (populateSettings : gmap string jval -> result unit)
    (ev : env) (importedSettings : jval) (a : app) :
  validateSettings importedSettings = Ok tt ->
  let merged := spread (settings (settingsManager a)) (Some importedSettings) in
  let a' := importSettings populateSettings ev (Text (Ok importedSettings)) a in
  settings (settingsManager a') = merged
  /\ statusMessage (settingsManager a')
     = Some match populateSettings merged with
            | Ok _ => ("Settings imported successfully", "success")
            | Throw e => ("Failed to import settings: " ++ e, "error")
            end
  /\ (if storage_set_ok ev "newTabSettings"
      then storage a' !! "newTabSettings" = Some (JObj merged)
           /\ dispatched a'
              = (dispatched a ++
                 [ CustomEvent "clockSettingsChanged" (merged !! "clock");
                   CustomEvent "appSettingsChanged" (merged !! "apps");
                   CustomEvent "backgroundSettingsChanged" (merged !! "background");
                   CustomEvent "statsSettingsChanged" (merged !! "stats") ])%list
      else storage a' = storage a /\ dispatched a' = dispatched a
           /\ clockManager a' = clockManager a
           /\ backgroundEngine a' = backgroundEngine a)
  /\ (importedSettings = fst (exportSettings a) -> merged = settings (settingsManager a)).
Proof.
  intros Hv merged a'. subst a'. unfold importSettings. rewrite Hv.
  set (a1 := set_manager _ a).
  assert (Hs1 : settings (settingsManager a1) = merged) by reflexivity.
  pose proof (saveSettings_manager ev a1) as Hs2. rewrite Hs1 in Hs2.
  rewrite Hs2.
  assert (Hrest :
    if storage_set_ok ev "newTabSettings"
    then storage (saveSettings ev a1) !! "newTabSettings" = Some (JObj merged)
         /\ dispatched (saveSettings ev a1)
            = (dispatched a ++
               [ CustomEvent "clockSettingsChanged" (merged !! "clock");
                 CustomEvent "appSettingsChanged" (merged !! "apps");
                 CustomEvent "backgroundSettingsChanged" (merged !! "background");
                 CustomEvent "statsSettingsChanged" (merged !! "stats") ])%list
    else storage (saveSettings ev a1) = storage a
         /\ dispatched (saveSettings ev a1) = dispatched a
         /\ clockManager (saveSettings ev a1) = clockManager a
         /\ backgroundEngine (saveSettings ev a1) = backgroundEngine a).
  { destruct (storage_set_ok ev "newTabSettings") eqn:Hok.
    - rewrite (saveSettings_ok ev a1 Hok).
      match goal with
      | |- context [dispatchSettingsEvents ev ?x] =>
          destruct (dispatchSettingsEvents_spec ev x) as (Hd & _);
          destruct (dispatchSettingsEvents_rest ev x) as (_ & Hst)
      end.
      split; [|exact Hd].
      rewrite Hst. cbn. now rewrite lookup_insert_eq.
    - rewrite (saveSettings_fail ev a1 Hok). cbn. auto. }
  split; [|split; [|split]].
  - destruct (populateSettings merged); cbn; exact Hs2.
  - destruct (populateSettings merged); reflexivity.
  - destruct (populateSettings merged); cbn [showStatus set_manager storage dispatched
      clockManager backgroundEngine]; exact Hrest.
  - intros ->. subst merged. unfold spread, exportSettings. cbn [fst own_props].
    apply map_eq. intros k. rewrite lookup_union.
    now destruct (settings (settingsManager a) !! k).
Qed.

Lemma X21_import_valid_document_witness :
  statusMessage (settingsManager
    (importSettings (fun _ => Ok tt) storage_down
       (Text (Ok (JObj default_settings))) edited))
  = Some ("Settings imported successfully", "success")
  /\ storage (importSettings (fun _ => Ok tt) storage_down
                (Text (Ok (JObj default_settings))) edited)
     = storage edited.
Proof.
  destruct (X21_import_valid_document (fun _ => Ok tt) storage_down
              (JObj default_settings) edited eq_refl)
    as (_ & Hst & Hrest & _).
  split; [exact Hst | exact (proj1 Hrest)].
Defined.

(** X22. What is saved is what the next page loads. After a save that
    storage accepted, a page built over that storage loads settings in
    which every top-level field of the saved settings has the saved
    value, whatever the modules wrote to storage in reaction to the
    save; the fields the saved settings lack are the constructor's. *)
Theorem X22_save_then_load (ev ev' : env) (a : app) :
  storage_set_ok ev "newTabSettings" = true ->
  storage_get_ok ev' = true ->
  let saved := settings (settingsManager a) in
  let loaded :=
    settings (settingsManager (loadSettings ev' (new (storage (saveSettings ev a))))) in
  loaded = saved ∪ default_settings
  /\ (forall key v, saved !! key = Some v -> loaded !! key = Some v)
  /\ (forall key, saved !! key = None -> loaded !! key = default_settings !! key).
Proof.
  intros Hok Hget saved loaded.
  assert (Hst : storage (saveSettings ev a) !! "newTabSettings" = Some (JObj saved)).
  { rewrite (saveSettings_ok ev a Hok).
    match goal with
    | |- context [dispatchSettingsEvents ev ?x] =>
        destruct (dispatchSettingsEvents_rest ev x) as (_ & H)
    end.
    rewrite H. cbn. now rewrite lookup_insert_eq. }
  assert (Hl : loaded = saved ∪ default_settings).
  { subst loaded. unfold loadSettings. rewrite Hget.
    cbn [new storage]. rewrite Hst. reflexivity. }
  split; [exact Hl|]. rewrite Hl. split.
  - intros key v Hk. now apply lookup_union_Some_l.
  - intros key Hk. rewrite lookup_union_r; auto.
Qed.

Lemma X22_save_then_load_witness :
  settings (settingsManager
    (loadSettings fair_weather (new (storage (saveSettings fair_weather edited)))))
  !! "apps" = Some edited_apps.
Proof.
  refine (proj1 (proj2 (X22_save_then_load fair_weather fair_weather edited
                          eq_refl eq_refl)) "apps" edited_apps _).
  reflexivity.
Defined.

Lemma strict_ne_truthy (x y : option jval) :
  strict_ne x y = false -> truthy x = truthy y.
Proof.
  destruct x as [[| b | q | s | l | o]|], y as [[| b' | q' | s' | l' | o']|];
    cbn; try discriminate; try reflexivity.
  - intros H. apply negb_false_iff, Bool.eqb_prop in H. now subst.
  - intros H. apply negb_false_iff, Qeq_bool_iff in H. unfold Qeq in H.
    f_equal. destruct (Z.eqb_spec (Qnum q) 0), (Z.eqb_spec (Qnum q') 0);
      try reflexivity; exfalso; nia.
  - intros H. apply negb_false_iff, String.eqb_eq in H. now subst.
Qed.

Lemma in_step_startClock ev c : in_step (startClock ev c).
Proof. reflexivity. Qed.

Lemma in_step_updateSettings ev d a :
  in_step (clockManager a) -> in_step (clockManager (clock_updateSettings ev d a)).
Proof.
  intros Hin. rewrite clock_updateSettings_clock. cbn zeta.
  set (c := clockManager a) in *.
  set (c1 := clock_applySettings ev _).
  assert (Hs : clock_settings c1 = spread (clock_settings c) d).
  { subst c1. now rewrite clock_applySettings_settings. }
  assert (Hi : interval c1 = interval c).
  { subst c1. unfold clock_applySettings. cbn. now destruct (truthy _). }
  destruct (strict_ne _ _) eqn:Hne; [apply in_step_startClock|].
  apply strict_ne_truthy in Hne.
  unfold in_step, period in *. rewrite Hi, Hin. now rewrite Hne.
Qed.

(** X23. The clock's timer keeps step with the seconds setting. Once
    the clock has started, and after every settings change it receives
    and every save of the panel, whether storage works or not, a timer
    is running and its period is one second when seconds are shown and
    one minute when they are not. *)
Theorem X23_clock_timer_in_step (ev ev' : env) (a : app) :
  in_step (clockManager (clock_init ev ev' a))
  /\ (in_step (clockManager a) ->
      (forall d, in_step (clockManager (clock_updateSettings ev d a)))
      /\ in_step (clockManager (saveSettings ev a))).
Proof.
  split; [apply in_step_startClock|].
  intros Hin. split; [intros d; now apply in_step_updateSettings|].
  destruct (storage_set_ok ev "newTabSettings") eqn:Hok.
  - rewrite (saveSettings_ok ev a Hok).
    match goal with
    | |- context [dispatchSettingsEvents ev ?x] =>
        destruct (dispatchSettingsEvents_rest ev x) as (Hc & _)
    end.
    rewrite Hc. now apply in_step_updateSettings.
  - now rewrite (saveSettings_fail ev a Hok).
Qed.

Lemma X23_clock_timer_in_step_witness :
  in_step (clockManager (saveSettings fair_weather
                           (clock_init fair_weather fair_weather edited))).
Proof.
  apply (proj2 (proj2 (X23_clock_timer_in_step fair_weather fair_weather
                         (clock_init fair_weather fair_weather edited))
                  ltac:(reflexivity))).
Defined.

(** X25. Resetting the settings. When the user confirms, the settings
    in memory become the reset literal, which is the constructor's
    settings without the [cycle] field of the API section. If the form
    can be filled the status line ends as [Settings reset to defaults],
    also when storage refused the write, in which case nothing was
    stored and no module was told. When the user declines nothing
    happens. *)
Theorem X25_reset_to_defaults
    (populateSettings : gmap string jval -> result unit) (ev : env) (a : app) :
  let a' := snd (resetToDefaults populateSettings true ev a) in
  resetToDefaults populateSettings false ev a = (Ok tt, a)
  /\ settings (settingsManager a') = reset_settings
  /\ (populateSettings reset_settings = Ok tt ->
      statusMessage (settingsManager a') = Some ("Settings reset to defaults", "success"))
  /\ (storage_set_ok ev "newTabSettings" = false ->
      storage a' = storage a /\ dispatched a' = dispatched a
      /\ clockManager a' = clockManager a /\ backgroundEngine a' = backgroundEngine a)
  /\ (storage_set_ok ev "newTabSettings" = true ->
      storage a' !! "newTabSettings" = Some (JObj reset_settings))
  /\ lookup_path (JObj reset_settings) ["background"; "apiSettings"; "cycle"] = None
  /\ lookup_path (JObj default_settings) ["background"; "apiSettings"; "cycle"]
     = Some (JStr "refresh").
Proof.
  cbn zeta. split; [reflexivity|]. unfold resetToDefaults.
  set (a1 := set_manager _ a).
  pose proof (saveSettings_manager ev a1) as Hs.
  change (settings (settingsManager a1)) with reset_settings in Hs.
  rewrite Hs.
  split; [destruct (populateSettings reset_settings); cbn; exact Hs|].
  split; [intros ->; reflexivity|].
  split; [|split; [|split; reflexivity]].
  - intros Hok. rewrite (saveSettings_fail ev a1 Hok).
    destruct (populateSettings reset_settings); cbn; auto.
  - intros Hok.
    assert (H : storage (saveSettings ev a1) !! "newTabSettings"
                = Some (JObj reset_settings)).
    { rewrite (saveSettings_ok ev a1 Hok).
      match goal with
      | |- context [dispatchSettingsEvents ev ?x] =>
          destruct (dispatchSettingsEvents_rest ev x) as (_ & H)
      end.
      rewrite H. cbn. now rewrite lookup_insert_eq. }
    destruct (populateSettings reset_settings); cbn; exact H.
Qed.

Lemma X25_reset_to_defaults_witness :
  statusMessage (settingsManager
    (snd (resetToDefaults (fun _ => Ok tt) true storage_down edited)))
  = Some ("Settings reset to defaults", "success")
  /\ storage (snd (resetToDefaults (fun _ => Ok tt) true storage_down edited))
     = storage edited.
Proof.
  destruct (X25_reset_to_defaults (fun _ => Ok tt) storage_down edited)
    as (_ & _ & Hst & Hfail & _).
  split; [exact (Hst eq_refl) | exact (proj1 (Hfail eq_refl))].
Defined.

End SettingsMoreFacts.
(** ** Options page: import, export and reset of the stored data *)

Section OptionsFacts.
Import Json Options.

Lemma validateSettings_object (o : gmap string jval) :
  validateSettings (JObj o)
  = if existsb (fun kv => valid_section (fst kv)) (map_to_list o) then Ok tt
    else Throw "Settings file does not contain valid configuration sections".
Proof. reflexivity. Qed.

(** X26. Importing on the options page. A document that passes the
    validation and that the user confirms replaces the stored data: the
    store is cleared and then holds the document's top-level fields and
    nothing else, so importing what the page exported restores the
    store as it was. The two steps are separate: when the write fails
    after the clearing succeeded, the store is left empty. When the
    user declines, or the clearing itself fails, the store is
    untouched. Local storage is never changed by an import. *)
Theorem X26_options_import (ev : env) (document : jval) (p : page) :
  validateSettings document = Ok tt ->
  let p' := importSettings ev (App.Text (Ok document)) p in
  local p' = local p
  /\ (confirmed ev = false -> p' = p)
  /\ (confirmed ev = true -> sync_clear_ok ev = false -> sync p' = sync p)
  /\ (confirmed ev = true -> sync_clear_ok ev = true -> set_ok ev = false ->
      sync p' = ∅
      /\ status p' = Some ("Failed to import settings: " ++ storage_error ev, "error"))
  /\ (confirmed ev = true -> sync_clear_ok ev = true -> set_ok ev = true ->
      sync p' = own_props (Some document)
      /\ status p' = Some ("Settings imported successfully", "success")
      /\ forall p0 ev0, fst (exportSettings ev0 p0) = Some document ->
                        sync p' = sync p0).
Proof.
  intros Hv p'. subst p'. unfold importSettings. rewrite Hv.
  destruct (confirmed ev), (sync_clear_ok ev), (set_ok ev); cbn;
    (split; [reflexivity|]);
    (split; [intros; first [reflexivity | discriminate]|]);
    (split; [intros; first [reflexivity | discriminate]|]);
    (split; [intros; first [discriminate | split; reflexivity]|]);
    try (intros; discriminate).
  intros _ _ _. rewrite (right_id_L ∅ (∪)).
  split; [reflexivity|]. split; [reflexivity|].
  intros p0 ev0. unfold exportSettings. destruct (get_ok ev0); cbn; [|discriminate].
  intros H. injection H as <-. reflexivity.
Qed.

Lemma X26_options_import_witness :
  sync (importSettings write_fails
          (App.Text (Ok (JObj {[ "statsData" := JNull ]}))) some_storage)
  = ∅.
Proof.
  exact (proj1 (proj1 (proj2 (proj2 (proj2
    (X26_options_import write_fails (JObj {[ "statsData" := JNull ]}) some_storage
       eq_refl)))) eq_refl eq_refl eq_refl)).
Defined.

Lemma keys_among_spec (keys : list string) (o : gmap string jval) (key : string) :
  keys_among keys o = true -> is_Some (o !! key) -> key ∈ keys.
Proof.
  intros H [v Hv]. unfold keys_among in H. rewrite forallb_forall in H.
  specialize (H (key, v)). cbn in H.
  eapply bool_decide_eq_true_1. apply H.
  apply list_elem_of_In, elem_of_map_to_list, Hv.
Qed.

Lemma required_not_valid (key : string) :
  key ∈ App.required -> valid_section key = false.
Proof.
  intros H. unfold App.required in H.
  repeat (apply elem_of_cons in H as [-> | H]; [vm_compute; reflexivity|]).
  now apply elem_of_nil in H.
Qed.

Lemma written_not_required (st : gmap string jval) :
  keys_among written_keys st = true -> st !! "clock" = None.
Proof.
  intros H. destruct (st !! "clock") eqn:Hc; [|reflexivity].
  apply (keys_among_spec _ _ "clock") in H; [|rewrite Hc; eauto].
  unfold written_keys in H.
  repeat (apply elem_of_cons in H as [? | H]; [discriminate|]).
  now apply elem_of_nil in H.
Qed.

(** X27. The two export formats do not cross. The new-tab settings
    panel exports its settings object, whose top-level fields are among
    [clock], [apps], [background] and [stats]; the options page accepts
    only documents with a field named [newTabSettings],
    [backgroundSettings], [statsData] or [pinnedApps], or ending in
    [Settings], and so rejects every such export and changes nothing.
    The options page exports the store, whose keys are those the
    extension writes; none of them is [clock], so the panel rejects
    every such export for want of the [clock] section. The export
    taken right after a reset of all data, which holds only the install
    date, is rejected by the options page itself. *)
Theorem X27_exports_do_not_cross
    (populateSettings : gmap string jval -> result unit)
    (ev : env) (aev : App.env) (a : App.app) (p : page) :
  (keys_among App.required (App.settings (App.settingsManager a)) = true ->
   importSettings ev (App.Text (Ok (fst (Startup.exportSettings a)))) p
   = showStatus ("Failed to import settings: "
                 ++ "Settings file does not contain valid configuration sections")
                "error" p)
  /\ (keys_among written_keys (sync p) = true ->
      get_ok ev = true ->
      exists document,
        fst (exportSettings ev p) = Some document
        /\ App.importSettings populateSettings aev (App.Text (Ok document)) a
           = App.showStatus ("Failed to import settings: "
                             ++ "Missing required property: clock") "error" a)
  /\ (confirmed ev = true -> sync_clear_ok ev = true -> local_clear_ok ev = true ->
      set_ok ev = true -> get_ok ev = true ->
      exists document,
        fst (exportSettings ev (resetAllData ev p)) = Some document
        /\ validateSettings document
           = Throw "Settings file does not contain valid configuration sections").
Proof.
  split; [|split].
  - intros Hkeys. unfold importSettings, Startup.exportSettings. cbn [fst].
    rewrite validateSettings_object.
    destruct (existsb _ _) eqn:Hex; [|reflexivity].
    apply existsb_exists in Hex as ([k v] & Hin & Hval).
    apply list_elem_of_In, elem_of_map_to_list in Hin.
    rewrite required_not_valid in Hval; [discriminate|].
    apply (keys_among_spec _ _ k Hkeys). cbn. rewrite Hin. eauto.
  - intros Hkeys Hget. exists (JObj (sync p)). unfold exportSettings. rewrite Hget.
    split; [reflexivity|].
    unfold App.importSettings, App.validateSettings, App.required.
    cbn [foldl]. unfold App.check at 4. cbn [getProp own_props].
    rewrite (written_not_required _ Hkeys). cbn [truthy].
    cbn. reflexivity.
  - intros Hc Hsc Hlc Hs Hg. unfold exportSettings, resetAllData.
    rewrite Hc, Hsc, Hlc, Hs, Hg. cbn [fst showStatus sync].
    eexists. split; [reflexivity|].
    rewrite validateSettings_object, insert_empty, map_to_list_singleton.
    vm_compute. reflexivity.
Qed.

Lemma X27_exports_do_not_cross_witness :
  importSettings willing (App.Text (Ok (fst (Startup.exportSettings App.edited))))
    some_storage
  = showStatus ("Failed to import settings: "
                ++ "Settings file does not contain valid configuration sections")
               "error" some_storage.
Proof.
  apply (proj1 (X27_exports_do_not_cross (fun _ => Ok tt) willing App.fair_weather
                  App.edited some_storage)).
  vm_compute. reflexivity.
Defined.

End OptionsFacts.
(** ** The time formatter of [window.utils] *)

Section FormatTimeFacts.
Import Clock.

(** X28. The time formatter of [window.utils]. For an hour of the day
    and minutes and seconds below sixty, it gives two digits for the
    hour (the hour itself in 24-hour format, otherwise 12 for hours 0
    and 12 and the hour modulo 12 for the others), a colon and two
    digits for the minutes, then, when seconds are asked for, a colon
    and two digits for the seconds, and last, in 12-hour format, a
    space and AM below 12 or PM from 12 on. An omitted format is the
    12-hour one and omitted seconds are shown. *)
Theorem X28_formatTime (h m s : Z) (format24 showSeconds : option bool) :
  0 <= h < 24 -> 0 <= m < 60 -> 0 <= s < 60 ->
  let f24 := default false format24 in
  let sec := default true showSeconds in
  formatTime h m s format24 showSeconds
  = (two_digits (if f24 then h else hour12 h) ++ ":" ++ two_digits m)
    ++ (if sec then ":" ++ two_digits s else "")
    ++ (if f24 then "" else if 12 <=? h then " PM" else " AM")
  /\ formatTime h m s None None = formatTime h m s (Some false) (Some true)
  /\ 1 <= hour12 h <= 12.
Proof.
  intros Hh Hm Hs f24 sec.
  pose proof (hour12_range h Hh) as H12.
  split; [|split; [reflexivity | exact H12]].
  unfold formatTime. fold f24 sec. fold (hour12 h).
  change (Js.padStart 2 "0" (Js.toString m)) with (padZero m).
  change (Js.padStart 2 "0" (Js.toString s)) with (padZero s).
  rewrite !padZero_two_digits by lia.
  destruct f24; cbn [negb].
  - change (Js.padStart 2 "0" (Js.toString h)) with (padZero h).
    now rewrite padZero_two_digits by lia.
  - change (Js.padStart 2 "0" (Js.toString (hour12 h))) with (padZero (hour12 h)).
    now rewrite padZero_two_digits by lia.
Qed.

Lemma X28_formatTime_witness :
  formatTime 15 4 9 None None = "03:04:09 PM"
  /\ formatTime 15 4 9 (Some true) (Some false) = "15:04".
Proof.
  split.
  - rewrite (proj1 (X28_formatTime 15 4 9 None None ltac:(lia) ltac:(lia) ltac:(lia))).
    reflexivity.
  - rewrite (proj1 (X28_formatTime 15 4 9 (Some true) (Some false)
                      ltac:(lia) ltac:(lia) ltac:(lia))).
    reflexivity.
Defined.

End FormatTimeFacts.
